(** * EdgeAI Smart Parking: the transmission gate and its message decoder

    A shallow embedding of [edge_simulator.py] (the gating loop and the
    end-of-run metrics) and of [streamlit_dashboard.py] (the payload
    decoder, the queue drain loop and the row selections of the page),
    followed by the properties the specification states about them and
    by further properties of the two programs.

    Conventions of the embedding.
    - A Python [str] is a [string]; one [ascii] is one code point below
      256, so the character classes are those of Python restricted to
      that range.
    - A Python [int] is a [Z].  [int] of a text refuses more than 4300
      digits, the default of [sys.int_max_str_digits]; the same limit of
      [str] is not modelled: the ints printed are an occupancy and the
      counts of the samples.
    - A Python [float] is a [pyfloat]: a rational for a finite value, or
      an infinity, or NaN.  Arithmetic rounds to the nearest binary64
      value, ties to even ([round_double]).  Negative zero is not
      distinguished from zero.
    - A dict is a [gmap]; a [deque(maxlen=2000)] is a list whose head is
      the left end.
    - A raised exception is a [Raise] result; state changes made before
      the raise are kept.
    - [print] and [time.sleep] have no counterpart. *)

From Stdlib Require Import ZArith QArith Qround Qabs Qpower Lqa String Ascii List Lia Bool.
From Stdlib Require Import DecimalString DecimalPos.
From stdpp Require Import base strings gmap list.

Open Scope Z_scope.

(** Texts are built and taken apart by computation throughout. *)
#[local] Arguments String.append !s1 s2 : simpl nomatch.

(* ================================================================== *)
(** * Part I: definitions *)
(* ================================================================== *)

(** ** Python values shared by both programs *)

Inductive exn : Type :=
| KeyError (key : string)
| ValueError (msg : string)
| OverflowError (msg : string).

Inductive result (A : Type) : Type :=
| Ok (a : A)
| Raise (e : exn).
Arguments Ok {A} a.
Arguments Raise {A} e.

Inductive pyfloat : Type :=
| Finite (q : Q)
| PosInf
| NegInf
| NaN.

(** [x < y] and [x > y] on floats; any comparison with NaN is false. *)
Definition float_ltb (x y : pyfloat) : bool :=
  match x, y with
  | NaN, _ | _, NaN => false
  | NegInf, NegInf => false
  | NegInf, _ => true
  | _, NegInf => false
  | PosInf, _ => false
  | Finite _, PosInf => true
  | Finite a, Finite b => if Qlt_le_dec a b then true else false
  end.

Definition float_gtb (x y : pyfloat) : bool := float_ltb y x.

(** Powers of two and of ten with an integer exponent. *)
Definition Qpow2 (s : Z) : Q :=
  if 0 <=? s then inject_Z (2 ^ s) else 1 # Z.to_pos (2 ^ (- s)).

Definition Qpow10 (s : Z) : Q :=
  if 0 <=? s then inject_Z (10 ^ s) else 1 # Z.to_pos (10 ^ (- s)).

(** The integer nearest to [x], a tie going to the even neighbour. *)
Definition round_half_even (x : Q) : Z :=
  let n := Qnum x in
  let d := Z.pos (Qden x) in
  let f := n / d in
  match 2 * (n mod d) ?= d with
  | Lt => f
  | Gt => f + 1
  | Eq => if Z.even f then f else f + 1
  end.

(** For [a > 0], the exponent [e] with [2^e <= a < 2^(e+1)]. *)
Definition binade (a : Q) : Z :=
  let e0 := Z.log2 (Qnum a) - Z.log2 (Z.pos (Qden a)) in
  if Qlt_le_dec a (Qpow2 e0) then e0 - 1 else e0.

(** Rounding of an exact value to binary64: 53 significant bits, the
    least exponent -1074, nearest with ties to even, overflow to an
    infinity. *)
Definition round_double (q : Q) : pyfloat :=
  match Qnum q with
  | 0 => Finite 0
  | _ =>
      let a := Qabs q in
      let s := Z.max (binade a - 52) (-1074) in
      let m := round_half_even (a / Qpow2 s)%Q in
      let r := (inject_Z m * Qpow2 s)%Q in
      if Qle_bool (Qpow2 1024) r
      then (if 0 <? Qnum q then PosInf else NegInf)
      else Finite (Qred (if 0 <? Qnum q then r else (- r)%Q))
  end.

(** [str(n)] for an int. *)
Definition str_of_int (n : Z) : string :=
  NilZero.string_of_int (Z.to_int n).

(** *** Characters and strings *)

Definition code (c : ascii) : N := N_of_ascii c.

(** [\d], [\s] and [\w] of the [re] module, below code point 256. *)
Definition is_digit (c : ascii) : bool :=
  ((48 <=? code c) && (code c <=? 57))%N.

Definition is_space (c : ascii) : bool :=
  ((9 <=? code c) && (code c <=? 13) || (28 <=? code c) && (code c <=? 32)
   || (code c =? 133) || (code c =? 160))%N.

Definition is_alpha (c : ascii) : bool :=
  ((65 <=? code c) && (code c <=? 90) || (97 <=? code c) && (code c <=? 122)
   || (code c =? 170) || (code c =? 181) || (code c =? 186)
   || (192 <=? code c) && (code c <=? 214)
   || (216 <=? code c) && (code c <=? 246)
   || (248 <=? code c))%N.

Definition is_numeric (c : ascii) : bool :=
  (is_digit c || (code c =? 178) || (code c =? 179) || (code c =? 185)
   || (188 <=? code c) && (code c <=? 190))%N.

Definition is_word (c : ascii) : bool :=
  (is_alpha c || is_numeric c || (code c =? 95))%N.

Definition is_digit_or_dot (c : ascii) : bool :=
  is_digit c || (code c =? 46)%N.

Definition digit_value (c : ascii) : Z := Z.of_N (code c) - 48.

Definition is_empty (s : string) : bool :=
  match s with EmptyString => true | String _ _ => false end.

(** The longest prefix of [s] whose characters satisfy [p], and the rest. *)
Fixpoint span (p : ascii -> bool) (s : string) : string * string :=
  match s with
  | EmptyString => (EmptyString, EmptyString)
  | String c r =>
      if p c then let '(a, b) := span p r in (String c a, b)
      else (EmptyString, s)
  end.

(** [Some rest] when [s = p ++ rest]. *)
Fixpoint strip_prefix (p s : string) : option string :=
  match p, s with
  | EmptyString, _ => Some s
  | String a p', String b s' => if Ascii.eqb a b then strip_prefix p' s' else None
  | String _ _, EmptyString => None
  end.

(** [s.startswith(p)], [s.endswith(suf)], [needle in s]. *)
Definition startswith (s p : string) : bool :=
  match strip_prefix p s with Some _ => true | None => false end.

Fixpoint endswith (s suf : string) : bool :=
  if String.eqb s suf then true
  else match s with
       | EmptyString => false
       | String _ r => endswith r suf
       end.

Fixpoint contains (needle s : string) : bool :=
  if startswith s needle then true
  else match s with
       | EmptyString => false
       | String _ r => contains needle r
       end.

(** [s.strip()]. *)
Fixpoint lstrip (s : string) : string :=
  match s with
  | EmptyString => EmptyString
  | String c r => if is_space c then lstrip r else s
  end.

Fixpoint rstrip (s : string) : string :=
  match s with
  | EmptyString => EmptyString
  | String c r =>
      let r' := rstrip r in
      if is_space c && is_empty r' then EmptyString else String c r'
  end.

Definition strip (s : string) : string := rstrip (lstrip s).

Fixpoint zeros (n : nat) : string :=
  match n with O => EmptyString | S k => String "0" (zeros k) end.

(** *** Numbers and their texts *)

(** The value of a run of decimal digits, read left to right. *)
Fixpoint digits_value (acc : Z) (s : string) : Z :=
  match s with
  | EmptyString => acc
  | String c r => digits_value (10 * acc + digit_value c) r
  end.

(** The digits of [int(s)] after the sign: digit groups separated by
    single underscores. *)
Fixpoint int_body (acc : Z) (after_digit : bool) (s : string) : option Z :=
  match s with
  | EmptyString => if after_digit then Some acc else None
  | String c r =>
      if is_digit c then int_body (10 * acc + digit_value c) true r
      else if (code c =? 95)%N && after_digit then int_body acc false r
      else None
  end.

(** [sys.int_max_str_digits]: [int] refuses a text with more decimal
    digits, leading zeros counted, sign and underscores not. *)
Definition int_max_str_digits : nat := 4300.

Fixpoint count_digits (s : string) : nat :=
  match s with
  | EmptyString => 0%nat
  | String c r => ((if is_digit c then 1 else 0) + count_digits r)%nat
  end.

(** [int(s)] for a string; [None] stands for the ValueError. *)
Definition py_int (s : string) : option Z :=
  let t := strip s in
  if (int_max_str_digits <? count_digits t)%nat then None
  else match t with
       | String "-" r => option_map Z.opp (int_body 0 false r)
       | String "+" r => int_body 0 false r
       | _ => int_body 0 false t
       end.

(** [int(x)] for a float: truncation; [None] stands for the
    OverflowError of an infinity and the ValueError of NaN. *)
Definition int_of_float (x : pyfloat) : option Z :=
  match x with
  | Finite q => Some (Z.quot (Qnum q) (Z.pos (Qden q)))
  | _ => None
  end.

(** [float(v)] for a text [v] of digits and dots, as the decoder's
    patterns capture it: at most one dot and at least one digit, else
    ValueError; the decimal value is rounded to binary64. *)
Definition py_float (v : string) : result pyfloat :=
  let '(ip, r) := span is_digit v in
  let bad := Raise (ValueError ("could not convert string to float: '" +:+ v +:+ "'")) in
  match r with
  | EmptyString =>
      if is_empty ip then bad else Ok (round_double (inject_Z (digits_value 0 ip)))
  | String c r' =>
      let '(fp, rest) := span is_digit r' in
      if (code c =? 46)%N && is_empty rest && negb (is_empty ip && is_empty fp)
      then Ok (round_double
                 (inject_Z (digits_value 0 (ip +:+ fp))
                  * Qpow10 (- Z.of_nat (String.length fp)))%Q)
      else bad
  end.

(** [format(x, ".<prec>f")]: the exact value rounded half-even to
    [prec] decimals. *)
Definition format_f (prec : nat) (x : pyfloat) : string :=
  match x with
  | NaN => "nan"
  | PosInf => "inf"
  | NegInf => "-inf"
  | Finite q =>
      let p := 10 ^ Z.of_nat prec in
      let n := round_half_even (Qabs q * inject_Z p)%Q in
      let frac := str_of_int (n mod p) in
      (if Qnum q <? 0 then "-" else "")
      +:+ str_of_int (n / p)
      +:+ (if Nat.eqb prec 0 then ""
           else "." +:+ zeros (prec - String.length frac) +:+ frac)
  end.

(** [repr(x)], which an f-string applies to a float without a format:
    the fewest significant digits that read back as [x], the nearest
    such decimal when there are several; scientific notation when the
    decimal point would sit more than 16 places right or 4 places left. *)
Definition decade (a : Q) : Z :=
  let k0 := Z.of_nat (String.length (str_of_int (Qnum a)))
            - Z.of_nat (String.length (str_of_int (Z.pos (Qden a)))) in
  if Qlt_le_dec a (Qpow10 k0) then k0 - 1 else k0.

Definition reads_back (a : Q) (c sc : Z) : bool :=
  (0 <? c) &&
  match round_double (inject_Z c * Qpow10 sc)%Q with
  | Finite b => Qeq_bool a b
  | _ => false
  end.

Definition shortest_candidate (a : Q) (k : Z) (n : nat) : option (Z * Z) :=
  let sc := k - Z.of_nat n + 1 in
  let lo := Qfloor (a / Qpow10 sc)%Q in
  let hi := lo + 1 in
  match reads_back a lo sc, reads_back a hi sc with
  | true, true =>
      match (a - inject_Z lo * Qpow10 sc ?= inject_Z hi * Qpow10 sc - a)%Q with
      | Lt => Some (lo, sc)
      | Gt => Some (hi, sc)
      | Eq => Some (if Z.even lo then lo else hi, sc)
      end
  | true, false => Some (lo, sc)
  | false, true => Some (hi, sc)
  | false, false => None
  end.

Fixpoint shortest_digits (a : Q) (k : Z) (n fuel : nat) : Z * Z :=
  match fuel with
  | O => (round_half_even (a / Qpow10 (k - 16))%Q, k - 16)
  | S f =>
      match shortest_candidate a k n with
      | Some r => r
      | None => shortest_digits a k (S n) f
      end
  end.

Fixpoint rstrip_zeros (s : string) : string :=
  match s with
  | EmptyString => EmptyString
  | String c r =>
      let r' := rstrip_zeros r in
      if (code c =? 48)%N && is_empty r' then EmptyString else String c r'
  end.

Definition repr_float (x : pyfloat) : string :=
  match x with
  | NaN => "nan"
  | PosInf => "inf"
  | NegInf => "-inf"
  | Finite q =>
      if Qnum q =? 0 then "0.0"
      else
        let a := Qabs q in
        let '(c, sc) := shortest_digits a (decade a) 1 16 in
        let full := str_of_int c in
        let decpt := Z.of_nat (String.length full) + sc in
        let ds := rstrip_zeros full in
        let nd := String.length ds in
        (if Qnum q <? 0 then "-" else "") +:+
        (if (decpt <=? -4) || (16 <? decpt) then
           let ex := str_of_int (Z.abs (decpt - 1)) in
           substring 0 1 ds
           +:+ (if Nat.leb nd 1 then "" else "." +:+ substring 1 (nd - 1) ds)
           +:+ "e" +:+ (if decpt - 1 <? 0 then "-" else "+")
           +:+ zeros (2 - String.length ex) +:+ ex
         else if decpt <=? 0 then
           "0." +:+ zeros (Z.to_nat (- decpt)) +:+ ds
         else if Z.of_nat nd <=? decpt then
           ds +:+ zeros (Z.to_nat decpt - nd) +:+ ".0"
         else
           substring 0 (Z.to_nat decpt) ds +:+ "."
           +:+ substring (Z.to_nat decpt) (nd - Z.to_nat decpt) ds)
  end.

(** Float arithmetic: the exact result, rounded. *)
Definition float_of_int (n : Z) : pyfloat := round_double (inject_Z n).

Definition float_sub (x y : pyfloat) : pyfloat :=
  match x, y with
  | NaN, _ | _, NaN => NaN
  | PosInf, PosInf | NegInf, NegInf => NaN
  | PosInf, _ | _, NegInf => PosInf
  | NegInf, _ | _, PosInf => NegInf
  | Finite a, Finite b => round_double (a - b)%Q
  end.

Definition float_sign (x : pyfloat) : comparison :=
  match x with
  | NaN => Eq
  | PosInf => Gt
  | NegInf => Lt
  | Finite q => Qnum q ?= 0
  end.

Definition float_mul (x y : pyfloat) : pyfloat :=
  match x, y with
  | NaN, _ | _, NaN => NaN
  | Finite a, Finite b => round_double (a * b)%Q
  | _, _ =>
      match float_sign x, float_sign y with
      | Eq, _ | _, Eq => NaN
      | Lt, Lt | Gt, Gt => PosInf
      | _, _ => NegInf
      end
  end.

(** [a / b] for ints with [b <> 0]: the exact quotient rounded once;
    [None] stands for the OverflowError of a quotient too large. *)
Definition int_truediv (a b : Z) : option pyfloat :=
  match round_double (inject_Z a / inject_Z b)%Q with
  | Finite q => Some (Finite q)
  | _ => None
  end.

(** ** edge_simulator.py *)

Module edge_simulator.

Definition MQTT_TOPIC_STATE : string := "smartparking/slot1/state".
Definition MQTT_TOPIC_EVENT : string := "smartparking/slot1/event".
Definition MQTT_TOPIC_METRICS : string := "smartparking/metrics/transmissions".
Definition CHANGE_THRESHOLD_MM : Z := 300.

(** A row of [df] once the classifier column is there (line 48):
    the rendered timestamp, the proximity feature, the probability. *)
Record Sample : Type := {
  s_timestamp : string;
  g1_min : pyfloat;
  s_pred_prob : pyfloat
}.

(** A row as [run_simulation] reads it. *)
Record Row : Type := {
  timestamp : string;
  occupied_now : Z;
  pred_prob : pyfloat;
  pred_label : Z
}.

(** Lines 45 and 49: [(col < 300).astype(int)], [(col > 0.5).astype(int)]. *)
Definition astype_int (b : bool) : Z := if b then 1 else 0.

Definition prepare_row (s : Sample) : Row :=
  {| timestamp := s_timestamp s;
     occupied_now := astype_int (float_ltb (g1_min s) (Finite (inject_Z CHANGE_THRESHOLD_MM)));
     pred_prob := s_pred_prob s;
     pred_label := astype_int (float_gtb (s_pred_prob s) (Finite (1 # 2))) |}.

Definition prepare (df : list Sample) : list Row := map prepare_row df.

(** What one sample makes the gate send.  [Change] is lines 82-83 (the
    event message and the state snapshot), [PredictedChange] is line 92. *)
Inductive GateEvent : Type :=
| Change (new_state : Z) (ts : string)
| PredictedChange (probability : pyfloat) (ts : string).

Definition message : Type := string * string.

(** The [client.publish] calls of an event, in order. *)
Definition encode (ev : GateEvent) : list message :=
  match ev with
  | Change occ ts =>
      [ (MQTT_TOPIC_EVENT, "CHANGE: state=" +:+ str_of_int occ +:+ ", ts=" +:+ ts);
        (MQTT_TOPIC_STATE, str_of_int occ) ]
  | PredictedChange prob ts =>
      [ (MQTT_TOPIC_EVENT, "PRED_CHANGE: prob=" +:+ format_f 3 prob +:+ ", ts=" +:+ ts) ]
  end.

(** The locals of [run_simulation] and the messages handed to the
    client so far. *)
Record Gate : Type := {
  last_state : Z;
  edge_tx : Z;
  trad_tx : Z;
  published : list message
}.

(** One iteration of the loop of lines 70-98, with the event it sent. *)
Definition loop_body (g : Gate) (row : Row) : Gate * option GateEvent :=
  let occ := occupied_now row in
  let pred := pred_label row in
  let prob := pred_prob row in
  let trad := trad_tx g + 1 in
  if negb (occ =? last_state g) then
    let ev := Change occ (timestamp row) in
    ({| last_state := occ; edge_tx := edge_tx g + 1; trad_tx := trad;
        published := published g ++ encode ev |}, Some ev)
  else if pred =? 1 then
    let ev := PredictedChange prob (timestamp row) in
    ({| last_state := last_state g; edge_tx := edge_tx g + 1; trad_tx := trad;
        published := published g ++ encode ev |}, Some ev)
  else
    ({| last_state := last_state g; edge_tx := edge_tx g; trad_tx := trad;
        published := published g |}, None).

(** The loop over the rows, with the event of each sample in order. *)
Fixpoint gate_loop (g : Gate) (rows : list Row) : Gate * list (option GateEvent) :=
  match rows with
  | [] => (g, [])
  | row :: rest =>
      let '(g1, ev) := loop_body g row in
      let '(g2, evs) := gate_loop g1 rest in
      (g2, ev :: evs)
  end.

(** Lines 64-66. *)
Definition initial_gate (first : Row) : Gate :=
  {| last_state := occupied_now first; edge_tx := 0; trad_tx := 0; published := [] |}.

(** [run_simulation(df)]: [df.loc[0, ...]] raises KeyError on a frame
    with no row.  The result is the final locals (the function returns
    [edge_tx] and [trad_tx] of them) and the per-sample events. *)
Definition run_simulation (df : list Row) : result (Gate * list (option GateEvent)) :=
  match df with
  | [] => Raise (KeyError "0")
  | first :: _ => Ok (gate_loop (initial_gate first) df)
  end.

(** Line 108. *)
Definition reduction_pct (edge trad : Z) : result pyfloat :=
  if 0 <? trad then
    match int_truediv edge trad with
    | Some ratio =>
        Ok (float_mul (float_of_int 100) (float_sub (float_of_int 1) ratio))
    | None => Raise (OverflowError "integer division result too large for a float")
    end
  else Ok (Finite 0).

(** Line 109. *)
Definition summary_text (edge trad : Z) (reduction : pyfloat) : string :=
  "Traditional=" +:+ str_of_int trad +:+ ", EdgeAI=" +:+ str_of_int edge
  +:+ ", Reduction=" +:+ format_f 2 reduction +:+ "%".

(** The main block: every message published by the run. *)
Definition main (df : list Row) : result (list message) :=
  match run_simulation df with
  | Raise e => Raise e
  | Ok (g, _) =>
      match reduction_pct (edge_tx g) (trad_tx g) with
      | Raise e => Raise e
      | Ok reduction =>
          Ok (published g
              ++ [(MQTT_TOPIC_METRICS, summary_text (edge_tx g) (trad_tx g) reduction)])
      end
  end.

(** Sample [i] of the run on [df], as the specification speaks of it:
    the gate as the sample finds it, the row, the gate as the sample
    leaves it and the event sent. *)
Definition sample_step (df : list Row) (i : nat)
    : option (Gate * Row * Gate * option GateEvent) :=
  match df, df !! i with
  | first :: _, Some row =>
      let g := fst (gate_loop (initial_gate first) (take i df)) in
      let '(g', ev) := loop_body g row in
      Some (g, row, g', ev)
  | _, _ => None
  end.

(** The same row with another verdict of the classifier. *)
Definition with_prediction (row : Row) (prob : pyfloat) (label : Z) : Row :=
  {| timestamp := timestamp row; occupied_now := occupied_now row;
     pred_prob := prob; pred_label := label |}.

(** The frames of the specification's scenarios A and B. *)
Definition scenario_row (ts : string) (occ : Z) (prob : pyfloat) (label : Z) : Row :=
  {| timestamp := ts; occupied_now := occ; pred_prob := prob; pred_label := label |}.

Definition scenario_A : list Row :=
  [ scenario_row "2024-01-01 00:00:00" 0 (Finite (1 # 10)) 0;
    scenario_row "2024-01-01 00:00:01" 0 (Finite (1 # 10)) 0;
    scenario_row "2024-01-01 00:00:02" 1 (Finite (1 # 10)) 0;
    scenario_row "2024-01-01 00:00:03" 1 (Finite (1 # 10)) 0;
    scenario_row "2024-01-01 00:00:04" 0 (Finite (1 # 10)) 0 ].

Definition scenario_B_samples : list Sample :=
  [ {| s_timestamp := "2024-01-01 00:00:00"; g1_min := Finite 850; s_pred_prob := Finite (1 # 10) |};
    {| s_timestamp := "2024-01-01 00:00:01"; g1_min := Finite 851; s_pred_prob := Finite (998 # 1000) |};
    {| s_timestamp := "2024-01-01 00:00:02"; g1_min := Finite 849; s_pred_prob := Finite (2 # 10) |} ].

(** What the classifier's contract promises of [pred_prob]. *)
Definition is_probability (x : pyfloat) : Prop :=
  match x with
  | Finite q => (0 <= q <= 1)%Q
  | _ => False
  end.

Definition is_change (ev : option GateEvent) : bool :=
  match ev with Some (Change _ _) => true | _ => false end.

Definition is_predicted_change (ev : option GateEvent) : bool :=
  match ev with Some (PredictedChange _ _) => true | _ => false end.

(** The [client.publish] calls of one sample: none for a suppressed one. *)
Definition messages_of (ev : option GateEvent) : list message :=
  match ev with
  | Some e => encode e
  | None => []
  end.

Definition is_sent (ev : option GateEvent) : bool :=
  match ev with Some _ => true | None => false end.

(** How many samples of a trace satisfy [p]. *)
Definition count_samples (p : option GateEvent -> bool) (evs : list (option GateEvent)) : nat :=
  length (List.filter p evs).

(** What a receiver that knows the occupancy of the first sample holds
    after the events of a trace: a Change carries the new occupancy,
    nothing else does. *)
Definition replay_event (s : Z) (ev : option GateEvent) : Z :=
  match ev with
  | Some (Change occ _) => occ
  | _ => s
  end.

Definition replay (s0 : Z) (evs : list (option GateEvent)) : Z :=
  fold_left replay_event evs s0.

(** How many rows differ in occupancy from the row before them, [prev]
    being the occupancy before the first. *)
Fixpoint transitions (prev : Z) (rows : list Row) : nat :=
  match rows with
  | [] => 0%nat
  | row :: rest =>
      ((if (occupied_now row =? prev)%Z then 0 else 1)
       + transitions (occupied_now row) rest)%nat
  end.

End edge_simulator.

(** ** streamlit_dashboard.py *)

Module streamlit_dashboard.

(** *** The four patterns of [parse_payload] *)

(** An attempt of [slot(\d+)] at the start of [s]: group 1. *)
Definition match_slot (s : string) : option string :=
  match strip_prefix "slot" s with
  | Some r => let '(d, _) := span is_digit r in
              if is_empty d then None else Some d
  | None => None
  end.

(** An attempt of [prob=([\d\.]+)] at the start of [s]: group 1. *)
Definition match_prob (s : string) : option string :=
  match strip_prefix "prob=" s with
  | Some r => let '(d, _) := span is_digit_or_dot r in
              if is_empty d then None else Some d
  | None => None
  end.

(** An attempt of [state\s*=\s*(\d+)] at the start of [s]: group 1. *)
Definition match_state (s : string) : option string :=
  match strip_prefix "state" s with
  | Some r =>
      match strip_prefix "=" (snd (span is_space r)) with
      | Some r' => let '(d, _) := span is_digit (snd (span is_space r')) in
                   if is_empty d then None else Some d
      | None => None
      end
  | None => None
  end.

(** [re.search]: the attempt at the leftmost position where it succeeds. *)
Fixpoint re_search (attempt : string -> option string) (s : string) : option string :=
  match attempt s with
  | Some g => Some g
  | None => match s with
            | EmptyString => None
            | String _ r => re_search attempt r
            end
  end.

(** An attempt of [(\w+)=([\d\.]+)] at the start of [s]: both groups
    and the length of the match. *)
Definition match_key_value (s : string) : option (string * string * nat) :=
  let '(k, r) := span is_word s in
  if is_empty k then None
  else match strip_prefix "=" r with
       | Some r' => let '(v, _) := span is_digit_or_dot r' in
                    if is_empty v then None
                    else Some (k, v, String.length k + 1 + String.length v)%nat
       | None => None
       end.

(** [re.findall]: the matches left to right, none overlapping; [skip]
    counts the characters of the last match still to pass over. *)
Fixpoint findall_key_value (skip : nat) (s : string) : list (string * string) :=
  match s with
  | EmptyString => []
  | String _ r =>
      match skip with
      | S n => findall_key_value n r
      | O => match match_key_value s with
             | Some (k, v, len) => (k, v) :: findall_key_value (len - 1) r
             | None => findall_key_value 0 r
             end
      end
  end.

(** *** Session state *)

(** A reading of [pd.Timestamp.now()]: the readings are numbered. *)
Definition Timestamp : Type := nat.

(** What the decoder stores as a state: [None], an int, or the text. *)
Inductive state_value : Type :=
| StateNone
| StateInt (n : Z)
| StateText (s : string).

Inductive metric_value : Type :=
| MetricNone
| MetricInt (n : Z)
| MetricFloat (x : pyfloat)
| MetricText (s : string).

Definition event_entry : Type := Timestamp * string * string.

Record session_state : Type := {
  events : gmap string (list event_entry);
  pred_probs : gmap string (list (Timestamp * option pyfloat));
  occupancy : gmap string (list (Timestamp * state_value));
  raw_log : list (Timestamp * string * string);
  metrics : gmap string metric_value;
  clock : Timestamp
}.

(** Lines 30-34. *)
Definition initial_state : session_state :=
  {| events := ∅; pred_probs := ∅; occupancy := ∅; raw_log := [];
     metrics := <["Traditional" := MetricNone]>
                  (<["EdgeAI" := MetricNone]> (<["Reduction" := MetricNone]> ∅));
     clock := O |}.

Definition set_events (f : gmap string (list event_entry) -> gmap string (list event_entry))
    (st : session_state) : session_state :=
  {| events := f (events st); pred_probs := pred_probs st; occupancy := occupancy st;
     raw_log := raw_log st; metrics := metrics st; clock := clock st |}.

Definition set_pred_probs
    (f : gmap string (list (Timestamp * option pyfloat)) -> gmap string (list (Timestamp * option pyfloat)))
    (st : session_state) : session_state :=
  {| events := events st; pred_probs := f (pred_probs st); occupancy := occupancy st;
     raw_log := raw_log st; metrics := metrics st; clock := clock st |}.

Definition set_occupancy
    (f : gmap string (list (Timestamp * state_value)) -> gmap string (list (Timestamp * state_value)))
    (st : session_state) : session_state :=
  {| events := events st; pred_probs := pred_probs st; occupancy := f (occupancy st);
     raw_log := raw_log st; metrics := metrics st; clock := clock st |}.

Definition set_raw_log
    (f : list (Timestamp * string * string) -> list (Timestamp * string * string))
    (st : session_state) : session_state :=
  {| events := events st; pred_probs := pred_probs st; occupancy := occupancy st;
     raw_log := f (raw_log st); metrics := metrics st; clock := clock st |}.

Definition set_metrics (f : gmap string metric_value -> gmap string metric_value)
    (st : session_state) : session_state :=
  {| events := events st; pred_probs := pred_probs st; occupancy := occupancy st;
     raw_log := raw_log st; metrics := f (metrics st); clock := clock st |}.

(** [deque(maxlen=2000).appendleft(x)]: when full, the right end goes. *)
Definition maxlen : nat := 2000.

Definition appendleft {A : Type} (x : A) (d : list A) : list A :=
  take maxlen (x :: d).

(** *** Statements that read and write the session state and may raise *)

Definition M (A : Type) : Type := session_state -> result A * session_state.

Definition ret {A : Type} (a : A) : M A := fun st => (Ok a, st).

Definition bind {A B : Type} (m : M A) (k : A -> M B) : M B :=
  fun st => match m st with
            | (Ok a, st') => k a st'
            | (Raise e, st') => (Raise e, st')
            end.

Definition raise {A : Type} (e : exn) : M A := fun st => (Raise e, st).

Definition modify (f : session_state -> session_state) : M unit :=
  fun st => (Ok tt, f st).

(** [try: m except Exception as e: h e]. *)
Definition try_except {A : Type} (m : M A) (h : exn -> M A) : M A :=
  fun st => match m st with
            | (Ok a, st') => (Ok a, st')
            | (Raise e, st') => h e st'
            end.

Definition lift {A : Type} (r : result A) : M A := fun st => (r, st).

Declare Scope py_scope.
Delimit Scope py_scope with py.
Notation "'let*' x := m 'in' k" := (bind m (fun x => k))
  (at level 10, x name, m at level 100, k at level 200) : py_scope.
Notation "m >> k" := (bind m (fun _ => k))
  (at level 90, right associativity) : py_scope.
Open Scope py_scope.

Definition Timestamp_now : M Timestamp :=
  fun st => (Ok (clock st),
             {| events := events st; pred_probs := pred_probs st;
                occupancy := occupancy st; raw_log := raw_log st;
                metrics := metrics st; clock := S (clock st) |}).

(** [d[k].appendleft(x)] on a dict of deques: KeyError without the key. *)
Definition dict_appendleft {A : Type} (k : string) (x : A) (d : gmap string (list A))
    : result (gmap string (list A)) :=
  match d !! k with
  | Some q => Ok (<[k := appendleft x q]> d)
  | None => Raise (KeyError k)
  end.

Definition events_appendleft (slot_id : string) (x : event_entry) : M unit :=
  fun st => match dict_appendleft slot_id x (events st) with
            | Ok d => (Ok tt, set_events (fun _ => d) st)
            | Raise e => (Raise e, st)
            end.

Definition pred_probs_appendleft (slot_id : string) (x : Timestamp * option pyfloat) : M unit :=
  fun st => match dict_appendleft slot_id x (pred_probs st) with
            | Ok d => (Ok tt, set_pred_probs (fun _ => d) st)
            | Raise e => (Raise e, st)
            end.

Definition occupancy_appendleft (slot_id : string) (x : Timestamp * state_value) : M unit :=
  fun st => match dict_appendleft slot_id x (occupancy st) with
            | Ok d => (Ok tt, set_occupancy (fun _ => d) st)
            | Raise e => (Raise e, st)
            end.

Definition raw_log_appendleft (x : Timestamp * string * string) : M unit :=
  modify (set_raw_log (appendleft x)).

(** Lines 41-47. *)
Definition setdefault_deque {A : Type} (k : string) (d : gmap string (list A))
    : gmap string (list A) :=
  match d !! k with
  | Some _ => d
  | None => <[k := []]> d
  end.

Definition ensure_slot_structs (slot_id : string) : M unit :=
  modify (set_events (setdefault_deque slot_id)) >>
  modify (set_pred_probs (setdefault_deque slot_id)) >>
  modify (set_occupancy (setdefault_deque slot_id)).

(** Lines 70-79: one pair of the metrics payload. *)
Definition store_metric (kv : string * string) : M unit :=
  let '(k, v) := kv in
  if String.eqb k "Traditional" || String.eqb k "EdgeAI" then
    modify (set_metrics (<[k :=
      match py_float v with
      | Ok x => match int_of_float x with
                | Some n => MetricInt n
                | None => MetricText v
                end
      | Raise _ => MetricText v
      end]>))
  else if String.eqb k "Reduction" then
    modify (set_metrics (<["Reduction" :=
      match py_float v with
      | Ok x => MetricFloat x
      | Raise _ => MetricText v
      end]>))
  else ret tt.

Fixpoint for_each {A : Type} (body : A -> M unit) (l : list A) : M unit :=
  match l with
  | [] => ret tt
  | x :: rest => body x >> for_each body rest
  end.

(** The texts of [f"prob={prob}"], [f"state={state}"] and [str(s)]. *)
Definition str_of_prob (prob : option pyfloat) : string :=
  match prob with
  | Some x => repr_float x
  | None => "None"
  end.

Definition str_of_state (s : state_value) : string :=
  match s with
  | StateNone => "None"
  | StateInt n => str_of_int n
  | StateText t => t
  end.

(** The slot id of line 63. *)
Definition slot_of_topic (topic : string) : string :=
  match re_search match_slot topic with
  | Some g => "slot" +:+ g
  | None => "slot1"
  end.

(** Lines 86-87: [float(...)] is not guarded, a text it rejects raises. *)
Definition read_prob (text : string) : result (option pyfloat) :=
  match re_search match_prob text with
  | Some g => match py_float g with
              | Ok x => Ok (Some x)
              | Raise e => Raise e
              end
  | None => Ok None
  end.

(** Lines 95-99. *)
Definition read_state (text : string) : state_value :=
  match re_search match_state text with
  | Some g => match py_int g with
              | Some n => StateInt n
              | None => StateNone
              end
  | None => StateNone
  end.

(** Lines 107-110. *)
Definition read_raw_state (text : string) : state_value :=
  match py_int text with
  | Some n => StateInt n
  | None => StateText text
  end.

(** Lines 50-118. *)
Definition parse_payload (topic payload : string) : M unit :=
  let* now := Timestamp_now in
  let text := strip payload in
  let slot_id := slot_of_topic topic in
  ensure_slot_structs slot_id >>
  if endswith topic "metrics/transmissions" then
    for_each store_metric (findall_key_value 0 text) >>
    raw_log_appendleft (now, topic, text) >>
    events_appendleft slot_id (now, "METRICS", text)
  else if contains "PRED_CHANGE" text then
    let* prob := lift (read_prob text) in
    pred_probs_appendleft slot_id (now, prob) >>
    events_appendleft slot_id (now, "PRED_CHANGE", "prob=" +:+ str_of_prob prob) >>
    raw_log_appendleft (now, topic, text)
  else if startswith text "CHANGE" then
    let state := read_state text in
    occupancy_appendleft slot_id (now, state) >>
    events_appendleft slot_id (now, "CHANGE", "state=" +:+ str_of_state state) >>
    raw_log_appendleft (now, topic, text)
  else if endswith topic "/state" then
    let s := read_raw_state text in
    occupancy_appendleft slot_id (now, s) >>
    events_appendleft slot_id (now, "STATE", str_of_state s) >>
    raw_log_appendleft (now, topic, text)
  else
    raw_log_appendleft (now, topic, text) >>
    events_appendleft slot_id (now, "MSG", text).

(** [str(e)] of a caught exception. *)
Definition str_of_exn (e : exn) : string :=
  match e with
  | KeyError k => "'" +:+ k +:+ "'"
  | ValueError msg => msg
  | OverflowError msg => msg
  end.

(** Lines 124-135.  [msg_queue] belongs to the module [mqtt_shared]; the
    loop is given the messages the queue holds, oldest first. *)
Fixpoint drain (queue : list (string * string)) (processed : nat) : M nat :=
  match queue with
  | [] => ret processed
  | (topic, payload) :: rest =>
      try_except (parse_payload topic payload)
        (fun e =>
           let* t := Timestamp_now in
           raw_log_appendleft
             (t, "parse_error",
              str_of_exn e +:+ " | " +:+ topic +:+ " | " +:+ payload)) >>
      drain rest (S processed)
  end.

(** *** Vocabulary of the properties *)

(** The deque of a slot, empty for a slot not seen yet. *)
Definition deque_of {A : Type} (d : gmap string (list A)) (slot : string) : list A :=
  default [] (d !! slot).

(** The session once [parse_payload] has read the clock and made sure
    the slot has its three deques (lines 58-64). *)
Definition entered (slot : string) (st : session_state) : session_state :=
  {| events := setdefault_deque slot (events st);
     pred_probs := setdefault_deque slot (pred_probs st);
     occupancy := setdefault_deque slot (occupancy st);
     raw_log := raw_log st; metrics := metrics st; clock := S (clock st) |}.

(** [st'] is [st] with one more entry at the left of a deque of [slot]. *)
Definition event_recorded (slot : string) (x : event_entry) (st st' : session_state) : Prop :=
  events st' !! slot = Some (appendleft x (deque_of (events st) slot)).

Definition prob_recorded (slot : string) (x : Timestamp * option pyfloat)
    (st st' : session_state) : Prop :=
  pred_probs st' !! slot = Some (appendleft x (deque_of (pred_probs st) slot)).

Definition state_recorded (slot : string) (x : Timestamp * state_value)
    (st st' : session_state) : Prop :=
  occupancy st' !! slot = Some (appendleft x (deque_of (occupancy st) slot)).

(** [st'] has the deques of [st], the missing ones of [slot] made empty. *)
Definition events_kept (slot : string) (st st' : session_state) : Prop :=
  events st' !! slot = Some (deque_of (events st) slot).

Definition probs_kept (slot : string) (st st' : session_state) : Prop :=
  pred_probs st' !! slot = Some (deque_of (pred_probs st) slot).

Definition states_kept (slot : string) (st st' : session_state) : Prop :=
  occupancy st' !! slot = Some (deque_of (occupancy st) slot).

(** No deque of another slot has changed. *)
Definition other_slots_kept (slot : string) (st st' : session_state) : Prop :=
  forall other, other <> slot ->
    events st' !! other = events st !! other /\
    pred_probs st' !! other = pred_probs st !! other /\
    occupancy st' !! other = occupancy st !! other.

Fixpoint all_chars (p : ascii -> bool) (s : string) : bool :=
  match s with
  | EmptyString => true
  | String c r => p c && all_chars p r
  end.

(** The characters of [str(ts)] for a pandas timestamp: digits, the
    separators of date, time, fraction and zone, and the letters of [NaT]. *)
Definition is_timestamp_char (c : ascii) : bool :=
  is_digit c || (code c =? 45)%N || (code c =? 58)%N || (code c =? 32)%N
  || (code c =? 46)%N || (code c =? 43)%N
  || (code c =? 78)%N || (code c =? 97)%N || (code c =? 84)%N.

(** How many times [c] stands in [s]. *)
Fixpoint count_char (c : ascii) (s : string) : nat :=
  match s with
  | EmptyString => 0%nat
  | String a r => ((if Ascii.eqb a c then 1 else 0) + count_char c r)%nat
  end.

Definition is_dot (c : ascii) : bool := (code c =? 46)%N.

(** The kind [parse_payload] gives a message, by the tests of lines 66,
    84, 94 and 104 in their order. *)
Definition kind_of (topic payload : string) : string :=
  if endswith topic "metrics/transmissions" then "METRICS"
  else if contains "PRED_CHANGE" (strip payload) then "PRED_CHANGE"
  else if startswith (strip payload) "CHANGE" then "CHANGE"
  else if endswith topic "/state" then "STATE"
  else "MSG".

Definition starts_with_digit (s : string) : bool :=
  match s with
  | String c _ => is_digit c
  | EmptyString => false
  end.

(** [s] begins with the segment [slot] and a decimal digit. *)
Definition slot_digit_here (s : string) : bool :=
  match strip_prefix "slot" s with
  | Some r => starts_with_digit r
  | None => false
  end.

(** *** The slot grid *)

(** Lines 193-195: [cols = st.columns(min(4, len(slot_ids)))] and the
    index [i % 4] of the column of the slot of rank [i]; [cols[...]]
    raises IndexError from [column_count] on. *)
Definition column_count (slots : nat) : nat := Nat.min 4 slots.

Definition column_index (i : nat) : nat := i mod 4.

(** Lines 197-198: the pair [(ts, state)] shown for a slot, [(None, None)]
    while its deque is empty. *)
Definition latest (d : list (Timestamp * state_value)) : option Timestamp * state_value :=
  match d with
  | x :: _ => (Some (fst x), snd x)
  | [] => (None, StateNone)
  end.

(** *** The tables and the charts *)

(** Line 227: [list(evq)[:6]], the events of a slot in the table. *)
Definition recent_events {A : Type} (evq : list A) : list A := take 6 evq.

(** Lines 248 and 267: the rows of [DataFrame(list(deque)).tail(200)],
    which the chart of a slot plots: the last 200 of the list. *)
Definition chart_rows {A : Type} (d : list A) : list A :=
  drop (length d - 200) d.

(** *** Invariants of the session *)

(** No deque holds more than [maxlen] entries. *)
Definition within_maxlen (st : session_state) : Prop :=
  (length (raw_log st) <= maxlen)%nat /\
  map_Forall (fun _ q => (length q <= maxlen)%nat) (events st) /\
  map_Forall (fun _ q => (length q <= maxlen)%nat) (pred_probs st) /\
  map_Forall (fun _ q => (length q <= maxlen)%nat) (occupancy st).

(** The three dicts know the same slots. *)
Definition same_slots (st : session_state) : Prop :=
  dom (events st) = dom (occupancy st) /\ dom (pred_probs st) = dom (occupancy st).

(** What a message does to a dict of deques: the deque of [slot] is
    made when missing, and at most one entry is put at its left. *)
Definition deque_touched {A : Type} (slot : string) (d d' : gmap string (list A)) : Prop :=
  d' = setdefault_deque slot d \/
  exists x, d' = <[slot := appendleft x (deque_of d slot)]> (setdefault_deque slot d).

(** The keys of the metrics dict of line 34. *)
Definition metric_keys : gset string :=
  {[ "Traditional"; "EdgeAI"; "Reduction" ]}.

End streamlit_dashboard.

(* ================================================================== *)
(** * Part II: properties *)
(* ================================================================== *)

Import edge_simulator.

(** ** The Python primitives on values computed by CPython *)

Example strip_example : strip "  CHANGE: state = 1   " = "CHANGE: state = 1".
Proof. reflexivity. Qed.

Example py_int_examples :
  py_int "007" = Some 7 /\ py_int "-3" = Some (-3) /\ py_int "1_000" = Some 1000 /\
  py_int "1__0" = None /\ py_int "1.0" = None /\ py_int "" = None.
Proof. repeat split; reflexivity. Qed.

Example py_float_examples :
  py_float "0.998" = Ok (Finite (4494592428115755 # 4503599627370496)) /\
  py_float "51.70" = Ok (Finite (3638064073985229 # 70368744177664)) /\
  py_float "1." = Ok (Finite 1) /\ py_float ".5" = Ok (Finite (1 # 2)) /\
  py_float "." = Raise (ValueError "could not convert string to float: '.'").
Proof. repeat split; vm_compute; reflexivity. Qed.

Example round_double_examples :
  round_double (1 # 3) = Finite (6004799503160661 # 18014398509481984) /\
  round_double (inject_Z (2 ^ 53 + 1)) = Finite (inject_Z (2 ^ 53)) /\
  round_double (Qpow2 (-1075)) = Finite 0 /\
  round_double (inject_Z (2 ^ 1024 - 2 ^ 970)) = PosInf.
Proof. repeat split; vm_compute; reflexivity. Qed.

Example format_f_examples :
  format_f 3 (round_double (5 # 10000)) = "0.001" /\
  format_f 2 (Finite (1 # 8)) = "0.12" /\
  format_f 2 (Finite (3 # 8)) = "0.38" /\
  format_f 0 (Finite (5 # 2)) = "2" /\
  format_f 3 (Finite 1) = "1.000".
Proof. repeat split; vm_compute; reflexivity. Qed.

Example repr_float_examples :
  repr_float (round_double (998 # 1000)) = "0.998" /\
  repr_float (round_double (1 # 3)) = "0.3333333333333333" /\
  repr_float (Finite (inject_Z (10 ^ 16))) = "1e+16" /\
  repr_float (round_double (1 # 100000)) = "1e-05" /\
  repr_float (Finite 1) = "1.0" /\
  repr_float (round_double (12345678 # 1000)) = "12345.678".
Proof. repeat split; vm_compute; reflexivity. Qed.

Example findall_example :
  streamlit_dashboard.findall_key_value 0
    "Traditional=1000, EdgeAI=483, Reduction=51.70%" =
  [("Traditional", "1000"); ("EdgeAI", "483"); ("Reduction", "51.70")].
Proof. reflexivity. Qed.

(** ** The gating loop *)

Section GateLoop.

Implicit Types (g : Gate) (row : Row) (rows df : list Row).

Lemma gate_loop_app g rows1 rows2 :
  gate_loop g (rows1 ++ rows2) =
  (fst (gate_loop (fst (gate_loop g rows1)) rows2),
   snd (gate_loop g rows1) ++ snd (gate_loop (fst (gate_loop g rows1)) rows2)).
Proof.
  revert g. induction rows1 as [|row rows1 IH]; intros g; simpl.
  - by destruct (gate_loop g rows2).
  - destruct (loop_body g row) as [g1 ev].
    rewrite IH. by destruct (gate_loop g1 rows1).
Qed.

Lemma gate_loop_snoc g rows row :
  fst (gate_loop g (rows ++ [row])) = fst (loop_body (fst (gate_loop g rows)) row).
Proof.
  rewrite gate_loop_app. simpl.
  by destruct (loop_body (fst (gate_loop g rows)) row).
Qed.

Lemma gate_loop_events_length g rows :
  length (snd (gate_loop g rows)) = length rows.
Proof.
  revert g. induction rows as [|row rows IH]; intros g; simpl; [done|].
  destruct (loop_body g row) as [g1 ev]. specialize (IH g1).
  destruct (gate_loop g1 rows). simpl in *. by rewrite IH.
Qed.

Lemma gate_loop_cons g row rest :
  gate_loop g (row :: rest) =
  (fst (gate_loop (fst (loop_body g row)) rest),
   snd (loop_body g row) :: snd (gate_loop (fst (loop_body g row)) rest)).
Proof.
  cbn [gate_loop]. destruct (loop_body g row) as [g1 ev]. cbn [fst snd].
  by destruct (gate_loop g1 rest).
Qed.

(** The events of a prefix of the rows are a prefix of the events. *)
Lemma gate_loop_take g rows k :
  snd (gate_loop g (take k rows)) = take k (snd (gate_loop g rows)).
Proof.
  revert g k. induction rows as [|row rest IH]; intros g k.
  - by destruct k.
  - destruct k as [|k]; [done|].
    cbn [take]. rewrite !gate_loop_cons. cbn [snd take]. by rewrite IH.
Qed.

Lemma gate_loop_event_at g rows i row :
  rows !! i = Some row ->
  snd (gate_loop g rows) !! i = Some (snd (loop_body (fst (gate_loop g (take i rows))) row)).
Proof.
  revert g i. induction rows as [|r rows IH]; intros g i Hi; [done|].
  destruct i as [|i]; simpl in *.
  - injection Hi as ->. destruct (loop_body g row) as [g1 ev].
    by destruct (gate_loop g1 rows).
  - destruct (loop_body g r) as [g1 ev]. specialize (IH g1 i Hi).
    destruct (gate_loop g1 rows); destruct (gate_loop g1 (take i rows)); done.
Qed.

Lemma loop_body_trad g row : trad_tx (fst (loop_body g row)) = trad_tx g + 1.
Proof.
  unfold loop_body.
  destruct (negb (occupied_now row =? last_state g)); simpl; [done|].
  by destruct (pred_label row =? 1).
Qed.

Lemma loop_body_edge g row :
  edge_tx (fst (loop_body g row)) =
  edge_tx g + match snd (loop_body g row) with Some _ => 1 | None => 0 end.
Proof.
  unfold loop_body.
  destruct (negb (occupied_now row =? last_state g)); simpl; [lia|].
  destruct (pred_label row =? 1); simpl; lia.
Qed.

Lemma loop_body_last_state g row :
  last_state (fst (loop_body g row)) = occupied_now row.
Proof.
  unfold loop_body.
  destruct (occupied_now row =? last_state g) eqn:E; simpl; [|done].
  apply Z.eqb_eq in E. by destruct (pred_label row =? 1).
Qed.

Lemma gate_loop_counters g rows :
  trad_tx (fst (gate_loop g rows)) = trad_tx g + Z.of_nat (length rows) /\
  edge_tx g <= edge_tx (fst (gate_loop g rows)) <= edge_tx g + Z.of_nat (length rows).
Proof.
  revert g. induction rows as [|row rows IH]; intros g.
  - simpl. lia.
  - simpl. pose proof (loop_body_trad g row) as Ht.
    pose proof (loop_body_edge g row) as He.
    destruct (loop_body g row) as [g1 ev]. specialize (IH g1).
    destruct (gate_loop g1 rows) as [g2 evs]. simpl in *.
    destruct ev; lia.
Qed.

Lemma sample_step_inv df i g row g' ev :
  sample_step df i = Some (g, row, g', ev) ->
  exists first,
    head df = Some first /\ df !! i = Some row /\
    g = fst (gate_loop (initial_gate first) (take i df)) /\
    loop_body g row = (g', ev).
Proof.
  unfold sample_step. destruct df as [|first rest]; [done|].
  destruct ((first :: rest) !! i) as [r|] eqn:Hi; [|done].
  destruct (loop_body _ r) as [g1 ev1] eqn:Hb. intros [= <- <- <- <-].
  exists first. by rewrite Hb.
Qed.

(** The view [sample_step] gives is the run: the event is the one the
    run records at index [i], and the gate the sample leaves is the one
    the next sample finds. *)
Lemma sample_step_of_run df i g row g' ev :
  sample_step df i = Some (g, row, g', ev) ->
  exists gfin evs,
    run_simulation df = Ok (gfin, evs) /\ evs !! i = Some ev /\
    (forall first, head df = Some first ->
       g' = fst (gate_loop (initial_gate first) (take (S i) df))).
Proof.
  intros (first & Hhd & Hi & -> & Hb)%sample_step_inv.
  destruct df as [|f rest]; [done|]. injection Hhd as ->.
  exists (fst (gate_loop (initial_gate first) (first :: rest))),
         (snd (gate_loop (initial_gate first) (first :: rest))).
  split; [unfold run_simulation; f_equal; apply surjective_pairing|].
  split.
  - rewrite (gate_loop_event_at _ _ _ _ Hi). by rewrite Hb.
  - intros ? [= <-]. rewrite (take_S_r _ _ _ Hi), gate_loop_snoc. by rewrite Hb.
Qed.

Lemma traditional_length df gfin evs :
  run_simulation df = Ok (gfin, evs) ->
  trad_tx gfin = Z.of_nat (length df) /\ 0 <= edge_tx gfin <= trad_tx gfin.
Proof.
  destruct df as [|first rest]; [done|]. unfold run_simulation. intros H.
  pose proof (gate_loop_counters (initial_gate first) (first :: rest)) as [Ht He].
  destruct (gate_loop (initial_gate first) (first :: rest)) as [g1 evs1].
  injection H as -> ->. simpl in *. lia.
Qed.

End GateLoop.

(** ** Rule 1, Rule 2 and the counters *)

(** C1.  At sample [i] of a run, found with the gate [g] and left with
    [g'], a Change event carrying the sample's occupancy is emitted
    exactly when the occupancy differs from [last_state g]; then
    [last_state] becomes the occupancy, [edge_tx] grows by one, the two
    Change messages are the only ones published and the verdict of the
    classifier plays no part (Rule 2 is not reached).  No Change event is
    emitted when the occupancy equals [last_state g], which is the
    occupancy of the sample before (of the sample itself for the first). *)
Theorem change_event_iff_occupancy_differs df i g row g' ev :
  sample_step df i = Some (g, row, g', ev) ->
  (exists gfin evs, run_simulation df = Ok (gfin, evs) /\ evs !! i = Some ev) /\
  (ev = Some (Change (occupied_now row) (timestamp row))
     <-> occupied_now row <> last_state g) /\
  (forall s t, ev = Some (Change s t) ->
     s = occupied_now row /\ occupied_now row <> last_state g) /\
  (occupied_now row <> last_state g ->
     last_state g' = occupied_now row /\
     edge_tx g' = edge_tx g + 1 /\
     published g' = published g ++ encode (Change (occupied_now row) (timestamp row)) /\
     forall prob label, loop_body g (with_prediction row prob label) = (g', ev)) /\
  (occupied_now row = last_state g -> is_change ev = false) /\
  (forall j prev, i = S j -> df !! j = Some prev -> last_state g = occupied_now prev) /\
  (i = 0%nat -> last_state g = occupied_now row).
Proof.
  intros Hstep. pose proof (sample_step_of_run _ _ _ _ _ _ Hstep) as (gfin & evs & Hrun & Hev & _).
  apply sample_step_inv in Hstep as (first & Hhd & Hi & Hg & Hb).
  split; [by exists gfin, evs|].
  assert (Hlast : (forall j prev, i = S j -> df !! j = Some prev ->
                     last_state g = occupied_now prev) /\
                  (i = 0%nat -> last_state g = occupied_now row)).
  { split.
    - intros j prev -> Hj. rewrite Hg, (take_S_r _ _ _ Hj), gate_loop_snoc.
      apply loop_body_last_state.
    - intros ->. rewrite Hg. destruct df as [|f rest]; [done|].
      simpl in *. congruence. }
  unfold loop_body in Hb.
  destruct (Z.eqb_spec (occupied_now row) (last_state g)) as [Heq|Hne]; simpl in Hb.
  - destruct (pred_label row =? 1); injection Hb as <- <-;
      (split; [split; [done|congruence]|]);
      (split; [done|]); (split; [congruence|]); (split; [done|]); exact Hlast.
  - injection Hb as <- <-.
    split; [done|]. split; [by intros s t [= <- <-]|].
    split; [|split; [congruence|exact Hlast]].
    intros _. repeat split; try done.
    intros prob label. unfold loop_body, with_prediction. simpl.
    by destruct (Z.eqb_spec (occupied_now row) (last_state g)).
Qed.

Lemma change_event_iff_occupancy_differs_witness :
  sample_step scenario_A 2 =
    Some ({| last_state := 0; edge_tx := 0; trad_tx := 2; published := [] |},
          scenario_row "2024-01-01 00:00:02" 1 (Finite (1 # 10)) 0,
          {| last_state := 1; edge_tx := 1; trad_tx := 3;
             published := encode (Change 1 "2024-01-01 00:00:02") |},
          Some (Change 1 "2024-01-01 00:00:02")) /\
  (Some (Change 1 "2024-01-01 00:00:02") = Some (Change 1 "2024-01-01 00:00:02")
     <-> 1 <> 0).
Proof.
  split; [reflexivity|].
  exact (proj1 (proj2 (change_event_iff_occupancy_differs scenario_A 2 _ _ _ _ eq_refl))).
Defined.

(** C2.  On a prepared frame the label is 1 exactly when the probability
    is above 0.5.  At sample [i] a PredictedChange event is emitted
    exactly when Rule 1 did not fire and the label is 1; it carries the
    sample's probability, adds one to [edge_tx], publishes one message
    and leaves [last_state] alone.  When neither rule fires nothing is
    emitted and only [trad_tx] moves. *)
Theorem predicted_change_iff_label samples i g row g' ev :
  sample_step (prepare samples) i = Some (g, row, g', ev) ->
  (pred_label row = 1 <-> float_gtb (pred_prob row) (Finite (1 # 2)) = true) /\
  (forall q, pred_prob row = Finite q -> (pred_label row = 1 <-> (1 # 2 < q)%Q)) /\
  (exists gfin evs, run_simulation (prepare samples) = Ok (gfin, evs) /\ evs !! i = Some ev) /\
  (is_predicted_change ev = true
     <-> occupied_now row = last_state g /\ pred_label row = 1) /\
  (is_predicted_change ev = true ->
     ev = Some (PredictedChange (pred_prob row) (timestamp row)) /\
     edge_tx g' = edge_tx g + 1 /\
     last_state g' = last_state g /\
     published g' = published g ++ encode (PredictedChange (pred_prob row) (timestamp row))) /\
  (occupied_now row = last_state g -> pred_label row <> 1 ->
     ev = None /\ edge_tx g' = edge_tx g /\ last_state g' = last_state g /\
     published g' = published g /\ trad_tx g' = trad_tx g + 1).
Proof.
  intros Hstep. pose proof (sample_step_of_run _ _ _ _ _ _ Hstep) as (gfin & evs & Hrun & Hev & _).
  apply sample_step_inv in Hstep as (first & Hhd & Hi & Hg & Hb).
  assert (Hlabel : pred_label row = 1 <-> float_gtb (pred_prob row) (Finite (1 # 2)) = true).
  { unfold prepare in Hi. rewrite list_lookup_fmap in Hi.
    destruct (samples !! i) as [s|]; [|done]. injection Hi as <-.
    unfold prepare_row. cbn [pred_label pred_prob].
    destruct (float_gtb (s_pred_prob s) (Finite (1 # 2))); simpl; split; done. }
  split; [exact Hlabel|].
  split.
  { intros q Hq. rewrite Hlabel, Hq. unfold float_gtb, float_ltb.
    destruct (Qlt_le_dec (1 # 2) q) as [Hlt|Hle]; split; try done.
    intros Hlt. exfalso. apply (Qlt_not_le _ _ Hlt Hle). }
  split; [by exists gfin, evs|].
  clear Hlabel. unfold loop_body in Hb.
  destruct (Z.eqb_spec (occupied_now row) (last_state g)) as [Heq|Hne]; simpl in Hb.
  - destruct (Z.eqb_spec (pred_label row) 1) as [Hl|Hl]; injection Hb as <- <-; simpl.
    + repeat split; done.
    + split; [split; [done|tauto]|]. split; [done|]. repeat split; done.
  - injection Hb as <- <-; simpl.
    split; [split; [done|tauto]|]. split; [done|]. intros; done.
Qed.

Lemma predicted_change_iff_label_witness :
  sample_step (prepare scenario_B_samples) 1 =
    Some ({| last_state := 0; edge_tx := 0; trad_tx := 1; published := [] |},
          scenario_row "2024-01-01 00:00:01" 0 (Finite (998 # 1000)) 1,
          {| last_state := 0; edge_tx := 1; trad_tx := 2;
             published := encode (PredictedChange (Finite (998 # 1000)) "2024-01-01 00:00:01") |},
          Some (PredictedChange (Finite (998 # 1000)) "2024-01-01 00:00:01")) /\
  (1 = 1 <-> float_gtb (Finite (998 # 1000)) (Finite (1 # 2)) = true).
Proof.
  split; [reflexivity|].
  exact (proj1 (predicted_change_iff_label scenario_B_samples 1 _ _ _ _ eq_refl)).
Defined.

(** C3.  A run over a frame of N rows returns with [trad_tx = N] and
    [edge_tx <= trad_tx]; the loop adds one to [trad_tx] at every sample
    whatever the rule that fired, and from any gate and over any rows
    (none included) it leaves [trad_tx] larger by the number of rows and
    [edge_tx] larger by at most as much. *)
Theorem traditional_counts_every_sample df :
  df <> [] ->
  (exists gfin evs,
     run_simulation df = Ok (gfin, evs) /\
     trad_tx gfin = Z.of_nat (length df) /\
     0 <= edge_tx gfin <= trad_tx gfin /\
     length evs = length df) /\
  (forall g row, trad_tx (fst (loop_body g row)) = trad_tx g + 1) /\
  (forall g rows,
     trad_tx (fst (gate_loop g rows)) = trad_tx g + Z.of_nat (length rows) /\
     edge_tx g <= edge_tx (fst (gate_loop g rows)) <= edge_tx g + Z.of_nat (length rows)).
Proof.
  intros Hne. split; [|split; [apply loop_body_trad|apply gate_loop_counters]].
  destruct df as [|first rest]; [done|].
  exists (fst (gate_loop (initial_gate first) (first :: rest))),
         (snd (gate_loop (initial_gate first) (first :: rest))).
  split; [unfold run_simulation; f_equal; apply surjective_pairing|].
  pose proof (gate_loop_counters (initial_gate first) (first :: rest)) as [Ht He].
  rewrite gate_loop_events_length. simpl in *. repeat split; lia.
Qed.

Lemma traditional_counts_every_sample_witness :
  scenario_A <> [] /\
  exists gfin evs,
    run_simulation scenario_A = Ok (gfin, evs) /\
    trad_tx gfin = Z.of_nat (length scenario_A) /\
    0 <= edge_tx gfin <= trad_tx gfin /\
    length evs = length scenario_A.
Proof.
  assert (H : scenario_A <> []) by discriminate.
  split; [exact H|].
  exact (proj1 (traditional_counts_every_sample scenario_A H)).
Defined.

(** C4.  On a frame with at least one row the run returns, with one
    event per sample.  The gate starts with [last_state] equal to the
    first row's occupancy, so the event the run records for the first
    sample is no Change.  Every sample of the run leaves [last_state]
    equal to its own occupancy, whatever event the run records for it:
    the gate it leaves is the one the run on the frame cut after that
    sample returns, with the same events so far, the one the next sample
    finds, and after the last sample the one the run returns; so the
    run ends with [last_state] equal to the occupancy of the last row,
    and after any prefix of the rows with that of the prefix's last. *)
Theorem last_state_tracks_occupancy df first :
  head df = Some first ->
  exists gfin evs,
    run_simulation df = Ok (gfin, evs) /\
    length evs = length df /\
    (exists g1 ev,
       sample_step df 0 = Some (initial_gate first, first, g1, ev) /\
       last_state (initial_gate first) = occupied_now first /\
       evs !! 0%nat = Some ev /\
       is_change ev = false) /\
    (forall i row, df !! i = Some row ->
       exists g g' ev,
         sample_step df i = Some (g, row, g', ev) /\
         evs !! i = Some ev /\
         last_state g' = occupied_now row /\
         run_simulation (take (S i) df) = Ok (g', take (S i) evs) /\
         (forall next, df !! S i = Some next ->
            exists g'' ev', sample_step df (S i) = Some (g', next, g'', ev')) /\
         (S i = length df -> g' = gfin)) /\
    (forall row, last df = Some row -> last_state gfin = occupied_now row) /\
    (forall rows row rest, df = rows ++ row :: rest ->
       exists g' evs',
         run_simulation (rows ++ [row]) = Ok (g', evs') /\
         last_state g' = occupied_now row).
Proof.
  intros Hhd.
  assert (Hrun : forall rows, head rows = Some first ->
    run_simulation rows =
      Ok (fst (gate_loop (initial_gate first) rows),
          snd (gate_loop (initial_gate first) rows))).
  { intros [|f l] H; [done|]. injection H as ->.
    unfold run_simulation. f_equal. apply surjective_pairing. }
  assert (Hstep : forall i row, df !! i = Some row ->
    sample_step df i =
      Some (fst (gate_loop (initial_gate first) (take i df)), row,
            fst (loop_body (fst (gate_loop (initial_gate first) (take i df))) row),
            snd (loop_body (fst (gate_loop (initial_gate first) (take i df))) row))).
  { intros i row Hi. unfold sample_step.
    destruct df as [|f l]; [done|]. injection Hhd as ->. rewrite Hi.
    by destruct (loop_body _ row). }
  assert (H0 : df !! 0%nat = Some first) by (by destruct df).
  assert (Hsnoc : forall rows row,
    last_state (fst (gate_loop (initial_gate first) (rows ++ [row]))) = occupied_now row).
  { intros rows row. rewrite gate_loop_snoc. apply loop_body_last_state. }
  exists (fst (gate_loop (initial_gate first) df)), (snd (gate_loop (initial_gate first) df)).
  split; [by apply Hrun|].
  split; [apply gate_loop_events_length|].
  split.
  { rewrite (Hstep _ _ H0). cbn [take gate_loop fst].
    eexists _, _. split; [reflexivity|]. split; [done|].
    split; [exact (gate_loop_event_at _ _ _ _ H0)|].
    unfold loop_body. cbn [initial_gate last_state]. rewrite Z.eqb_refl. cbn [negb].
    by destruct (pred_label first =? 1). }
  split.
  { intros i row Hi.
    assert (Hg' : fst (gate_loop (initial_gate first) (take (S i) df)) =
                  fst (loop_body (fst (gate_loop (initial_gate first) (take i df))) row)).
    { by rewrite (take_S_r _ _ _ Hi), gate_loop_snoc. }
    eexists _, _, _. split; [exact (Hstep _ _ Hi)|].
    split; [exact (gate_loop_event_at _ _ _ _ Hi)|].
    split; [apply loop_body_last_state|].
    split.
    { rewrite <- Hg', <- gate_loop_take. apply Hrun.
      destruct df as [|f l]; [done|]. exact Hhd. }
    split.
    { intros next Hnext. rewrite (Hstep _ _ Hnext), Hg'. by eexists _, _. }
    intros Hlen. rewrite <- Hg'. by rewrite take_ge by lia. }
  split.
  { intros row Hlast. apply last_Some in Hlast as [init ->]. apply Hsnoc. }
  intros rows row rest Hdf.
  eexists _, _. split; [|apply Hsnoc]. apply Hrun.
  subst df. by destruct rows.
Qed.

Lemma last_state_tracks_occupancy_witness :
  head scenario_A = Some (scenario_row "2024-01-01 00:00:00" 0 (Finite (1 # 10)) 0) /\
  exists gfin evs,
    run_simulation scenario_A = Ok (gfin, evs) /\
    length evs = length scenario_A /\
    last_state gfin = 0 /\
    run_simulation (take 3 scenario_A) = Ok
      ({| last_state := 1; edge_tx := 1; trad_tx := 3;
          published := encode (Change 1 "2024-01-01 00:00:02") |}, take 3 evs).
Proof.
  split; [reflexivity|].
  destruct (last_state_tracks_occupancy scenario_A _ eq_refl)
    as (gfin & evs & Hrun & Hlen & _ & Hstep & Hlast & _).
  exists gfin, evs. split; [exact Hrun|]. split; [exact Hlen|].
  split; [exact (Hlast _ eq_refl)|].
  destruct (Hstep 2%nat _ eq_refl) as (g & g' & ev & Hs & _ & _ & Hp & _).
  injection Hs as _ <- _. exact Hp.
Defined.

(** C7.  On the frame with no row [run_simulation] raises KeyError at
    line 64, before any counter exists, and so does the main block; the
    guard of line 108, reached with two zero counters, would report 0. *)
Theorem empty_frame_raises :
  run_simulation [] = Raise (KeyError "0") /\
  main [] = Raise (KeyError "0") /\
  reduction_pct 0 0 = Ok (Finite 0) /\
  summary_text 0 0 (Finite 0) = "Traditional=0, EdgeAI=0, Reduction=0.00%".
Proof. repeat split; reflexivity. Qed.

(** ** Strings *)

Import streamlit_dashboard.

Section Strings.

Implicit Types (s r p n : string) (c : ascii).

Lemma strip_prefix_app p s : strip_prefix p (p +:+ s) = Some s.
Proof. induction p as [|a p IH]; simpl; [by destruct s|]. by rewrite Ascii.eqb_refl. Qed.

Lemma strip_prefix_Some p s r : strip_prefix p s = Some r -> s = p +:+ r.
Proof.
  revert s. induction p as [|a p IH]; intros s; simpl.
  - by intros [= ->].
  - destruct s as [|b s]; [done|]. destruct (Ascii.eqb_spec a b) as [->|]; [|done].
    intros ->%IH. done.
Qed.

Lemma app_assoc_string s1 s2 s3 : (s1 +:+ s2) +:+ s3 = s1 +:+ (s2 +:+ s3).
Proof. induction s1 as [|a s1 IH]; simpl; [done|]. by rewrite IH. Qed.

Lemma app_empty_r s : s +:+ "" = s.
Proof. induction s as [|a s IH]; simpl; [done|]. by rewrite IH. Qed.

Lemma span_all f s r :
  all_chars f s = true ->
  match r with String c _ => f c = false | EmptyString => True end ->
  span f (s +:+ r) = (s, r).
Proof.
  intros Hs Hr. induction s as [|a s IH]; simpl in *.
  - destruct r as [|c r]; simpl; [done|]. by rewrite Hr.
  - apply andb_true_iff in Hs as [-> Hs]. by rewrite (IH Hs).
Qed.

Lemma span_spec f s :
  fst (span f s) +:+ snd (span f s) = s /\
  all_chars f (fst (span f s)) = true /\
  match snd (span f s) with String c _ => f c = false | EmptyString => True end.
Proof.
  induction s as [|a s (IH1 & IH2 & IH3)]; simpl; [done|].
  destruct (f a) eqn:Ha; simpl.
  - destruct (span f s) as [x y]; simpl in *. rewrite IH1, Ha. done.
  - by rewrite Ha.
Qed.

Lemma startswith_app s p : startswith (p +:+ s) p = true.
Proof. unfold startswith. by rewrite strip_prefix_app. Qed.

(** A needle without white space lies in [s] exactly when it lies in
    [s.strip()]. *)
Lemma startswith_space c r n a :
  is_space c = true -> is_space a = false -> startswith (String c r) (String a n) = false.
Proof.
  intros Hc Ha. unfold startswith. simpl.
  destruct (Ascii.eqb_spec a c) as [->|]; [congruence|done].
Qed.

Lemma startswith_rstrip s n :
  all_chars (fun c => negb (is_space c)) n = true ->
  startswith (rstrip s) n = startswith s n.
Proof.
  revert s. induction n as [|a n IH]; intros s Hn.
  - unfold startswith. by destruct (rstrip s), s.
  - simpl in Hn. apply andb_true_iff in Hn as [Ha%negb_true_iff Hn].
    destruct s as [|c r]; [done|]. simpl.
    destruct (is_space c && is_empty (rstrip r)) eqn:E.
    + apply andb_true_iff in E as [Hc _]. by rewrite (startswith_space _ _ _ _ Hc Ha).
    + specialize (IH r Hn). unfold startswith in *. simpl.
      destruct (Ascii.eqb a c); [exact IH|done].
Qed.

Lemma contains_rstrip s n :
  all_chars (fun c => negb (is_space c)) n = true -> n <> "" ->
  contains n (rstrip s) = contains n s.
Proof.
  intros Hn Hne. induction s as [|c r IH]; [done|].
  change (contains n (String c r)) with
    (if startswith (String c r) n then true else contains n r).
  rewrite <- (startswith_rstrip (String c r) n Hn), <- IH. simpl.
  destruct (is_space c && is_empty (rstrip r)) eqn:E; [|done].
  apply andb_true_iff in E as [_ He]. destruct (rstrip r); [|done].
  destruct n; [done|]. done.
Qed.

Lemma contains_lstrip s n :
  all_chars (fun c => negb (is_space c)) n = true -> n <> "" ->
  contains n (lstrip s) = contains n s.
Proof.
  intros Hn Hne. destruct n as [|a n]; [done|].
  simpl in Hn. apply andb_true_iff in Hn as [Ha%negb_true_iff Hn].
  induction s as [|c r IH]; [done|].
  change (lstrip (String c r)) with (if is_space c then lstrip r else String c r).
  destruct (is_space c) eqn:Hc; [|done].
  rewrite IH. simpl. by rewrite (startswith_space _ _ _ _ Hc Ha).
Qed.

Lemma contains_strip s n :
  all_chars (fun c => negb (is_space c)) n = true -> n <> "" ->
  contains n (strip s) = contains n s.
Proof. intros Hn Hne. unfold strip. by rewrite contains_rstrip, contains_lstrip. Qed.

Lemma startswith_strip s a n :
  all_chars (fun c => negb (is_space c)) (String a n) = true ->
  startswith s (String a n) = true -> startswith (strip s) (String a n) = true.
Proof.
  intros Hn Hs. unfold strip. rewrite startswith_rstrip by done.
  destruct s as [|c r]; [done|].
  change (lstrip (String c r)) with (if is_space c then lstrip r else String c r).
  destruct (is_space c) eqn:Hc; [|done].
  simpl in Hn. apply andb_true_iff in Hn as [Ha%negb_true_iff _].
  by rewrite (startswith_space _ _ _ _ Hc Ha) in Hs.
Qed.

(** A text without the first character of a needle does not contain it;
    so no timestamp text contains PRED_CHANGE. *)
Lemma contains_first_char a n s :
  all_chars (fun c => negb (Ascii.eqb a c)) s = true ->
  contains (String a n) s = false.
Proof.
  induction s as [|c r IH]; [done|]. simpl.
  intros [Hc Hr]%andb_true_iff. apply negb_true_iff in Hc.
  unfold startswith. simpl. by rewrite Hc, (IH Hr).
Qed.

Lemma timestamp_text_without_keyword ts :
  all_chars is_timestamp_char ts = true -> contains "PRED_CHANGE" ts = false.
Proof.
  intros H. apply contains_first_char.
  induction ts as [|c r IH]; [done|]. cbn [all_chars] in *.
  apply andb_true_iff in H as [Hc Hr]. rewrite (IH Hr), andb_true_r.
  destruct (Ascii.eqb_spec "P" c) as [<-|]; [|done]. by vm_compute in Hc.
Qed.

End Strings.

(** ** The decoder, branch by branch *)

Section Decoder.

Implicit Types (st : session_state) (topic payload slot text : string).

Lemma setdefault_lookup {A : Type} (k : string) (d : gmap string (list A)) :
  setdefault_deque k d !! k = Some (deque_of d k).
Proof.
  unfold setdefault_deque, deque_of. destruct (d !! k) eqn:E; simpl; [done|].
  by rewrite lookup_insert_eq.
Qed.

Lemma setdefault_lookup_ne {A : Type} (k k' : string) (d : gmap string (list A)) :
  k' <> k -> setdefault_deque k d !! k' = d !! k'.
Proof.
  intros Hne. unfold setdefault_deque. destruct (d !! k); [done|].
  by rewrite lookup_insert_ne.
Qed.

Lemma dict_appendleft_setdefault {A : Type} (k : string) (x : A) (d : gmap string (list A)) :
  dict_appendleft k x (setdefault_deque k d) =
  Ok (<[k := appendleft x (deque_of d k)]> (setdefault_deque k d)).
Proof. unfold dict_appendleft. by rewrite setdefault_lookup. Qed.

Lemma appended_lookup_ne {A : Type} (k k' : string) (q : list A) (d : gmap string (list A)) :
  k' <> k -> <[k := q]> (setdefault_deque k d) !! k' = d !! k'.
Proof. intros Hne. by rewrite lookup_insert_ne, setdefault_lookup_ne. Qed.

Lemma store_metric_only_metrics kv :
  exists f, forall st, store_metric kv st = (Ok tt, set_metrics f st).
Proof.
  destruct kv as [k v]. unfold store_metric.
  destruct (_ || _); [eexists; intros st; reflexivity|].
  destruct (String.eqb k "Reduction"); [eexists; intros st; reflexivity|].
  exists (fun m => m). by intros [].
Qed.

Lemma for_each_store_metric l :
  exists f, forall st, for_each store_metric l st = (Ok tt, set_metrics f st).
Proof.
  induction l as [|kv l [f IH]].
  - exists (fun m => m). by intros [].
  - destruct (store_metric_only_metrics kv) as [f0 H0].
    exists (fun m => f (f0 m)). intros st. simpl. unfold bind.
    rewrite H0, IH. by destruct st.
Qed.

Ltac run_monad :=
  repeat (
    unfold parse_payload, bind, Timestamp_now, ensure_slot_structs, modify, ret, lift,
      raw_log_appendleft, events_appendleft, pred_probs_appendleft, occupancy_appendleft,
      set_events, set_pred_probs, set_occupancy, set_raw_log, set_metrics;
    cbn [events pred_probs occupancy raw_log metrics clock fst snd];
    rewrite ?dict_appendleft_setdefault).

Ltac observe :=
  unfold event_recorded, prob_recorded, state_recorded, events_kept, probs_kept,
    states_kept, other_slots_kept;
  cbn [events pred_probs occupancy raw_log metrics clock];
  repeat split;
  try (intros; rewrite ?appended_lookup_ne, ?setdefault_lookup_ne by done);
  rewrite ?lookup_insert_eq, ?setdefault_lookup; try done.

Lemma parse_payload_metrics topic payload st :
  endswith topic "metrics/transmissions" = true ->
  exists st',
    parse_payload topic payload st = (Ok tt, st') /\
    event_recorded (slot_of_topic topic) (clock st, "METRICS", strip payload) st st' /\
    probs_kept (slot_of_topic topic) st st' /\
    states_kept (slot_of_topic topic) st st' /\
    other_slots_kept (slot_of_topic topic) st st'.
Proof.
  intros Hm. run_monad. rewrite Hm.
  destruct (for_each_store_metric (findall_key_value 0 (strip payload))) as [f Hf].
  run_monad. rewrite Hf. run_monad. eexists. split; [reflexivity|]. observe.
Qed.

Lemma parse_payload_pred_change topic payload st prob :
  endswith topic "metrics/transmissions" = false ->
  contains "PRED_CHANGE" (strip payload) = true ->
  read_prob (strip payload) = Ok prob ->
  exists st',
    parse_payload topic payload st = (Ok tt, st') /\
    event_recorded (slot_of_topic topic)
      (clock st, "PRED_CHANGE", "prob=" +:+ str_of_prob prob) st st' /\
    prob_recorded (slot_of_topic topic) (clock st, prob) st st' /\
    states_kept (slot_of_topic topic) st st' /\
    other_slots_kept (slot_of_topic topic) st st'.
Proof.
  intros Hm Hp Hr. run_monad. rewrite Hm, Hp, Hr. run_monad.
  eexists. split; [reflexivity|]. observe.
Qed.

Lemma parse_payload_pred_change_raises topic payload st e :
  endswith topic "metrics/transmissions" = false ->
  contains "PRED_CHANGE" (strip payload) = true ->
  read_prob (strip payload) = Raise e ->
  parse_payload topic payload st = (Raise e, entered (slot_of_topic topic) st).
Proof. intros Hm Hp Hr. run_monad. by rewrite Hm, Hp, Hr. Qed.

Lemma parse_payload_change topic payload st :
  endswith topic "metrics/transmissions" = false ->
  contains "PRED_CHANGE" (strip payload) = false ->
  startswith (strip payload) "CHANGE" = true ->
  exists st',
    parse_payload topic payload st = (Ok tt, st') /\
    event_recorded (slot_of_topic topic)
      (clock st, "CHANGE", "state=" +:+ str_of_state (read_state (strip payload))) st st' /\
    state_recorded (slot_of_topic topic) (clock st, read_state (strip payload)) st st' /\
    probs_kept (slot_of_topic topic) st st' /\
    other_slots_kept (slot_of_topic topic) st st'.
Proof.
  intros Hm Hp Hc. run_monad. rewrite Hm, Hp, Hc. run_monad.
  eexists. split; [reflexivity|]. observe.
Qed.

Lemma parse_payload_state topic payload st :
  endswith topic "metrics/transmissions" = false ->
  contains "PRED_CHANGE" (strip payload) = false ->
  startswith (strip payload) "CHANGE" = false ->
  endswith topic "/state" = true ->
  exists st',
    parse_payload topic payload st = (Ok tt, st') /\
    event_recorded (slot_of_topic topic)
      (clock st, "STATE", str_of_state (read_raw_state (strip payload))) st st' /\
    state_recorded (slot_of_topic topic) (clock st, read_raw_state (strip payload)) st st' /\
    probs_kept (slot_of_topic topic) st st' /\
    other_slots_kept (slot_of_topic topic) st st'.
Proof.
  intros Hm Hp Hc Hs. run_monad. rewrite Hm, Hp, Hc, Hs. run_monad.
  eexists. split; [reflexivity|]. observe.
Qed.

Lemma parse_payload_msg topic payload st :
  endswith topic "metrics/transmissions" = false ->
  contains "PRED_CHANGE" (strip payload) = false ->
  startswith (strip payload) "CHANGE" = false ->
  endswith topic "/state" = false ->
  exists st',
    parse_payload topic payload st = (Ok tt, st') /\
    event_recorded (slot_of_topic topic) (clock st, "MSG", strip payload) st st' /\
    probs_kept (slot_of_topic topic) st st' /\
    states_kept (slot_of_topic topic) st st' /\
    other_slots_kept (slot_of_topic topic) st st'.
Proof.
  intros Hm Hp Hc Hs. run_monad. rewrite Hm, Hp, Hc, Hs. run_monad.
  eexists. split; [reflexivity|]. observe.
Qed.

(** *** The slot id of a topic *)

Lemma match_slot_digits d rest :
  d <> "" -> all_chars is_digit d = true -> starts_with_digit rest = false ->
  match_slot ("slot" +:+ d +:+ rest) = Some d.
Proof.
  intros Hne Hd Hr. unfold match_slot. rewrite strip_prefix_app.
  rewrite (span_all is_digit d rest Hd); [by destruct d|by destruct rest].
Qed.

Lemma match_slot_none s : slot_digit_here s = false -> match_slot s = None.
Proof.
  unfold slot_digit_here, match_slot. destruct (strip_prefix "slot" s) as [r|]; [|done].
  destruct r as [|c r]; simpl; [done|]. by intros ->.
Qed.

Lemma slot_digit_here_split s :
  slot_digit_here s = true ->
  exists d rest,
    s = "slot" +:+ d +:+ rest /\ d <> "" /\ all_chars is_digit d = true /\
    starts_with_digit rest = false.
Proof.
  unfold slot_digit_here. destruct (strip_prefix "slot" s) as [r|] eqn:E; [|done].
  intros Hr. apply strip_prefix_Some in E as ->.
  destruct (span_spec is_digit r) as (H1 & H2 & H3).
  exists (fst (span is_digit r)), (snd (span is_digit r)).
  rewrite H1. split; [done|]. split; [|split; [done|]].
  - destruct r as [|c r]; [done|]. simpl in *. rewrite Hr.
    by destruct (span is_digit r).
  - by destruct (snd (span is_digit r)).
Qed.

Lemma re_search_here attempt s g :
  attempt s = Some g -> re_search attempt s = Some g.
Proof. intros H. destruct s; simpl; by rewrite H. Qed.

Lemma re_search_next attempt c r :
  attempt (String c r) = None ->
  re_search attempt (String c r) = re_search attempt r.
Proof. intros H. simpl. by rewrite H. Qed.

Lemma slot_of_topic_leftmost pre d rest :
  d <> "" -> all_chars is_digit d = true -> starts_with_digit rest = false ->
  (forall p1 p2, pre = p1 +:+ p2 -> p2 <> "" ->
     slot_digit_here (p2 +:+ "slot" +:+ d +:+ rest) = false) ->
  slot_of_topic (pre +:+ "slot" +:+ d +:+ rest) = "slot" +:+ d.
Proof.
  intros Hne Hd Hr Hpre. unfold slot_of_topic.
  enough (re_search match_slot (pre +:+ "slot" +:+ d +:+ rest) = Some d) as -> by done.
  induction pre as [|c pre IH].
  - apply re_search_here. by apply match_slot_digits.
  - change (String c pre +:+ "slot" +:+ d +:+ rest)
      with (String c (pre +:+ "slot" +:+ d +:+ rest)).
    rewrite re_search_next.
    + apply IH. intros p1 p2 -> Hp2. by apply (Hpre (String c p1) p2).
    + apply match_slot_none. by apply (Hpre "" (String c pre)).
Qed.

Lemma slot_of_topic_no_match topic :
  (forall p1 p2, topic = p1 +:+ p2 -> slot_digit_here p2 = false) ->
  slot_of_topic topic = "slot1".
Proof.
  intros Hno. unfold slot_of_topic.
  enough (re_search match_slot topic = None) as -> by done.
  induction topic as [|c t IH].
  - done.
  - rewrite re_search_next.
    + apply IH. intros p1 p2 ->. by apply (Hno (String c p1) p2).
    + apply match_slot_none. by apply (Hno "" (String c t)).
Qed.

Lemma slot_of_topic_cases topic :
  (forall p1 p2, topic = p1 +:+ p2 -> slot_digit_here p2 = false) \/
  (exists pre d rest,
     topic = pre +:+ "slot" +:+ d +:+ rest /\
     d <> "" /\ all_chars is_digit d = true /\ starts_with_digit rest = false /\
     forall p1 p2, pre = p1 +:+ p2 -> p2 <> "" ->
       slot_digit_here (p2 +:+ "slot" +:+ d +:+ rest) = false).
Proof.
  induction topic as [|c t IH].
  - left. intros p1 p2 Hp. destruct p1, p2; done.
  - destruct (slot_digit_here (String c t)) eqn:Hhere.
    + right. apply slot_digit_here_split in Hhere as (d & rest & -> & H1 & H2 & H3).
      exists "", d, rest. repeat split; try done.
      intros p1 p2 Hp. by destruct p1, p2.
    + destruct IH as [Hno|(pre & d & rest & -> & H1 & H2 & H3 & H4)].
      * left. intros p1 p2 Hp. destruct p1 as [|a p1]; simpl in Hp.
        -- by subst p2.
        -- injection Hp as -> ->. by apply (Hno p1 p2).
      * right. exists (String c pre), d, rest. repeat split; try done.
        intros p1 p2 Hp Hp2. destruct p1 as [|a p1]; simpl in Hp.
        -- by subst p2.
        -- injection Hp as -> ->. by apply (H4 p1 p2).
Qed.

Lemma py_float_raises v e :
  py_float v = Raise e ->
  e = ValueError ("could not convert string to float: '" +:+ v +:+ "'").
Proof. unfold py_float. intros H. repeat case_match; congruence. Qed.

Lemma read_prob_raises text e :
  read_prob text = Raise e ->
  exists g,
    re_search match_prob text = Some g /\ py_float g = Raise e /\
    e = ValueError ("could not convert string to float: '" +:+ g +:+ "'").
Proof.
  unfold read_prob. destruct (re_search match_prob text) as [g|]; [|done].
  destruct (py_float g) as [x|e'] eqn:E; [done|]. intros [= ->].
  exists g. repeat split; [done|]. by apply py_float_raises.
Qed.

(** Whatever the message, the deques of the topic's slot exist
    afterwards, no other slot is touched, and the only exception is the
    ValueError of an unreadable probability. *)
Lemma parse_payload_total topic payload st :
  exists r st',
    parse_payload topic payload st = (r, st') /\
    (forall key, r <> Raise (KeyError key)) /\
    is_Some (events st' !! slot_of_topic topic) /\
    is_Some (pred_probs st' !! slot_of_topic topic) /\
    is_Some (occupancy st' !! slot_of_topic topic) /\
    other_slots_kept (slot_of_topic topic) st st' /\
    (r = Ok tt ->
       exists kind info,
         event_recorded (slot_of_topic topic) (clock st, kind, info) st st').
Proof.
  assert (Hfin : forall st',
    is_Some (events st' !! slot_of_topic topic) ->
    is_Some (pred_probs st' !! slot_of_topic topic) ->
    is_Some (occupancy st' !! slot_of_topic topic) ->
    other_slots_kept (slot_of_topic topic) st st' ->
    (exists kind info,
       event_recorded (slot_of_topic topic) (clock st, kind, info) st st') ->
    exists r st'0,
      (Ok tt, st') = (r, st'0) /\
      (forall key, r <> Raise (KeyError key)) /\
      is_Some (events st'0 !! slot_of_topic topic) /\
      is_Some (pred_probs st'0 !! slot_of_topic topic) /\
      is_Some (occupancy st'0 !! slot_of_topic topic) /\
      other_slots_kept (slot_of_topic topic) st st'0 /\
      (r = Ok tt ->
         exists kind info,
           event_recorded (slot_of_topic topic) (clock st, kind, info) st st'0)).
  { intros st' ? ? ? ? ?. exists (Ok tt), st'. by repeat (split; [done|]). }
  destruct (endswith topic "metrics/transmissions") eqn:Hm.
  { destruct (parse_payload_metrics topic payload st Hm) as (st' & -> & H1 & H2 & H3 & H4).
    apply Hfin; try done; [by eexists..|by eexists _, _]. }
  destruct (contains "PRED_CHANGE" (strip payload)) eqn:Hp.
  { destruct (read_prob (strip payload)) as [prob|e] eqn:Hr.
    - destruct (parse_payload_pred_change topic payload st prob Hm Hp Hr)
        as (st' & -> & H1 & H2 & H3 & H4).
      apply Hfin; try done; [by eexists..|by eexists _, _].
    - rewrite (parse_payload_pred_change_raises topic payload st e Hm Hp Hr).
      eexists _, _. split; [reflexivity|].
      split.
      { intros key [= ->]. by apply read_prob_raises in Hr as (g & _ & _ & ?). }
      unfold entered, other_slots_kept. cbn [events pred_probs occupancy].
      rewrite !setdefault_lookup. repeat split; try done; eauto.
      all: by rewrite setdefault_lookup_ne. }
  destruct (startswith (strip payload) "CHANGE") eqn:Hc.
  { destruct (parse_payload_change topic payload st Hm Hp Hc) as (st' & -> & H1 & H2 & H3 & H4).
    apply Hfin; try done; [by eexists..|by eexists _, _]. }
  destruct (endswith topic "/state") eqn:Hs.
  { destruct (parse_payload_state topic payload st Hm Hp Hc Hs) as (st' & -> & H1 & H2 & H3 & H4).
    apply Hfin; try done; [by eexists..|by eexists _, _]. }
  destruct (parse_payload_msg topic payload st Hm Hp Hc Hs) as (st' & -> & H1 & H2 & H3 & H4).
  apply Hfin; try done; [by eexists..|by eexists _, _].
Qed.

Lemma event_recorded_kind slot now now' kind kind' info info' st st' :
  event_recorded slot (now, kind, info) st st' ->
  event_recorded slot (now', kind', info') st st' ->
  kind = kind'.
Proof.
  unfold event_recorded. intros H1 H2. rewrite H1 in H2.
  injection H2. by intros.
Qed.

(** The handler of the drain loop, for one message whose decoding raises. *)
Lemma drain_one_raises topic payload st e st1 :
  parse_payload topic payload st = (Raise e, st1) ->
  drain [(topic, payload)] 0 st =
    (Ok 1%nat,
     {| events := events st1; pred_probs := pred_probs st1; occupancy := occupancy st1;
        raw_log := appendleft (clock st1, "parse_error",
                     str_of_exn e +:+ " | " +:+ topic +:+ " | " +:+ payload) (raw_log st1);
        metrics := metrics st1; clock := S (clock st1) |}).
Proof.
  intros H. unfold drain, bind, try_except. rewrite H.
  unfold bind, Timestamp_now, raw_log_appendleft, modify, set_raw_log, ret. done.
Qed.

End Decoder.

(** ** The decoder: slot ids, unreadable fields, order of the tests *)

(** C8.  The slot id of a message is [slot] followed by the digits of the
    leftmost place of the topic where [slot] and a decimal digit stand,
    and [slot1] when the topic has no such place; one of the two always
    applies, so no topic makes the decoder fail, and what it records goes
    to the deques of that slot alone.  The payload of scenario D on
    [ns/slot3/event] is recorded for [slot3] as a predicted change with
    the float 0.998. *)
Theorem slot_id_is_read_from_the_topic :
  (forall pre d rest,
     d <> "" -> all_chars is_digit d = true -> starts_with_digit rest = false ->
     (forall p1 p2, pre = p1 +:+ p2 -> p2 <> "" ->
        slot_digit_here (p2 +:+ "slot" +:+ d +:+ rest) = false) ->
     slot_of_topic (pre +:+ "slot" +:+ d +:+ rest) = "slot" +:+ d) /\
  (forall topic,
     (forall p1 p2, topic = p1 +:+ p2 -> slot_digit_here p2 = false) ->
     slot_of_topic topic = "slot1") /\
  (forall topic,
     (forall p1 p2, topic = p1 +:+ p2 -> slot_digit_here p2 = false) \/
     (exists pre d rest,
        topic = pre +:+ "slot" +:+ d +:+ rest /\
        d <> "" /\ all_chars is_digit d = true /\ starts_with_digit rest = false /\
        forall p1 p2, pre = p1 +:+ p2 -> p2 <> "" ->
          slot_digit_here (p2 +:+ "slot" +:+ d +:+ rest) = false)) /\
  (forall topic payload st,
     exists r st',
       parse_payload topic payload st = (r, st') /\
       (forall key, r <> Raise (KeyError key)) /\
       is_Some (events st' !! slot_of_topic topic) /\
       is_Some (pred_probs st' !! slot_of_topic topic) /\
       is_Some (occupancy st' !! slot_of_topic topic) /\
       other_slots_kept (slot_of_topic topic) st st' /\
       (r = Ok tt ->
          exists kind info,
            event_recorded (slot_of_topic topic) (clock st, kind, info) st st')) /\
  (forall st,
     exists st',
       parse_payload "ns/slot3/event"
         "PRED_CHANGE: prob=0.998, ts=2024-01-01T00:00:00" st = (Ok tt, st') /\
       event_recorded "slot3" (clock st, "PRED_CHANGE", "prob=0.998") st st' /\
       prob_recorded "slot3"
         (clock st, Some (Finite (4494592428115755 # 4503599627370496))) st st' /\
       states_kept "slot3" st st') /\
  round_double (998 # 1000) = Finite (4494592428115755 # 4503599627370496).
Proof.
  split; [exact slot_of_topic_leftmost|].
  split; [exact slot_of_topic_no_match|].
  split; [exact slot_of_topic_cases|].
  split; [exact parse_payload_total|].
  split; [|vm_compute; reflexivity].
  intros st.
  assert (Hm : endswith "ns/slot3/event" "metrics/transmissions" = false)
    by (vm_compute; reflexivity).
  assert (Hc : contains "PRED_CHANGE"
                 (strip "PRED_CHANGE: prob=0.998, ts=2024-01-01T00:00:00") = true)
    by (vm_compute; reflexivity).
  assert (Hr : read_prob (strip "PRED_CHANGE: prob=0.998, ts=2024-01-01T00:00:00")
               = Ok (Some (Finite (4494592428115755 # 4503599627370496))))
    by (vm_compute; reflexivity).
  assert (Hslot : slot_of_topic "ns/slot3/event" = "slot3") by (vm_compute; reflexivity).
  assert (Hs : str_of_prob (Some (Finite (4494592428115755 # 4503599627370496))) = "0.998")
    by (vm_compute; reflexivity).
  destruct (parse_payload_pred_change _ _ st _ Hm Hc Hr) as (st' & Hp & H1 & H2 & H3 & _).
  rewrite Hslot in H1, H2, H3. rewrite Hs in H1.
  exists st'. split; [exact Hp|]. split; [exact H1|]. split; [exact H2|exact H3].
Qed.

(** C9.  A PRED_CHANGE payload whose probability text is made of digits
    and dots but is no number makes [float] raise inside
    [parse_payload]: the drain loop catches the error and logs it, and
    neither the event history nor the probabilities of the slot get an
    entry.  A probability that the pattern does not find, and a state
    that its pattern does not find, give [None] and the event is
    recorded. *)
Theorem unreadable_probability_drops_the_event :
  (forall st,
     parse_payload "smartparking/slot1/event"
       "PRED_CHANGE: prob=1.2.3, ts=2024-01-01 00:00:00" st =
     (Raise (ValueError "could not convert string to float: '1.2.3'"),
      entered "slot1" st)) /\
  (forall st,
     exists st',
       drain [("smartparking/slot1/event",
               "PRED_CHANGE: prob=1.2.3, ts=2024-01-01 00:00:00")] 0 st = (Ok 1%nat, st') /\
       events_kept "slot1" st st' /\
       probs_kept "slot1" st st' /\
       raw_log st' =
         appendleft
           (S (clock st), "parse_error",
            "could not convert string to float: '1.2.3' | smartparking/slot1/event | PRED_CHANGE: prob=1.2.3, ts=2024-01-01 00:00:00")
           (raw_log st)) /\
  (forall topic payload st,
     endswith topic "metrics/transmissions" = false ->
     contains "PRED_CHANGE" (strip payload) = true ->
     re_search match_prob (strip payload) = None ->
     exists st',
       parse_payload topic payload st = (Ok tt, st') /\
       event_recorded (slot_of_topic topic) (clock st, "PRED_CHANGE", "prob=None") st st' /\
       prob_recorded (slot_of_topic topic) (clock st, None) st st') /\
  (forall topic payload st,
     endswith topic "metrics/transmissions" = false ->
     contains "PRED_CHANGE" (strip payload) = false ->
     startswith (strip payload) "CHANGE" = true ->
     exists st',
       parse_payload topic payload st = (Ok tt, st') /\
       event_recorded (slot_of_topic topic)
         (clock st, "CHANGE", "state=" +:+ str_of_state (read_state (strip payload))) st st' /\
       state_recorded (slot_of_topic topic) (clock st, read_state (strip payload)) st st' /\
       (re_search match_state (strip payload) = None ->
          read_state (strip payload) = StateNone)).
Proof.
  assert (Hraise : forall st,
     parse_payload "smartparking/slot1/event"
       "PRED_CHANGE: prob=1.2.3, ts=2024-01-01 00:00:00" st =
     (Raise (ValueError "could not convert string to float: '1.2.3'"),
      entered "slot1" st)).
  { intros st.
    assert (Hm : endswith "smartparking/slot1/event" "metrics/transmissions" = false)
      by (vm_compute; reflexivity).
    assert (Hc : contains "PRED_CHANGE"
                   (strip "PRED_CHANGE: prob=1.2.3, ts=2024-01-01 00:00:00") = true)
      by (vm_compute; reflexivity).
    assert (Hr : read_prob (strip "PRED_CHANGE: prob=1.2.3, ts=2024-01-01 00:00:00")
                 = Raise (ValueError "could not convert string to float: '1.2.3'"))
      by (vm_compute; reflexivity).
    assert (Hslot : slot_of_topic "smartparking/slot1/event" = "slot1")
      by (vm_compute; reflexivity).
    rewrite (parse_payload_pred_change_raises _ _ st _ Hm Hc Hr). by rewrite Hslot. }
  split; [exact Hraise|]. split.
  { intros st. rewrite (drain_one_raises _ _ _ _ _ (Hraise st)).
    eexists. split; [reflexivity|].
    unfold events_kept, probs_kept, entered. cbn [events pred_probs raw_log clock].
    rewrite !setdefault_lookup. done. }
  split.
  { intros topic payload st Hm Hp Hnone.
    assert (Hr : read_prob (strip payload) = Ok None) by (unfold read_prob; by rewrite Hnone).
    destruct (parse_payload_pred_change topic payload st None Hm Hp Hr)
      as (st' & -> & H1 & H2 & _).
    by exists st'. }
  intros topic payload st Hm Hp Hc.
  destruct (parse_payload_change topic payload st Hm Hp Hc) as (st' & -> & H1 & H2 & _).
  exists st'. repeat split; try done. unfold read_state. by intros ->.
Qed.

(** C10.  Off the metrics topic a payload containing PRED_CHANGE is
    handled as a predicted change before the topic is looked at, also on
    a topic ending in [/state]: when its probability text can be read (or
    is absent) the event and the probability are recorded and no state
    is; when [float] rejects the text, [parse_payload] raises and records
    nothing, as for [PRED_CHANGE: prob=1.2.3] on a state topic.  A STATE
    event is recorded only on a topic ending in [/state] for a payload
    that neither contains PRED_CHANGE nor starts with CHANGE. *)
Theorem pred_change_is_tested_before_the_state_topic :
  (forall st,
     parse_payload "smartparking/slot1/state" "PRED_CHANGE: prob=1.2.3" st =
     (Raise (ValueError "could not convert string to float: '1.2.3'"),
      entered "slot1" st) /\
     events_kept "slot1" st (entered "slot1" st) /\
     probs_kept "slot1" st (entered "slot1" st)) /\
  (forall topic payload st,
     endswith topic "metrics/transmissions" = false ->
     contains "PRED_CHANGE" payload = true ->
     match read_prob (strip payload) with
     | Ok prob =>
         exists st',
           parse_payload topic payload st = (Ok tt, st') /\
           event_recorded (slot_of_topic topic)
             (clock st, "PRED_CHANGE", "prob=" +:+ str_of_prob prob) st st' /\
           prob_recorded (slot_of_topic topic) (clock st, prob) st st' /\
           states_kept (slot_of_topic topic) st st'
     | Raise e =>
         parse_payload topic payload st = (Raise e, entered (slot_of_topic topic) st)
     end) /\
  (forall topic payload st st' info,
     parse_payload topic payload st = (Ok tt, st') ->
     event_recorded (slot_of_topic topic) (clock st, "STATE", info) st st' ->
     endswith topic "/state" = true /\
     contains "PRED_CHANGE" payload = false /\
     startswith (strip payload) "CHANGE" = false /\
     startswith payload "CHANGE" = false).
Proof.
  split.
  { intros st. split.
    - assert (Hm : endswith "smartparking/slot1/state" "metrics/transmissions" = false)
        by (vm_compute; reflexivity).
      assert (Hc : contains "PRED_CHANGE" (strip "PRED_CHANGE: prob=1.2.3") = true)
        by (vm_compute; reflexivity).
      assert (Hr : read_prob (strip "PRED_CHANGE: prob=1.2.3")
                   = Raise (ValueError "could not convert string to float: '1.2.3'"))
        by (vm_compute; reflexivity).
      assert (Hslot : slot_of_topic "smartparking/slot1/state" = "slot1")
        by (vm_compute; reflexivity).
      rewrite (parse_payload_pred_change_raises _ _ st _ Hm Hc Hr). by rewrite Hslot.
    - unfold events_kept, probs_kept, entered. cbn [events pred_probs].
      by rewrite !setdefault_lookup. }
  split.
  { intros topic payload st Hm Hp.
    rewrite <- (contains_strip payload "PRED_CHANGE") in Hp by done.
    destruct (read_prob (strip payload)) as [prob|e] eqn:Hr.
    - destruct (parse_payload_pred_change topic payload st prob Hm Hp Hr)
        as (st' & -> & H1 & H2 & H3 & _).
      by exists st'.
    - by apply parse_payload_pred_change_raises. }
  intros topic payload st st' info Hrun Hrec.
  destruct (endswith topic "metrics/transmissions") eqn:Hm.
  { destruct (parse_payload_metrics topic payload st Hm) as (st1 & H & H1 & _).
    rewrite H in Hrun. injection Hrun as <-.
    by pose proof (event_recorded_kind _ _ _ _ _ _ _ _ _ H1 Hrec). }
  destruct (contains "PRED_CHANGE" (strip payload)) eqn:Hp.
  { destruct (read_prob (strip payload)) as [prob|e] eqn:Hr.
    - destruct (parse_payload_pred_change topic payload st prob Hm Hp Hr)
        as (st1 & H & H1 & _).
      rewrite H in Hrun. injection Hrun as <-.
      by pose proof (event_recorded_kind _ _ _ _ _ _ _ _ _ H1 Hrec).
    - by rewrite (parse_payload_pred_change_raises topic payload st e Hm Hp Hr) in Hrun. }
  destruct (startswith (strip payload) "CHANGE") eqn:Hc.
  { destruct (parse_payload_change topic payload st Hm Hp Hc) as (st1 & H & H1 & _).
    rewrite H in Hrun. injection Hrun as <-.
    by pose proof (event_recorded_kind _ _ _ _ _ _ _ _ _ H1 Hrec). }
  destruct (endswith topic "/state") eqn:Hs.
  - rewrite (contains_strip payload "PRED_CHANGE") in Hp by done.
    repeat split; try done.
    destruct (startswith payload "CHANGE") eqn:Hc'; [|done].
    by rewrite (startswith_strip payload "C" "HANGE" eq_refl Hc') in Hc.
  - destruct (parse_payload_msg topic payload st Hm Hp Hc Hs) as (st1 & H & H1 & _).
    rewrite H in Hrun. injection Hrun as <-.
    by pose proof (event_recorded_kind _ _ _ _ _ _ _ _ _ H1 Hrec).
Qed.

(** ** Rounding to binary64 *)

Section Floats.

Lemma Qpow2_power s : (Qpow2 s == 2 ^ s)%Q.
Proof.
  unfold Qpow2. destruct (Z.leb_spec 0 s) as [Hs|Hs].
  - apply (Zpower_Qpower 2 s Hs).
  - replace s with (- (- s)) at 2 by lia.
    rewrite Qpower_opp, <- (Zpower_Qpower 2 (- s)) by lia.
    assert (H : 0 < 2 ^ (- s)) by (apply Z.pow_pos_nonneg; lia).
    destruct (2 ^ (- s)) as [|p|p]; try lia. reflexivity.
Qed.

Lemma Qpow2_pos s : (0 < Qpow2 s)%Q.
Proof. rewrite Qpow2_power. apply Qpower_0_lt. reflexivity. Qed.

Lemma Qpow2_add a b : (Qpow2 (a + b) == Qpow2 a * Qpow2 b)%Q.
Proof. rewrite !Qpow2_power. apply Qpower_plus. discriminate. Qed.

Lemma Qpow2_lt a b : a < b -> (Qpow2 a < Qpow2 b)%Q.
Proof. intros H. rewrite !Qpow2_power. apply Qpower_lt_compat_l; [exact H|reflexivity]. Qed.

Lemma Qpow2_le a b : a <= b -> (Qpow2 a <= Qpow2 b)%Q.
Proof. intros H. rewrite !Qpow2_power. apply Qpower_le_compat_l; [exact H|discriminate]. Qed.

Lemma Qpow2_lt_inv a b : (Qpow2 a < Qpow2 b)%Q -> a < b.
Proof. rewrite !Qpow2_power. intros H. apply (Qpower_lt_compat_l_inv 2); [exact H|reflexivity]. Qed.

Lemma Qpow2_half s : (Qpow2 (s - 1) == Qpow2 s * (1 # 2))%Q.
Proof. unfold Z.sub. rewrite Qpow2_add. reflexivity. Qed.

Lemma round_half_even_error x :
  (Qabs (inject_Z (round_half_even x) - x) <= 1 # 2)%Q.
Proof.
  destruct x as [n d]. unfold round_half_even. cbn [Qnum Qden].
  pose proof (Z.div_mod n (Z.pos d) ltac:(lia)) as Hdm.
  pose proof (Z.mod_pos_bound n (Z.pos d) ltac:(lia)) as Hr.
  apply Qabs_Qle_condition.
  destruct (Z.compare_spec (2 * (n mod Z.pos d)) (Z.pos d)) as [He|Hl|Hg];
    [destruct (Z.even (n / Z.pos d))|..];
    unfold Qle, Qminus, Qplus, Qopp, inject_Z; cbn [Qnum Qden]; split; nia.
Qed.

Lemma round_half_even_nonneg x : (0 <= x)%Q -> 0 <= round_half_even x.
Proof.
  destruct x as [n d]. unfold Qle, round_half_even. cbn [Qnum Qden]. intros H.
  assert (0 <= n) by lia.
  pose proof (Z.div_pos n (Z.pos d) ltac:(lia) ltac:(lia)).
  repeat case_match; lia.
Qed.

Lemma Qpow2_inject s : 0 <= s -> (Qpow2 s == inject_Z (2 ^ s))%Q.
Proof. intros H. unfold Qpow2. destruct (Z.leb_spec 0 s); [reflexivity|lia]. Qed.

(** [binade] is the integer part of the binary logarithm. *)
Lemma binade_spec (a : Q) :
  (0 < a)%Q -> (Qpow2 (binade a) <= a < Qpow2 (binade a + 1))%Q.
Proof.
  intros Ha. unfold binade.
  destruct a as [n d]. cbn [Qnum Qden].
  assert (Hn : 0 < n) by (unfold Qlt in Ha; simpl in Ha; lia).
  set (ln := Z.log2 n). set (ld := Z.log2 (Z.pos d)).
  assert (Hln : 0 <= ln) by apply Z.log2_nonneg.
  assert (Hld : 0 <= ld) by apply Z.log2_nonneg.
  destruct (Z.log2_spec n Hn) as [Hn1 Hn2].
  destruct (Z.log2_spec (Z.pos d) ltac:(lia)) as [Hd1 Hd2].
  fold ln in Hn1, Hn2. fold ld in Hd1, Hd2.
  assert (H4 : ((n # d) * inject_Z (Z.pos d) == inject_Z n)%Q).
  { unfold Qeq, Qmult, inject_Z. simpl. lia. }
  assert (H5 : (0 < inject_Z (Z.pos d))%Q) by (unfold Qlt, inject_Z; simpl; lia).
  assert (Hlow : (Qpow2 (ln - ld - 1) < n # d)%Q).
  { assert (E : (Qpow2 ln == Qpow2 (ln - ld - 1) * Qpow2 (Z.succ ld))%Q).
    { rewrite <- Qpow2_add. replace (ln - ld - 1 + Z.succ ld) with ln by lia. reflexivity. }
    rewrite (Qpow2_inject ln), (Qpow2_inject (Z.succ ld)) in E by lia.
    pose proof (Qpow2_pos (ln - ld - 1)) as Hp.
    assert (H2 : (inject_Z (2 ^ ln) <= inject_Z n)%Q) by (unfold Qle, inject_Z; simpl; lia).
    assert (H3 : (inject_Z (Z.pos d) < inject_Z (2 ^ Z.succ ld))%Q)
      by (unfold Qlt, inject_Z; simpl; lia).
    nra. }
  assert (Hhigh : (n # d < Qpow2 (ln - ld + 1))%Q).
  { assert (E : (Qpow2 (Z.succ ln) == Qpow2 (ln - ld + 1) * Qpow2 ld)%Q).
    { rewrite <- Qpow2_add. replace (ln - ld + 1 + ld) with (Z.succ ln) by lia. reflexivity. }
    rewrite (Qpow2_inject (Z.succ ln)), (Qpow2_inject ld) in E by lia.
    pose proof (Qpow2_pos (ln - ld + 1)) as Hp.
    assert (H2 : (inject_Z n < inject_Z (2 ^ Z.succ ln))%Q)
      by (unfold Qlt, inject_Z; simpl; lia).
    assert (H3 : (inject_Z (2 ^ ld) <= inject_Z (Z.pos d))%Q)
      by (unfold Qle, inject_Z; simpl; lia).
    nra. }
  destruct (Qlt_le_dec (n # d) (Qpow2 (ln - ld))) as [Hlt|Hge].
  - replace (ln - ld - 1 + 1) with (ln - ld) by lia. split; [lra|exact Hlt].
  - split; [exact Hge|exact Hhigh].
Qed.

Lemma binade_upper (a : Q) (k : Z) :
  (0 < a)%Q -> (a < Qpow2 k)%Q -> binade a <= k - 1.
Proof.
  intros Ha Hk. destruct (binade_spec a Ha) as [Hlow _].
  assert (binade a < k); [|lia]. apply Qpow2_lt_inv. lra.
Qed.

Lemma round_magnitude (a : Q) (k : Z) :
  (0 < a)%Q -> (a < Qpow2 k)%Q -> -1021 <= k <= 1023 ->
  let s := Z.max (binade a - 52) (-1074) in
  let r := (inject_Z (round_half_even (a / Qpow2 s)) * Qpow2 s)%Q in
  Qle_bool (Qpow2 1024) r = false /\
  (Qabs (r - a) <= Qpow2 (k - 54))%Q /\ (0 <= r)%Q.
Proof.
  intros Hq Hk Hrange s r.
  pose proof (binade_upper a k Hq Hk) as He.
  assert (Hs : s <= k - 53) by (unfold s; lia).
  set (m := round_half_even (a / Qpow2 s)) in *.
  pose proof (round_half_even_error (a / Qpow2 s)) as Herr. fold m in Herr.
  pose proof (Qpow2_pos s) as Hps.
  assert (Hm0 : 0 <= m).
  { apply round_half_even_nonneg. apply Qle_shift_div_l; [exact Hps|]. lra. }
  assert (Hdiv : (a / Qpow2 s * Qpow2 s == a)%Q) by (field; lra).
  apply Qabs_Qle_condition in Herr as [Herr1 Herr2].
  assert (Hhalf : (Qpow2 (s - 1) <= Qpow2 (k - 54))%Q) by (apply Qpow2_le; lia).
  rewrite Qpow2_half in Hhalf.
  assert (Hclose : (- Qpow2 (k - 54) <= r - a <= Qpow2 (k - 54))%Q).
  { unfold r. split; nra. }
  assert (Hkk : (Qpow2 (k - 54) < Qpow2 k)%Q) by (apply Qpow2_lt; lia).
  assert (Hk1 : (Qpow2 (k + 1) <= Qpow2 1024)%Q) by (apply Qpow2_le; lia).
  rewrite Qpow2_add in Hk1. change (Qpow2 1) with 2%Q in Hk1.
  split; [|split].
  - destruct (Qle_bool (Qpow2 1024) r) eqn:Hov; [|done].
    apply Qle_bool_iff in Hov. lra.
  - apply Qabs_Qle_condition. lra.
  - assert (0 <= inject_Z m)%Q by (unfold Qle, inject_Z; simpl; lia). unfold r. nra.
Qed.

(** A value below [2^k] in magnitude rounds to a finite float no
    farther than half a unit in the last place of that range. *)
Lemma round_double_near (q : Q) (k : Z) :
  (Qabs q < Qpow2 k)%Q -> -1021 <= k <= 1023 ->
  exists y, round_double q = Finite y /\ (Qabs (y - q) <= Qpow2 (k - 54))%Q /\
            ((0 <= q)%Q -> (0 <= y)%Q).
Proof.
  intros Hk Hrange. unfold round_double.
  destruct q as [n d]. destruct n as [|p|p]; cbn [Qnum].
  - exists 0%Q. split; [done|]. pose proof (Qpow2_pos (k - 54)).
    assert (E : (0 # d == 0)%Q) by reflexivity.
    split; [|done]. apply Qabs_Qle_condition. rewrite E. lra.
  - change (Qabs (Z.pos p # d)) with (Z.pos p # d) in *.
    change (0 <? Z.pos p) with true. cbv iota.
    destruct (round_magnitude (Z.pos p # d) k ltac:(done) Hk Hrange) as (-> & H & H0).
    eexists. split; [reflexivity|]. by rewrite Qred_correct.
  - change (Qabs (Z.neg p # d)) with (Z.pos p # d) in *.
    change (0 <? Z.neg p) with false. cbv iota.
    destruct (round_magnitude (Z.pos p # d) k ltac:(done) Hk Hrange) as (-> & H & _).
    eexists. split; [reflexivity|]. rewrite Qred_correct. split; [|done].
    apply Qabs_Qle_condition in H. apply Qabs_Qle_condition.
    assert (E : (Z.neg p # d == - (Z.pos p # d))%Q) by reflexivity.
    rewrite E. lra.
Qed.

Lemma round_half_even_unique (x : Q) (n : Z) :
  (Qabs (x - inject_Z n) < 1 # 2)%Q -> round_half_even x = n.
Proof.
  intros H. pose proof (round_half_even_error x) as E.
  apply Qabs_Qlt_condition in H. apply Qabs_Qle_condition in E.
  set (m := round_half_even x) in *.
  assert (Hlt : (inject_Z m < inject_Z n + 1)%Q) by lra.
  assert (Hgt : (inject_Z n < inject_Z m + 1)%Q) by lra.
  unfold Qlt, Qplus, inject_Z in Hlt, Hgt. simpl in Hlt, Hgt. lia.
Qed.

(** A value between 0 and [2^k] rounds to a float in the same range. *)
Lemma round_double_within (q : Q) (k : Z) :
  (0 <= q <= Qpow2 k)%Q -> -1022 <= k <= 1023 ->
  exists y, round_double q = Finite y /\
            (0 <= y <= Qpow2 k)%Q /\ (Qabs (y - q) <= Qpow2 (k - 53))%Q.
Proof.
  intros [Hq0 Hqk] Hrange. unfold round_double.
  destruct q as [n d]. assert (Hn : 0 <= n) by (unfold Qle in Hq0; simpl in Hq0; lia).
  pose proof (Qpow2_pos k) as Hpk. pose proof (Qpow2_pos (k - 53)) as Hpk'.
  destruct n as [|p|p]; [| |lia]; cbn [Qnum].
  { exists 0%Q. split; [done|]. assert (E : (0 # d == 0)%Q) by reflexivity.
    split; [lra|]. apply Qabs_Qle_condition. rewrite E. lra. }
  change (Qabs (Z.pos p # d)) with (Z.pos p # d) in *.
  change (0 <? Z.pos p) with true. cbv iota.
  set (a := Z.pos p # d) in *.
  assert (Ha : (0 < a)%Q) by done.
  assert (Hk1 : (a < Qpow2 (k + 1))%Q).
  { pose proof (Qpow2_lt k (k + 1) ltac:(lia)). lra. }
  pose proof (binade_upper a (k + 1) Ha Hk1) as He.
  set (s := Z.max (binade a - 52) (-1074)).
  assert (Hs : s <= k - 52) by lia.
  set (m := round_half_even (a / Qpow2 s)).
  pose proof (round_half_even_error (a / Qpow2 s)) as Herr. fold m in Herr.
  pose proof (Qpow2_pos s) as Hps.
  assert (Hm0 : 0 <= m).
  { apply round_half_even_nonneg. apply Qle_shift_div_l; [exact Hps|]. lra. }
  assert (Hdiv : (a / Qpow2 s * Qpow2 s == a)%Q) by (field; lra).
  apply Qabs_Qle_condition in Herr as [Herr1 Herr2].
  assert (Hsplit : (Qpow2 k == Qpow2 (k - s) * Qpow2 s)%Q).
  { rewrite <- Qpow2_add. by replace (k - s + s) with k by lia. }
  rewrite (Qpow2_inject (k - s)) in Hsplit by lia.
  set (N := 2 ^ (k - s)) in *.
  assert (HmN : m <= N).
  { assert (Hlt : (inject_Z m < inject_Z N + 1)%Q) by nra.
    unfold Qlt, Qplus, inject_Z in Hlt. simpl in Hlt. lia. }
  assert (HmN' : (inject_Z m <= inject_Z N)%Q) by (unfold Qle, inject_Z; simpl; lia).
  assert (Hm0' : (0 <= inject_Z m)%Q) by (unfold Qle, inject_Z; simpl; lia).
  assert (Hhalf : (Qpow2 (s - 1) <= Qpow2 (k - 53))%Q) by (apply Qpow2_le; lia).
  rewrite Qpow2_half in Hhalf.
  assert (Htop : (Qpow2 k < Qpow2 1024)%Q) by (apply Qpow2_lt; lia).
  assert (Hr : (inject_Z m * Qpow2 s <= Qpow2 k)%Q) by nra.
  destruct (Qle_bool (Qpow2 1024) (inject_Z m * Qpow2 s)) eqn:Hov.
  { apply Qle_bool_iff in Hov. lra. }
  eexists. split; [reflexivity|]. rewrite Qred_correct. split; [split; [nra|lra]|].
  apply Qabs_Qle_condition. split; nra.
Qed.

End Floats.

(** ** Numbers and their decimal texts *)

Section Decimals.

Lemma Qabs_nonneg_eq (q : Q) : (0 <= q)%Q -> Qabs q = q.
Proof.
  destruct q as [a d]. unfold Qle, Qabs. simpl. intros H. rewrite Z.abs_eq; [done|lia].
Qed.

Lemma Qnum_nonneg (q : Q) : (0 <= q)%Q -> (Qnum q <? 0) = false.
Proof. destruct q as [a d]. unfold Qle. simpl. intros H. apply Z.ltb_ge. lia. Qed.
Lemma digits_value_uint_acc d p :
  digits_value (Z.pos p) (NilEmpty.string_of_uint d) = Z.pos (Pos.of_uint_acc d p).
Proof.
  revert p. induction d; intros p; simpl; try done;
    rewrite <- IHd; f_equal; unfold digit_value; simpl; lia.
Qed.

Lemma digits_value_uint d :
  digits_value 0 (NilEmpty.string_of_uint d) = Z.of_N (Pos.of_uint d).
Proof.
  induction d; simpl; [done|exact IHd|..]; apply (digits_value_uint_acc d).
Qed.

Lemma string_of_uint_digits d :
  all_chars is_digit (NilEmpty.string_of_uint d) = true.
Proof. induction d; simpl; done. Qed.

Lemma str_of_int_nonneg z :
  0 <= z ->
  digits_value 0 (str_of_int z) = z /\
  all_chars is_digit (str_of_int z) = true /\
  str_of_int z <> "".
Proof.
  intros Hz. unfold str_of_int. destruct z as [|p|p]; [done| |lia].
  simpl. unfold NilZero.string_of_uint.
  pose proof (DecimalPos.Unsigned.to_uint_nonnil p) as Hnil.
  pose proof (DecimalPos.Unsigned.of_to p) as Hof.
  destruct (Pos.to_uint p) eqn:E; [done|..];
    (split; [rewrite digits_value_uint, Hof; done|]);
    (split; [apply string_of_uint_digits|done]).
Qed.

Lemma digits_value_app acc s1 s2 :
  digits_value acc (s1 +:+ s2) = digits_value (digits_value acc s1) s2.
Proof. revert acc. induction s1 as [|c s1 IH]; intros acc; simpl; [done|]. apply IH. Qed.

Lemma all_chars_app f s1 s2 :
  all_chars f (s1 +:+ s2) = all_chars f s1 && all_chars f s2.
Proof. induction s1 as [|c s1 IH]; simpl; [done|]. by rewrite IH, andb_assoc. Qed.

Lemma all_chars_weaken (f g : ascii -> bool) s :
  (forall c, f c = true -> g c = true) -> all_chars f s = true -> all_chars g s = true.
Proof.
  intros Hfg. induction s as [|c s IH]; simpl; [done|].
  intros [Hc Hs]%andb_true_iff. by rewrite (Hfg c Hc), IH.
Qed.

(** The fraction digits of [format_f]: exactly [k] of them for [k] up to
    three, with the value they were made from. *)
Lemma fraction_digits (k : nat) (v : Z) :
  (1 <= k <= 3)%nat -> 0 <= v < 10 ^ Z.of_nat k ->
  let f := zeros (k - String.length (str_of_int v)) +:+ str_of_int v in
  String.length f = k /\ all_chars is_digit f = true /\
  forall acc, digits_value acc f = acc * 10 ^ Z.of_nat k + v.
Proof.
  intros Hk Hv.
  assert (Hall : forallb (fun k =>
            forallb (fun n =>
              let v := Z.of_nat n in
              let f := zeros (k - String.length (str_of_int v)) +:+ str_of_int v in
              Nat.eqb (String.length f) k && all_chars is_digit f
              && (digits_value 0 f =? v))
              (seq 0 (Nat.pow 10 k))) (seq 1 3) = true) by (vm_compute; reflexivity).
  rewrite forallb_forall in Hall. specialize (Hall k).
  rewrite forallb_forall in Hall.
  assert (Hin : In k (seq 1 3)) by (apply in_seq; lia).
  specialize (Hall Hin (Z.to_nat v)).
  assert (Hin2 : In (Z.to_nat v) (seq 0 (Nat.pow 10 k))).
  { apply in_seq. split; [lia|]. simpl.
    apply Nat2Z.inj_lt. rewrite Z2Nat.id by lia.
    rewrite Nat2Z.inj_pow. simpl. lia. }
  specialize (Hall Hin2). rewrite Z2Nat.id in Hall by lia. cbv zeta in Hall.
  apply andb_true_iff in Hall as [[H1%Nat.eqb_eq H2]%andb_true_iff H3%Z.eqb_eq].
  intros f. repeat split; try done.
  intros acc. clear -H1 H3. fold f in H1, H3. revert H1 H3. generalize f. clear f.
  intros f <- <-. clear. revert acc.
  assert (G : forall s acc acc', digits_value (acc + acc') s =
                 acc * 10 ^ Z.of_nat (String.length s) + digits_value acc' s).
  { induction s as [|c s IH]; intros acc acc'; simpl String.length; simpl digits_value.
    - lia.
    - replace (10 * (acc + acc') + digit_value c) with (10 * acc + (10 * acc' + digit_value c)) by lia.
      rewrite IH. rewrite Nat2Z.inj_succ, Z.pow_succ_r by lia. lia. }
  intros acc. specialize (G f acc 0). by rewrite Z.add_0_r in G.
Qed.

Lemma format_f_nonneg (prec : nat) (q : Q) :
  (1 <= prec <= 3)%nat -> (0 <= q)%Q ->
  exists ip fp,
    format_f prec (Finite q) = ip +:+ "." +:+ fp /\
    ip <> "" /\ all_chars is_digit ip = true /\
    String.length fp = prec /\ all_chars is_digit fp = true /\
    digits_value 0 (ip +:+ fp) =
      round_half_even (q * inject_Z (10 ^ Z.of_nat prec))%Q.
Proof.
  intros Hprec Hq. unfold format_f.
  destruct q as [a d]. assert (Ha : 0 <= a) by (unfold Qle in Hq; simpl in Hq; lia).
  cbn [Qnum]. destruct (Z.ltb_spec a 0) as [|_]; [lia|].
  unfold Qabs. rewrite (Z.abs_eq a Ha).
  set (p := 10 ^ Z.of_nat prec). set (n := round_half_even ((a # d) * inject_Z p)).
  assert (Hp : 0 < p) by (apply Z.pow_pos_nonneg; lia).
  assert (Hn : 0 <= n).
  { apply round_half_even_nonneg. unfold Qle, Qmult, inject_Z. simpl. nia. }
  destruct (Nat.eqb_spec prec 0) as [|_]; [lia|].
  pose proof (Z.div_pos n p Hn Hp) as Hip.
  pose proof (Z.mod_pos_bound n p Hp) as Hfp.
  destruct (str_of_int_nonneg (n / p) Hip) as (Hv & Hd & Hne).
  destruct (fraction_digits prec (n mod p) Hprec Hfp) as (Hlen & Hfd & Hfv).
  eexists _, _. simpl. split; [reflexivity|].
  repeat split; try done.
  rewrite digits_value_app, Hv, Hfv. fold p. rewrite (Z.div_mod n p) at 3 by lia. lia.
Qed.

Lemma py_float_decimal ip fp :
  ip <> "" -> all_chars is_digit ip = true -> all_chars is_digit fp = true ->
  py_float (ip +:+ "." +:+ fp) =
  Ok (round_double (inject_Z (digits_value 0 (ip +:+ fp))
                    * Qpow10 (- Z.of_nat (String.length fp)))%Q).
Proof.
  intros Hne Hip Hfp. unfold py_float.
  rewrite (span_all is_digit ip ("." +:+ fp) Hip) by done.
  change ("." +:+ fp) with (String "." fp).
  rewrite <- (app_empty_r fp) at 1.
  rewrite (span_all is_digit fp "" Hfp) by done.
  destruct ip; [done|]. done.
Qed.

(** A probability printed with three decimals and read back. *)
Lemma three_decimals_read_back (q : Q) :
  (0 <= q <= 1)%Q ->
  exists y,
    py_float (format_f 3 (Finite q)) = Ok (Finite y) /\
    (Qabs (y - q) <= (1 # 2000) + Qpow2 (-53))%Q /\
    format_f 3 (Finite y) = format_f 3 (Finite q) /\
    all_chars is_digit_or_dot (format_f 3 (Finite q)) = true /\
    format_f 3 (Finite q) <> "".
Proof.
  intros Hq.
  destruct (format_f_nonneg 3 q ltac:(lia) ltac:(lra)) as (ip & fp & Hf & Hne & Hip & Hlen & Hfp & Hv).
  set (n := round_half_even (q * inject_Z (10 ^ Z.of_nat 3))) in *.
  pose proof (round_half_even_error (q * inject_Z (10 ^ Z.of_nat 3))) as Hn. fold n in Hn.
  change (inject_Z (10 ^ Z.of_nat 3)) with 1000%Q in *.
  apply Qabs_Qle_condition in Hn.
  set (x := (inject_Z n * Qpow10 (- Z.of_nat 3))%Q).
  assert (Hx : (x == inject_Z n * (1 # 1000))%Q) by reflexivity.
  assert (Hn0 : (0 <= inject_Z n)%Q).
  { apply Qnot_lt_le. intros Hneg.
    assert (inject_Z n <= -1)%Q; [|lra].
    unfold Qlt, Qle, inject_Z in *. simpl in *. lia. }
  destruct (round_double_near x 1) as (y & Hy & Hyx & Hy0); [|lia|].
  { change (Qpow2 1) with 2%Q. apply Qabs_Qlt_condition. lra. }
  change (Qpow2 (1 - 54)) with (Qpow2 (-53)) in Hyx.
  exists y. rewrite Hf, py_float_decimal, Hv, Hlen by done. fold x. rewrite Hy.
  split; [done|].
  assert (Hclose : (Qabs (y - q) <= (1 # 2000) + Qpow2 (-53))%Q).
  { apply Qabs_Qle_condition in Hyx. apply Qabs_Qle_condition. lra. }
  split; [exact Hclose|].
  assert (Hy0' : (0 <= y)%Q) by (apply Hy0; lra).
  split.
  - assert (Hny : round_half_even (y * 1000) = n).
    { apply round_half_even_unique.
      apply Qabs_Qle_condition in Hyx.
      change (Qpow2 (-53)) with (1 # 9007199254740992)%Q in Hyx.
      apply Qabs_Qlt_condition. lra. }
    rewrite <- Hf. unfold format_f. rewrite !Qnum_nonneg, !Qabs_nonneg_eq by lra.
    change (inject_Z (10 ^ Z.of_nat 3)) with 1000%Q. fold n. by rewrite Hny.
  - split.
    + rewrite !all_chars_app. simpl.
      rewrite (all_chars_weaken is_digit is_digit_or_dot ip), (all_chars_weaken is_digit is_digit_or_dot fp);
        try done; intros c Hc; unfold is_digit_or_dot; by rewrite Hc.
    + by destruct ip.
Qed.

End Decimals.

(** ** The wire texts of the gate, read by the decoder *)

Section Wire.

Lemma rstrip_app a b : is_empty (rstrip b) = false -> rstrip (a +:+ b) = a +:+ rstrip b.
Proof.
  intros Hb. induction a as [|c a IH]; simpl; [done|].
  rewrite IH. destruct (a +:+ rstrip b) eqn:E; [|by rewrite andb_false_r].
  destruct a; simpl in E; [|done]. by rewrite E in Hb.
Qed.

Lemma rstrip_ts ts : rstrip (", ts=" +:+ ts) = ", ts=" +:+ rstrip ts.
Proof. reflexivity. Qed.

Lemma strip_pred_change F ts :
  strip ("PRED_CHANGE: prob=" +:+ F +:+ ", ts=" +:+ ts) =
  "PRED_CHANGE: prob=" +:+ F +:+ ", ts=" +:+ rstrip ts.
Proof.
  unfold strip. change (lstrip ("PRED_CHANGE: prob=" +:+ ?x)) with ("PRED_CHANGE: prob=" +:+ x).
  rewrite rstrip_app; rewrite rstrip_app; rewrite ?rstrip_ts; try done.
  by destruct F.
Qed.

Lemma strip_change d ts :
  strip ("CHANGE: state=" +:+ d +:+ ", ts=" +:+ ts) =
  "CHANGE: state=" +:+ d +:+ ", ts=" +:+ rstrip ts.
Proof.
  unfold strip. change (lstrip ("CHANGE: state=" +:+ ?x)) with ("CHANGE: state=" +:+ x).
  rewrite rstrip_app; rewrite rstrip_app; rewrite ?rstrip_ts; try done.
  by destruct d.
Qed.

Lemma search_prob_payload F rest :
  all_chars is_digit_or_dot F = true -> F <> "" ->
  re_search match_prob ("PRED_CHANGE: prob=" +:+ F +:+ String "," rest) = Some F.
Proof.
  intros HF Hne.
  change ("PRED_CHANGE: prob=" +:+ F +:+ String "," rest)
    with ("PRED_CHANGE: " +:+ "prob=" +:+ F +:+ String "," rest).
  cbn [String.append]. do 13 (rewrite re_search_next by reflexivity).
  apply re_search_here. unfold match_prob.
  change (String "p" (String "r" (String "o" (String "b" (String "=" ?x)))))
    with ("prob=" +:+ x).
  rewrite strip_prefix_app, (span_all is_digit_or_dot F (String "," rest) HF) by done.
  by destruct F.
Qed.

Lemma drain_cons_ok topic payload rest n st st1 :
  parse_payload topic payload st = (Ok tt, st1) ->
  drain ((topic, payload) :: rest) n st = drain rest (S n) st1.
Proof. intros H. simpl. unfold bind at 1. unfold try_except. by rewrite H. Qed.

(** The two messages of a Change event, decoded one after the other. *)
Lemma change_messages_decode occ ts st :
  occ = 0 \/ occ = 1 ->
  contains "PRED_CHANGE" ts = false ->
  exists st1 st2,
    parse_payload MQTT_TOPIC_EVENT
      ("CHANGE: state=" +:+ str_of_int occ +:+ ", ts=" +:+ ts) st = (Ok tt, st1) /\
    event_recorded "slot1" (clock st, "CHANGE", "state=" +:+ str_of_int occ) st st1 /\
    state_recorded "slot1" (clock st, StateInt occ) st st1 /\
    probs_kept "slot1" st st1 /\
    parse_payload MQTT_TOPIC_STATE (str_of_int occ) st1 = (Ok tt, st2) /\
    event_recorded "slot1" (clock st1, "STATE", str_of_int occ) st1 st2 /\
    state_recorded "slot1" (clock st1, StateInt occ) st1 st2.
Proof.
  intros Hocc Hts.
  assert (Hm : endswith MQTT_TOPIC_EVENT "metrics/transmissions" = false)
    by (vm_compute; reflexivity).
  assert (Hslot : slot_of_topic MQTT_TOPIC_EVENT = "slot1") by (vm_compute; reflexivity).
  assert (Hm' : endswith MQTT_TOPIC_STATE "metrics/transmissions" = false)
    by (vm_compute; reflexivity).
  assert (Hs' : endswith MQTT_TOPIC_STATE "/state" = true) by (vm_compute; reflexivity).
  assert (Hslot' : slot_of_topic MQTT_TOPIC_STATE = "slot1") by (vm_compute; reflexivity).
  set (d := str_of_int occ).
  assert (Hd : (d = "0" \/ d = "1") /\ py_int d = Some occ /\ read_raw_state (strip d) = StateInt occ
               /\ contains "PRED_CHANGE" (strip d) = false
               /\ startswith (strip d) "CHANGE" = false).
  { destruct Hocc as [-> | ->]; vm_compute; auto. }
  destruct Hd as (Hd & Hint & Hraw & Hp' & Hc').
  set (payload := "CHANGE: state=" +:+ d +:+ ", ts=" +:+ ts).
  assert (Hp : contains "PRED_CHANGE" (strip payload) = false).
  { rewrite contains_strip by done. unfold payload.
    destruct Hd as [-> | ->]; exact Hts. }
  assert (Hc : startswith (strip payload) "CHANGE" = true).
  { apply (startswith_strip payload "C" "HANGE"); [done|]. reflexivity. }
  assert (Hst : read_state (strip payload) = StateInt occ).
  { unfold payload. rewrite strip_change. unfold read_state.
    assert (Hre : re_search match_state ("CHANGE: state=" +:+ d +:+ ", ts=" +:+ rstrip ts)
                  = Some d) by (destruct Hd as [-> | ->]; reflexivity).
    by rewrite Hre, Hint. }
  destruct (parse_payload_change MQTT_TOPIC_EVENT payload st Hm Hp Hc)
    as (st1 & Hrun & H1 & H2 & H3 & _).
  rewrite Hslot, Hst in H1, H2. rewrite Hslot in H3. simpl in H1.
  destruct (parse_payload_state MQTT_TOPIC_STATE d st1 Hm' Hp' Hc' Hs')
    as (st2 & Hrun' & H1' & H2' & _).
  rewrite Hslot', Hraw in H1', H2'. simpl in H1'.
  exists st1, st2. done.
Qed.

(** The message of a PredictedChange event, decoded. *)
Lemma predicted_message_decodes q ts st :
  (0 <= q <= 1)%Q ->
  exists y st1,
    parse_payload MQTT_TOPIC_EVENT
      ("PRED_CHANGE: prob=" +:+ format_f 3 (Finite q) +:+ ", ts=" +:+ ts) st = (Ok tt, st1) /\
    event_recorded "slot1" (clock st, "PRED_CHANGE", "prob=" +:+ repr_float (Finite y)) st st1 /\
    prob_recorded "slot1" (clock st, Some (Finite y)) st st1 /\
    states_kept "slot1" st st1 /\
    (Qabs (y - q) <= (1 # 2000) + Qpow2 (-53))%Q /\
    format_f 3 (Finite y) = format_f 3 (Finite q).
Proof.
  intros Hq.
  assert (Hm : endswith MQTT_TOPIC_EVENT "metrics/transmissions" = false)
    by (vm_compute; reflexivity).
  assert (Hslot : slot_of_topic MQTT_TOPIC_EVENT = "slot1") by (vm_compute; reflexivity).
  destruct (three_decimals_read_back q Hq) as (y & Hy & Hclose & Hfmt & Hdd & Hne).
  set (F := format_f 3 (Finite q)) in *.
  set (payload := "PRED_CHANGE: prob=" +:+ F +:+ ", ts=" +:+ ts).
  assert (Hp : contains "PRED_CHANGE" (strip payload) = true).
  { rewrite contains_strip by done. reflexivity. }
  assert (Hr : read_prob (strip payload) = Ok (Some (Finite y))).
  { unfold payload. rewrite strip_pred_change. unfold read_prob.
    change (", ts=" +:+ rstrip ts) with (String "," (" ts=" +:+ rstrip ts)).
    by rewrite (search_prob_payload F _ Hdd Hne), Hy. }
  destruct (parse_payload_pred_change MQTT_TOPIC_EVENT payload st _ Hm Hp Hr)
    as (st1 & Hrun & H1 & H2 & H3 & _).
  rewrite Hslot in H1, H2, H3. simpl in H1.
  exists y, st1. done.
Qed.

End Wire.

(** ** Round trip of the gate's events *)

(** C6.  Take any event the gate emits on a prepared frame and let the
    decoder, in any state, read the messages published for it.  A Change
    event whose timestamp text does not itself contain PRED_CHANGE (no
    timestamp text does) is recorded for [slot1] as a CHANGE event with
    exactly its state, 0 or 1, and its state snapshot as a STATE event
    with the same state.  A PredictedChange event whose probability lies
    in [0, 1] is recorded for [slot1] as a PRED_CHANGE event with a float
    that prints to the same three decimals as the original probability
    and lies within 0.0005 + 2^-53 of it. *)
Theorem gate_events_decode_back samples i g row g' ev st :
  sample_step (prepare samples) i = Some (g, row, g', Some ev) ->
  match ev with
  | Change occ ts =>
      contains "PRED_CHANGE" ts = false ->
      (occ = 0 \/ occ = 1) /\
      exists st1 st2,
        drain (encode ev) 0 st = (Ok 2%nat, st2) /\
        parse_payload MQTT_TOPIC_EVENT
          ("CHANGE: state=" +:+ str_of_int occ +:+ ", ts=" +:+ ts) st = (Ok tt, st1) /\
        event_recorded "slot1" (clock st, "CHANGE", "state=" +:+ str_of_int occ) st st1 /\
        state_recorded "slot1" (clock st, StateInt occ) st st1 /\
        probs_kept "slot1" st st1 /\
        parse_payload MQTT_TOPIC_STATE (str_of_int occ) st1 = (Ok tt, st2) /\
        event_recorded "slot1" (clock st1, "STATE", str_of_int occ) st1 st2 /\
        state_recorded "slot1" (clock st1, StateInt occ) st1 st2
  | PredictedChange prob ts =>
      is_probability prob ->
      exists q y st1,
        prob = Finite q /\
        drain (encode ev) 0 st = (Ok 1%nat, st1) /\
        parse_payload MQTT_TOPIC_EVENT
          ("PRED_CHANGE: prob=" +:+ format_f 3 prob +:+ ", ts=" +:+ ts) st = (Ok tt, st1) /\
        event_recorded "slot1"
          (clock st, "PRED_CHANGE", "prob=" +:+ repr_float (Finite y)) st st1 /\
        prob_recorded "slot1" (clock st, Some (Finite y)) st st1 /\
        states_kept "slot1" st st1 /\
        (Qabs (y - q) <= (1 # 2000) + Qpow2 (-53))%Q /\
        (Qabs (y - q) < 1 # 1000)%Q /\
        format_f 3 (Finite y) = format_f 3 (Finite q)
  end.
Proof.
  intros Hstep.
  apply sample_step_inv in Hstep as (first & Hhd & Hi & Hg & Hb).
  assert (Hocc : occupied_now row = 0 \/ occupied_now row = 1).
  { unfold prepare in Hi. rewrite list_lookup_fmap in Hi.
    destruct (samples !! i) as [s|]; [|done]. injection Hi as <-.
    unfold prepare_row. cbn [occupied_now]. destruct (float_ltb _ _); simpl; auto. }
  unfold loop_body in Hb.
  destruct (negb (occupied_now row =? last_state g)).
  - injection Hb as _ <-. intros Hts. split; [exact Hocc|].
    destruct (change_messages_decode (occupied_now row) (timestamp row) st Hocc Hts)
      as (st1 & st2 & H1 & H2 & H3 & H4 & H5 & H6 & H7).
    exists st1, st2. repeat split; try done.
    unfold encode. by rewrite (drain_cons_ok _ _ _ _ _ _ H1), (drain_cons_ok _ _ _ _ _ _ H5).
  - destruct (pred_label row =? 1); [|done]. injection Hb as _ <-. intros Hprob.
    destruct (pred_prob row) as [q| | |] eqn:Eq; try done. simpl in Hprob.
    destruct (predicted_message_decodes q (timestamp row) st Hprob)
      as (y & st1 & H1 & H2 & H3 & H4 & H5 & H6).
    exists q, y, st1. repeat split; try done.
    + unfold encode. by rewrite (drain_cons_ok _ _ _ _ _ _ H1).
    + apply Qabs_Qle_condition in H5.
      change (Qpow2 (-53)) with (1 # 9007199254740992)%Q in H5.
      apply Qabs_Qlt_condition. lra.
Qed.

Lemma gate_events_decode_back_witness :
  sample_step (prepare scenario_B_samples) 1 =
    Some ({| last_state := 0; edge_tx := 0; trad_tx := 1; published := [] |},
          scenario_row "2024-01-01 00:00:01" 0 (Finite (998 # 1000)) 1,
          {| last_state := 0; edge_tx := 1; trad_tx := 2;
             published := encode (PredictedChange (Finite (998 # 1000)) "2024-01-01 00:00:01") |},
          Some (PredictedChange (Finite (998 # 1000)) "2024-01-01 00:00:01")) /\
  is_probability (Finite (998 # 1000)) /\
  exists q y st1,
    Finite (998 # 1000) = Finite q /\
    drain (encode (PredictedChange (Finite (998 # 1000)) "2024-01-01 00:00:01")) 0
      initial_state = (Ok 1%nat, st1) /\
    parse_payload MQTT_TOPIC_EVENT
      ("PRED_CHANGE: prob=" +:+ format_f 3 (Finite (998 # 1000)) +:+ ", ts="
       +:+ "2024-01-01 00:00:01") initial_state = (Ok tt, st1) /\
    event_recorded "slot1"
      (clock initial_state, "PRED_CHANGE", "prob=" +:+ repr_float (Finite y))
      initial_state st1 /\
    prob_recorded "slot1" (clock initial_state, Some (Finite y)) initial_state st1 /\
    states_kept "slot1" initial_state st1 /\
    (Qabs (y - q) <= (1 # 2000) + Qpow2 (-53))%Q /\
    (Qabs (y - q) < 1 # 1000)%Q /\
    format_f 3 (Finite y) = format_f 3 (Finite q).
Proof.
  assert (Hp : is_probability (Finite (998 # 1000))) by (simpl; lra).
  split; [reflexivity|]. split; [exact Hp|].
  exact (gate_events_decode_back scenario_B_samples 1 _ _ _ _ initial_state eq_refl Hp).
Defined.

(** ** The end-of-run metrics *)

(** Line 108 in exact arithmetic, and the three roundings of the floats. *)
Lemma reduction_pct_close (edge trad : Z) :
  0 <= edge <= trad -> 0 < trad ->
  exists ratio r,
    int_truediv edge trad = Some ratio /\
    reduction_pct edge trad =
      Ok (float_mul (float_of_int 100) (float_sub (float_of_int 1) ratio)) /\
    reduction_pct edge trad = Ok (Finite r) /\
    (0 <= r)%Q /\
    (Qabs (r - 100 * (1 - inject_Z edge / inject_Z trad)) <= Qpow2 (-44))%Q.
Proof.
  intros He Ht.
  set (x := (inject_Z edge / inject_Z trad)%Q).
  assert (Ht' : (0 < inject_Z trad)%Q) by (unfold Qlt, inject_Z; simpl; lia).
  assert (He' : (0 <= inject_Z edge <= inject_Z trad)%Q)
    by (unfold Qle, inject_Z; simpl; lia).
  assert (Hx : (0 <= x <= 1)%Q).
  { unfold x. split.
    - apply Qle_shift_div_l; [done|]. lra.
    - apply Qle_shift_div_r; [done|]. lra. }
  destruct (round_double_within x 0) as (y1 & Hy1 & Hb1 & Hc1); [done|lia|].
  change (Qpow2 0) with 1%Q in Hb1.
  destruct (round_double_within (1 - y1) 0) as (y2 & Hy2 & Hb2 & Hc2);
    [change (Qpow2 0) with 1%Q; lra|lia|].
  change (Qpow2 0) with 1%Q in Hb2.
  destruct (round_double_within (100 * y2) 7) as (y3 & Hy3 & Hb3 & Hc3);
    [change (Qpow2 7) with 128%Q; lra|lia|].
  assert (H100 : float_of_int 100 = Finite 100) by (vm_compute; reflexivity).
  assert (H1 : float_of_int 1 = Finite 1) by (vm_compute; reflexivity).
  exists (Finite y1), y3. unfold reduction_pct, int_truediv.
  destruct (Z.ltb_spec 0 trad) as [_|]; [|lia]. fold x. rewrite Hy1, H100, H1.
  unfold float_sub, float_mul. rewrite Hy2, Hy3.
  repeat split; try done; [lra|].
  apply Qabs_Qle_condition in Hc1, Hc2, Hc3. apply Qabs_Qle_condition.
  change (Qpow2 (0 - 53)) with (1 # 9007199254740992)%Q in *.
  change (Qpow2 (7 - 53)) with (1 # 70368744177664)%Q in *.
  change (Qpow2 (-44)) with (1 # 17592186044416)%Q.
  lra.
Qed.

(** C5.  With [0 <= edge <= trad]: when [trad > 0] the reduction is the
    float expression [100 * (1 - edge / trad)], each operation rounded,
    a non-negative float within 2^-44 of the exact value; when [trad] is
    not positive it is 0.  The payload is [Traditional=], the decimal
    digits of [trad], [, EdgeAI=], the decimal digits of [edge],
    [, Reduction=], the reduction with exactly two decimals (rounded
    half-even from the exact float), and [%]; the main block publishes it
    on the metrics topic after the messages of the run. *)
Theorem reduction_and_summary_text edge trad :
  0 <= edge <= trad ->
  (0 < trad ->
     exists ratio r,
       int_truediv edge trad = Some ratio /\
       reduction_pct edge trad =
         Ok (float_mul (float_of_int 100) (float_sub (float_of_int 1) ratio)) /\
       reduction_pct edge trad = Ok (Finite r) /\
       (0 <= r)%Q /\
       (Qabs (r - 100 * (1 - inject_Z edge / inject_Z trad)) <= Qpow2 (-44))%Q) /\
  (forall e t, t <= 0 -> reduction_pct e t = Ok (Finite 0)) /\
  (forall x,
     summary_text edge trad x =
       "Traditional=" +:+ str_of_int trad +:+ ", EdgeAI=" +:+ str_of_int edge
       +:+ ", Reduction=" +:+ format_f 2 x +:+ "%") /\
  (all_chars is_digit (str_of_int trad) = true /\ digits_value 0 (str_of_int trad) = trad /\
   all_chars is_digit (str_of_int edge) = true /\ digits_value 0 (str_of_int edge) = edge) /\
  (forall r, (0 <= r)%Q ->
     exists ip fp,
       format_f 2 (Finite r) = ip +:+ "." +:+ fp /\
       ip <> "" /\ all_chars is_digit ip = true /\
       String.length fp = 2%nat /\ all_chars is_digit fp = true /\
       digits_value 0 (ip +:+ fp) = round_half_even (r * 100)%Q) /\
  (forall df g evs,
     run_simulation df = Ok (g, evs) -> edge_tx g = edge -> trad_tx g = trad ->
     exists r,
       reduction_pct edge trad = Ok (Finite r) /\
       main df =
         Ok (published g
             ++ [(MQTT_TOPIC_METRICS, summary_text edge trad (Finite r))])).
Proof.
  intros He.
  split; [intros Ht; exact (reduction_pct_close edge trad He Ht)|].
  split.
  { intros e t Ht. unfold reduction_pct. by destruct (Z.ltb_spec 0 t); [lia|]. }
  split; [done|].
  split.
  { destruct (str_of_int_nonneg trad ltac:(lia)) as (? & ? & _).
    destruct (str_of_int_nonneg edge ltac:(lia)) as (? & ? & _). done. }
  split.
  { intros r Hr. exact (format_f_nonneg 2 r ltac:(lia) Hr). }
  intros df g evs Hrun Hedge Htrad.
  assert (Ht : 0 < trad).
  { destruct df as [|first rest]; [done|].
    destruct (traditional_length (first :: rest) g evs Hrun). simpl in *. lia. }
  destruct (reduction_pct_close edge trad He Ht) as (ratio & r & _ & _ & Hr & _).
  exists r. split; [exact Hr|]. unfold main. by rewrite Hrun, Hedge, Htrad, Hr.
Qed.

Lemma reduction_and_summary_text_witness :
  0 <= 2 <= 5 /\
  summary_text 2 5 (Finite 60) = "Traditional=5, EdgeAI=2, Reduction=60.00%".
Proof.
  assert (H : 0 <= 2 <= 5) by lia.
  split; [exact H|].
  exact (proj1 (proj2 (proj2 (reduction_and_summary_text 2 5 H))) (Finite 60)).
Defined.

(** The scenarios A, B and D of the specification, run. *)
Example scenario_A_run :
  main scenario_A =
    Ok [ (MQTT_TOPIC_EVENT, "CHANGE: state=1, ts=2024-01-01 00:00:02");
         (MQTT_TOPIC_STATE, "1");
         (MQTT_TOPIC_EVENT, "CHANGE: state=0, ts=2024-01-01 00:00:04");
         (MQTT_TOPIC_STATE, "0");
         (MQTT_TOPIC_METRICS, "Traditional=5, EdgeAI=2, Reduction=60.00%") ].
Proof. vm_compute. reflexivity. Qed.

Example scenario_B_run :
  main (prepare scenario_B_samples) =
    Ok [ (MQTT_TOPIC_EVENT, "PRED_CHANGE: prob=0.998, ts=2024-01-01 00:00:01");
         (MQTT_TOPIC_METRICS, "Traditional=3, EdgeAI=1, Reduction=66.67%") ].
Proof. vm_compute. reflexivity. Qed.

(* ================================================================== *)
(** * Part III: further properties of the two programs *)
(* ================================================================== *)

#[local] Set Warnings "-clear-no-such-hyp".

(** ** The gate: what is counted and what is published *)

Section Traffic.

Lemma run_simulation_inv df g evs :
  run_simulation df = Ok (g, evs) ->
  exists first, head df = Some first /\ gate_loop (initial_gate first) df = (g, evs).
Proof.
  destruct df as [|first rest]; [done|]. intros H. exists first. split; [done|].
  unfold run_simulation in H. congruence.
Qed.

(** The three rules of the loop body, by the event they send. *)
Lemma loop_body_cases g row :
  (snd (loop_body g row) = Some (Change (occupied_now row) (timestamp row)) /\
   last_state (fst (loop_body g row)) = occupied_now row) \/
  (snd (loop_body g row) = Some (PredictedChange (pred_prob row) (timestamp row)) /\
   last_state (fst (loop_body g row)) = last_state g) \/
  (snd (loop_body g row) = None /\ last_state (fst (loop_body g row)) = last_state g).
Proof.
  unfold loop_body. destruct (negb (occupied_now row =? last_state g)); [by left|].
  destruct (pred_label row =? 1); [right; by left|right; by right].
Qed.

Lemma loop_body_published g row :
  published (fst (loop_body g row)) = published g ++ messages_of (snd (loop_body g row)).
Proof.
  unfold loop_body.
  destruct (negb (occupied_now row =? last_state g)); [done|].
  destruct (pred_label row =? 1); [done|].
  cbn [fst snd published messages_of]. by rewrite app_nil_r.
Qed.

Lemma gate_loop_published g rows :
  published (fst (gate_loop g rows)) =
  published g ++ concat (map messages_of (snd (gate_loop g rows))).
Proof.
  revert g. induction rows as [|row rest IH]; intros g.
  - cbn. by rewrite app_nil_r.
  - rewrite gate_loop_cons. cbn [fst snd map concat].
    by rewrite IH, loop_body_published, app_assoc.
Qed.

Lemma gate_loop_edge g rows :
  edge_tx (fst (gate_loop g rows)) =
  edge_tx g + Z.of_nat (count_samples is_sent (snd (gate_loop g rows))).
Proof.
  revert g. induction rows as [|row rest IH]; intros g.
  - cbn. lia.
  - rewrite gate_loop_cons. cbn [fst snd]. rewrite IH, loop_body_edge.
    unfold count_samples. cbn [List.filter].
    destruct (snd (loop_body g row)); cbn [is_sent length]; lia.
Qed.

Lemma concat_messages_length evs :
  length (concat (map messages_of evs)) =
  (count_samples is_sent evs + count_samples is_change evs)%nat.
Proof.
  induction evs as [|ev evs IH]; [done|].
  cbn [map concat]. rewrite length_app, IH.
  unfold count_samples. cbn [List.filter].
  destruct ev as [[| ]|]; cbn [is_sent is_change length messages_of encode]; lia.
Qed.

Lemma count_sent_split evs :
  count_samples is_sent evs =
  (count_samples is_change evs + count_samples is_predicted_change evs)%nat.
Proof.
  induction evs as [|ev evs IH]; [done|].
  unfold count_samples in *. cbn [List.filter].
  destruct ev as [[| ]|]; cbn [is_sent is_change is_predicted_change length]; lia.
Qed.

Lemma gate_loop_changes g rows :
  count_samples is_change (snd (gate_loop g rows)) = transitions (last_state g) rows.
Proof.
  revert g. induction rows as [|row rest IH]; intros g; [done|].
  rewrite gate_loop_cons. cbn [snd transitions].
  assert (Hc : is_change (snd (loop_body g row)) = negb (occupied_now row =? last_state g)).
  { unfold loop_body. destruct (negb (occupied_now row =? last_state g)); [done|].
    by destruct (pred_label row =? 1). }
  specialize (IH (fst (loop_body g row))). rewrite loop_body_last_state in IH.
  rewrite <- IH. unfold count_samples. cbn [List.filter]. rewrite Hc.
  destruct (occupied_now row =? last_state g); cbn [negb length]; lia.
Qed.

Lemma transitions_constant s rows :
  Forall (fun row => occupied_now row = s) rows -> transitions s rows = 0%nat.
Proof.
  induction 1 as [|row rest Hrow _ IH]; [done|].
  cbn [transitions]. rewrite Hrow, Z.eqb_refl. exact IH.
Qed.

Lemma no_change_last_state g rows :
  count_samples is_change (snd (gate_loop g rows)) = 0%nat ->
  last_state (fst (gate_loop g rows)) = last_state g.
Proof.
  revert g. induction rows as [|row rest IH]; intros g; [done|].
  rewrite gate_loop_cons. cbn [fst snd]. unfold count_samples. cbn [List.filter].
  destruct (loop_body_cases g row) as [[-> _]|[[-> Hl]|[-> Hl]]]; cbn [is_change length];
    [done| |]; intros H; by rewrite (IH _ H).
Qed.

Lemma replay_gate_loop g rows :
  replay (last_state g) (snd (gate_loop g rows)) = last_state (fst (gate_loop g rows)).
Proof.
  revert g. induction rows as [|row rest IH]; intros g; [done|].
  rewrite gate_loop_cons. cbn [fst snd]. unfold replay in *. cbn [fold_left].
  rewrite <- IH. f_equal.
  by destruct (loop_body_cases g row) as [[-> ->]|[[-> ->]|[-> ->]]].
Qed.

End Traffic.

(** X1.  In a run, the messages handed to the client are those of the
    events of the samples, in order; [edge_tx] is the number of samples
    that sent an event, each a Change or a PredictedChange; a Change is
    counted once and published twice (event and state snapshot), so the
    number of messages is [edge_tx] plus the number of Change events. *)
Theorem edge_tx_counts_events_not_messages df g evs :
  run_simulation df = Ok (g, evs) ->
  published g = concat (map messages_of evs) /\
  edge_tx g = Z.of_nat (count_samples is_sent evs) /\
  count_samples is_sent evs =
    (count_samples is_change evs + count_samples is_predicted_change evs)%nat /\
  Z.of_nat (length (published g)) = edge_tx g + Z.of_nat (count_samples is_change evs).
Proof.
  intros Hrun. destruct (run_simulation_inv _ _ _ Hrun) as (first & _ & Hloop).
  pose proof (gate_loop_published (initial_gate first) df) as Hp.
  pose proof (gate_loop_edge (initial_gate first) df) as He.
  rewrite Hloop in Hp, He. cbn [fst snd initial_gate published edge_tx app] in Hp, He.
  split; [done|]. split; [lia|]. split; [apply count_sent_split|].
  rewrite Hp, concat_messages_length, He. lia.
Qed.

Lemma edge_tx_counts_events_not_messages_witness :
  exists g evs,
    run_simulation scenario_A = Ok (g, evs) /\
    edge_tx g = 2 /\ length (published g) = 4%nat /\
    Z.of_nat (length (published g)) = edge_tx g + Z.of_nat (count_samples is_change evs).
Proof.
  eexists _, _. split; [reflexivity|]. split; [reflexivity|]. split; [reflexivity|].
  eapply (edge_tx_counts_events_not_messages scenario_A). reflexivity.
Defined.

(** X2.  The Change events of a run are as many as the rows whose
    occupancy differs from that of the row before; [edge_tx] is at
    least that number; on a frame of constant occupancy no Change is
    sent and [edge_tx] counts the predicted changes alone. *)
Theorem change_count_is_transition_count df first g evs :
  head df = Some first -> run_simulation df = Ok (g, evs) ->
  count_samples is_change evs = transitions (occupied_now first) df /\
  Z.of_nat (transitions (occupied_now first) df) <= edge_tx g /\
  (Forall (fun row => occupied_now row = occupied_now first) df ->
     count_samples is_change evs = 0%nat /\
     edge_tx g = Z.of_nat (count_samples is_predicted_change evs)).
Proof.
  intros Hh Hrun. destruct (run_simulation_inv _ _ _ Hrun) as (first' & Hh' & Hloop).
  assert (first' = first) as -> by congruence.
  pose proof (gate_loop_changes (initial_gate first) df) as Hc.
  pose proof (gate_loop_edge (initial_gate first) df) as He.
  rewrite Hloop in Hc, He. cbn [fst snd initial_gate last_state edge_tx] in Hc, He.
  pose proof (count_sent_split evs) as Hs.
  split; [done|]. split; [lia|].
  intros Hconst. rewrite (transitions_constant _ _ Hconst) in Hc. split; lia.
Qed.

Lemma change_count_is_transition_count_witness :
  exists g evs,
    run_simulation scenario_A = Ok (g, evs) /\
    count_samples is_change evs = 2%nat /\
    count_samples is_change evs = transitions 0 scenario_A.
Proof.
  eexists _, _. split; [reflexivity|]. split; [reflexivity|].
  exact (proj1 (change_count_is_transition_count scenario_A _ _ _ eq_refl eq_refl)).
Defined.

(** X3.  A receiver that knows the occupancy of the first sample and
    takes the state of every Change event holds, after the events of
    the samples 0..i, the occupancy of sample i, and after all of them
    the gate's [last_state]: predicted changes and suppressed samples
    lose nothing of the occupancy. *)
Theorem changes_alone_rebuild_occupancy df first g evs :
  head df = Some first -> run_simulation df = Ok (g, evs) ->
  replay (occupied_now first) evs = last_state g /\
  forall i row, df !! i = Some row ->
    replay (occupied_now first) (take (S i) evs) = occupied_now row.
Proof.
  intros Hh Hrun. destruct (run_simulation_inv _ _ _ Hrun) as (first' & Hh' & Hloop).
  assert (first' = first) as -> by congruence.
  pose proof (replay_gate_loop (initial_gate first) df) as Hr.
  rewrite Hloop in Hr. cbn [fst snd initial_gate last_state] in Hr. split; [done|].
  intros i row Hi.
  pose proof (gate_loop_take (initial_gate first) df (S i)) as Ht.
  rewrite Hloop in Ht. cbn [snd] in Ht. rewrite <- Ht.
  pose proof (replay_gate_loop (initial_gate first) (take (S i) df)) as Hr'.
  cbn [initial_gate last_state] in Hr'. rewrite Hr'.
  rewrite (take_S_r _ _ _ Hi), gate_loop_snoc. apply loop_body_last_state.
Qed.

Lemma changes_alone_rebuild_occupancy_witness :
  exists g evs,
    run_simulation scenario_A = Ok (g, evs) /\
    replay 0 evs = last_state g /\ replay 0 (take 3 evs) = 1.
Proof.
  eexists _, _. split; [reflexivity|].
  destruct (changes_alone_rebuild_occupancy scenario_A _ _ _ eq_refl eq_refl) as [H1 H2].
  split; [exact H1|]. exact (H2 2%nat _ eq_refl).
Defined.

(** ** The reduction as a percentage *)

Section Exact.

Lemma Qred_inject_Z n : Qred (inject_Z n) = inject_Z n.
Proof.
  unfold Qred, inject_Z.
  pose proof (Z.ggcd_gcd n 1) as Hg. pose proof (Z.ggcd_correct_divisors n 1) as Hd.
  destruct (Z.ggcd n 1) as [g [aa bb]]. cbn [fst snd] in *.
  rewrite Z.gcd_1_r in Hg. subst g. destruct Hd as [Ha Hb].
  assert (aa = n) as -> by lia. assert (bb = 1) as -> by lia. done.
Qed.

Lemma Qpow2_neg_inv s : (Qpow2 (- s) * Qpow2 s == 1)%Q.
Proof. rewrite <- Qpow2_add. by replace (- s + s) with 0 by lia. Qed.

(** An integer below [2^53] is a float: rounding leaves it as it is. *)
Lemma round_double_exact (q : Q) (n : Z) :
  (q == inject_Z n)%Q -> 0 <= n < 2 ^ 53 -> round_double q = Finite (inject_Z n).
Proof.
  intros Hq Hn. unfold round_double.
  destruct q as [a d].
  assert (Ha : a = n * Z.pos d).
  { unfold Qeq, inject_Z in Hq. simpl in Hq. lia. }
  destruct a as [|p|p]; cbn [Qnum]; [| |lia].
  { assert (n = 0) as -> by lia. done. }
  change (Qabs (Z.pos p # d)) with (Z.pos p # d) in *.
  change (0 <? Z.pos p) with true. cbv iota.
  set (a := Z.pos p # d) in *.
  assert (Hpos : (0 < a)%Q) by done.
  assert (Hn1 : 1 <= n) by nia.
  pose proof (binade_spec a Hpos) as [Hlo Hhi].
  set (e := binade a) in *.
  assert (He0 : 0 <= e).
  { destruct (Z.le_gt_cases 0 e) as [|Hneg]; [done|].
    pose proof (Qpow2_le (e + 1) 0 ltac:(lia)) as H1. change (Qpow2 0) with 1%Q in H1.
    assert (1 <= inject_Z n)%Q by (unfold Qle, inject_Z; simpl; lia).
    rewrite Hq in Hhi. lra. }
  assert (He52 : e <= 52).
  { assert (Qpow2 e < Qpow2 53)%Q; [|apply Qpow2_lt_inv in H; lia].
    rewrite (Qpow2_inject 53) by lia.
    assert (inject_Z n < inject_Z (2 ^ 53))%Q by (unfold Qlt, inject_Z; simpl; lia).
    rewrite Hq in Hlo. lra. }
  replace (Z.max (e - 52) (-1074)) with (e - 52) by lia.
  set (s := e - 52).
  pose proof (Qpow2_pos s) as Hps.
  pose proof (Qpow2_neg_inv s) as Hinv.
  rewrite (Qpow2_inject (- s)) in Hinv by (unfold s; lia).
  set (P := 2 ^ (- s)) in *.
  assert (Hm : round_half_even (a / Qpow2 s) = n * P).
  { apply round_half_even_unique.
    assert (E : (a / Qpow2 s - inject_Z (n * P) == 0)%Q).
    { rewrite inject_Z_mult, Hq. field_simplify_eq; [|lra]. nra. }
    rewrite E. done. }
  rewrite Hm.
  assert (Hr : (inject_Z (n * P) * Qpow2 s == inject_Z n)%Q).
  { rewrite inject_Z_mult. nra. }
  destruct (Qle_bool (Qpow2 1024) (inject_Z (n * P) * Qpow2 s)) eqn:Hov.
  { apply Qle_bool_iff in Hov. rewrite Hr in Hov.
    pose proof (Qpow2_lt 53 1024 ltac:(lia)) as H1.
    rewrite (Qpow2_inject 53) in H1 by lia.
    assert (inject_Z n < inject_Z (2 ^ 53))%Q by (unfold Qlt, inject_Z; simpl; lia).
    lra. }
  f_equal. rewrite (Qred_complete _ _ Hr). apply Qred_inject_Z.
Qed.

(** A value between 0 and an integer [C <= 2^k <= 2^52] rounds to a
    float in the same range. *)
Lemma round_double_le_int (q : Q) (C k : Z) :
  (0 <= q <= inject_Z C)%Q -> C <= 2 ^ k -> 0 <= k <= 52 ->
  exists y, round_double q = Finite y /\ (0 <= y <= inject_Z C)%Q.
Proof.
  intros [Hq0 HqC] HC Hrange. unfold round_double.
  destruct q as [n d]. assert (Hn : 0 <= n) by (unfold Qle in Hq0; simpl in Hq0; lia).
  destruct n as [|p|p]; [| |lia]; cbn [Qnum].
  { exists 0%Q. split; [done|]. assert (E : (0 # d == 0)%Q) by reflexivity.
    rewrite E in HqC. lra. }
  change (Qabs (Z.pos p # d)) with (Z.pos p # d) in *.
  change (0 <? Z.pos p) with true. cbv iota.
  set (a := Z.pos p # d) in *.
  assert (Ha : (0 < a)%Q) by done.
  assert (HCk : (inject_Z C <= Qpow2 k)%Q).
  { rewrite (Qpow2_inject k) by lia. unfold Qle, inject_Z; simpl; lia. }
  assert (Hk1 : (a < Qpow2 (k + 1))%Q).
  { pose proof (Qpow2_lt k (k + 1) ltac:(lia)). lra. }
  pose proof (binade_upper a (k + 1) Ha Hk1) as He.
  set (s := Z.max (binade a - 52) (-1074)).
  assert (Hs : s <= 0) by lia.
  set (m := round_half_even (a / Qpow2 s)).
  pose proof (round_half_even_error (a / Qpow2 s)) as Herr. fold m in Herr.
  pose proof (Qpow2_pos s) as Hps.
  assert (Hm0 : 0 <= m).
  { apply round_half_even_nonneg. apply Qle_shift_div_l; [exact Hps|]. lra. }
  assert (Hdiv : (a / Qpow2 s * Qpow2 s == a)%Q) by (field; lra).
  apply Qabs_Qle_condition in Herr as [Herr1 Herr2].
  pose proof (Qpow2_neg_inv s) as Hinv.
  rewrite (Qpow2_inject (- s)) in Hinv by lia.
  set (P := 2 ^ (- s)) in *.
  assert (HP : (0 < inject_Z P)%Q) by nra.
  assert (HmN : m <= C * P).
  { assert (Hlt : (inject_Z m < inject_Z (C * P) + 1)%Q).
    { rewrite inject_Z_mult.
      assert (a / Qpow2 s <= inject_Z C * inject_Z P)%Q; [|lra].
      apply Qle_shift_div_r; [exact Hps|]. nra. }
    unfold Qlt, Qplus, inject_Z in Hlt. simpl in Hlt. lia. }
  assert (HmN' : (inject_Z m <= inject_Z C * inject_Z P)%Q).
  { rewrite <- inject_Z_mult. unfold Qle, inject_Z; simpl; lia. }
  assert (Hm0' : (0 <= inject_Z m)%Q) by (unfold Qle, inject_Z; simpl; lia).
  assert (Hr : (inject_Z m * Qpow2 s <= inject_Z C)%Q) by nra.
  assert (Htop : (Qpow2 k < Qpow2 1024)%Q) by (apply Qpow2_lt; lia).
  destruct (Qle_bool (Qpow2 1024) (inject_Z m * Qpow2 s)) eqn:Hov.
  { apply Qle_bool_iff in Hov. lra. }
  eexists. split; [reflexivity|]. rewrite Qred_correct. split; [nra|lra].
Qed.

Lemma reduction_pct_range (edge trad : Z) :
  0 <= edge <= trad -> 0 < trad ->
  exists r, reduction_pct edge trad = Ok (Finite r) /\ (0 <= r <= 100)%Q.
Proof.
  intros He Ht.
  set (x := (inject_Z edge / inject_Z trad)%Q).
  assert (Ht' : (0 < inject_Z trad)%Q) by (unfold Qlt, inject_Z; simpl; lia).
  assert (He' : (0 <= inject_Z edge <= inject_Z trad)%Q)
    by (unfold Qle, inject_Z; simpl; lia).
  assert (Hx : (0 <= x <= inject_Z 1)%Q).
  { unfold x. split.
    - apply Qle_shift_div_l; [done|]. lra.
    - apply Qle_shift_div_r; [done|]. change (inject_Z 1) with 1%Q. lra. }
  destruct (round_double_le_int x 1 0) as (y1 & Hy1 & Hb1); [done|lia|lia|].
  change (inject_Z 1) with 1%Q in Hb1.
  destruct (round_double_le_int (1 - y1) 1 0) as (y2 & Hy2 & Hb2);
    [change (inject_Z 1) with 1%Q; lra|lia|lia|].
  change (inject_Z 1) with 1%Q in Hb2.
  destruct (round_double_le_int (100 * y2) 100 7) as (y3 & Hy3 & Hb3);
    [change (inject_Z 100) with 100%Q; lra|lia|lia|].
  change (inject_Z 100) with 100%Q in Hb3.
  assert (H100 : float_of_int 100 = Finite 100) by (vm_compute; reflexivity).
  assert (H1 : float_of_int 1 = Finite 1) by (vm_compute; reflexivity).
  exists y3. unfold reduction_pct, int_truediv.
  destruct (Z.ltb_spec 0 trad) as [_|]; [|lia]. fold x. rewrite Hy1, H100, H1.
  unfold float_sub, float_mul. by rewrite Hy2, Hy3.
Qed.

Lemma reduction_pct_nothing_sent (trad : Z) :
  0 < trad -> reduction_pct 0 trad = Ok (Finite 100).
Proof.
  intros Ht. unfold reduction_pct, int_truediv.
  destruct (Z.ltb_spec 0 trad) as [_|]; [|lia].
  assert (Ht' : (0 < inject_Z trad)%Q) by (unfold Qlt, inject_Z; simpl; lia).
  rewrite (round_double_exact (inject_Z 0 / inject_Z trad) 0); [|field; lra|lia].
  vm_compute. reflexivity.
Qed.

Lemma reduction_pct_all_sent (trad : Z) :
  0 < trad -> reduction_pct trad trad = Ok (Finite 0).
Proof.
  intros Ht. unfold reduction_pct, int_truediv.
  destruct (Z.ltb_spec 0 trad) as [_|]; [|lia].
  assert (Ht' : (0 < inject_Z trad)%Q) by (unfold Qlt, inject_Z; simpl; lia).
  rewrite (round_double_exact (inject_Z trad / inject_Z trad) 1); [|field; lra|lia].
  vm_compute. reflexivity.
Qed.

End Exact.

(** X4.  A run that returns makes the main block publish its summary:
    the reduction is a finite float between 0 and 100, the rounding of
    the three float operations never leaving that range; it is exactly
    100, printed [100.00], when no sample sent an event, and exactly 0,
    printed [0.00], when every sample sent one. *)
Theorem reduction_is_a_percentage df g evs :
  run_simulation df = Ok (g, evs) ->
  exists r,
    reduction_pct (edge_tx g) (trad_tx g) = Ok (Finite r) /\
    (0 <= r <= 100)%Q /\
    main df = Ok (published g ++
      [(MQTT_TOPIC_METRICS, summary_text (edge_tx g) (trad_tx g) (Finite r))]) /\
    (edge_tx g = 0 -> r = 100%Q /\ format_f 2 (Finite r) = "100.00") /\
    (edge_tx g = trad_tx g -> r = 0%Q /\ format_f 2 (Finite r) = "0.00").
Proof.
  intros Hrun.
  destruct (traditional_length df g evs Hrun) as [Ht He].
  assert (Hpos : 0 < trad_tx g).
  { destruct df as [|first rest]; [done|]. rewrite Ht. cbn [length]. lia. }
  destruct (reduction_pct_range (edge_tx g) (trad_tx g) He Hpos) as (r & Hr & Hb).
  exists r. split; [done|]. split; [done|]. split.
  { unfold main. by rewrite Hrun, Hr. }
  split.
  - intros H0. rewrite H0 in Hr. rewrite reduction_pct_nothing_sent in Hr by done.
    injection Hr as <-. done.
  - intros H0. rewrite H0 in Hr. rewrite reduction_pct_all_sent in Hr by done.
    injection Hr as <-. done.
Qed.

Lemma reduction_is_a_percentage_witness :
  exists g evs r,
    run_simulation scenario_A = Ok (g, evs) /\
    reduction_pct (edge_tx g) (trad_tx g) = Ok (Finite r) /\ (0 <= r <= 100)%Q.
Proof.
  eexists _, _.
  destruct (reduction_is_a_percentage scenario_A _ _ eq_refl) as (r & Hr & Hb & _).
  exists r. split; [reflexivity|]. split; [exact Hr|exact Hb].
Defined.

(** ** The session under any message *)

Ltac run_decoder :=
  repeat (
    unfold parse_payload, bind, Timestamp_now, ensure_slot_structs, modify, ret, lift,
      raw_log_appendleft, events_appendleft, pred_probs_appendleft, occupancy_appendleft,
      set_events, set_pred_probs, set_occupancy, set_raw_log, set_metrics;
    cbn [events pred_probs occupancy raw_log metrics clock fst snd];
    rewrite ?dict_appendleft_setdefault).

Section Session.

(** The writes of a metrics payload to the metrics dict, in order. *)
Lemma store_metric_writes kv :
  exists w : list (string * metric_value),
    Forall (fun p => p.1 ∈ metric_keys) w /\
    forall st, store_metric kv st =
      (Ok tt, set_metrics (fun m => foldl (fun m p => <[p.1 := p.2]> m) m w) st).
Proof.
  destruct kv as [k v]. unfold store_metric.
  destruct (String.eqb k "Traditional" || String.eqb k "EdgeAI") eqn:Hk.
  { eexists [(k, _)]. split; [|intros st; reflexivity].
    constructor; [|done]. cbn [fst]. unfold metric_keys.
    apply orb_true_iff in Hk as [Hk|Hk]; apply String.eqb_eq in Hk; subst k; set_solver. }
  destruct (String.eqb k "Reduction").
  { eexists [("Reduction", _)]. split; [|intros st; reflexivity].
    constructor; [|done]. cbn [fst]. unfold metric_keys. set_solver. }
  exists []. split; [done|]. by intros [].
Qed.

Lemma for_each_store_metric_writes l :
  exists w : list (string * metric_value),
    Forall (fun p => p.1 ∈ metric_keys) w /\
    forall st, for_each store_metric l st =
      (Ok tt, set_metrics (fun m => foldl (fun m p => <[p.1 := p.2]> m) m w) st).
Proof.
  induction l as [|kv l (w & Hw & IH)].
  - exists []. split; [done|]. by intros [].
  - destruct (store_metric_writes kv) as (w0 & Hw0 & H0).
    exists (w0 ++ w). split; [by apply Forall_app|].
    intros st. cbn [for_each]. unfold bind. rewrite H0, IH.
    destruct st. unfold set_metrics. cbn. by rewrite foldl_app.
Qed.

(** The session one call of [parse_payload] leaves, whatever the
    message: [w] is what the payload writes to the metrics dict. *)
Lemma parse_payload_shape topic payload :
  exists w : list (string * metric_value),
    Forall (fun p => p.1 ∈ metric_keys) w /\
    (endswith topic "metrics/transmissions" = false -> w = []) /\
    forall st,
      (exists kind info pv sv,
         parse_payload topic payload st =
           (Ok tt,
            {| events := <[slot_of_topic topic :=
                             appendleft (clock st, kind, info)
                               (deque_of (events st) (slot_of_topic topic))]>
                           (setdefault_deque (slot_of_topic topic) (events st));
               pred_probs := pv; occupancy := sv;
               raw_log := appendleft (clock st, topic, strip payload) (raw_log st);
               metrics := foldl (fun m p => <[p.1 := p.2]> m) (metrics st) w;
               clock := S (clock st) |}) /\
         deque_touched (slot_of_topic topic) (pred_probs st) pv /\
         deque_touched (slot_of_topic topic) (occupancy st) sv) \/
      (exists e, parse_payload topic payload st = (Raise e, entered (slot_of_topic topic) st) /\
                 w = []).
Proof.
  destruct (endswith topic "metrics/transmissions") eqn:Hm.
  { destruct (for_each_store_metric_writes (findall_key_value 0 (strip payload)))
      as (w & Hw & Hf).
    exists w. split; [done|]. split; [done|]. intros st. left.
    run_decoder. rewrite Hm. run_decoder. rewrite Hf. run_decoder.
    eexists _, _, _, _. split; [reflexivity|]. split; by left. }
  exists []. split; [done|]. split; [done|]. intros st.
  destruct (contains "PRED_CHANGE" (strip payload)) eqn:Hp.
  { destruct (read_prob (strip payload)) as [prob|e] eqn:Hr.
    - left. run_decoder. rewrite Hm, Hp, Hr. run_decoder.
      eexists _, _, _, _. split; [reflexivity|]. split; [right; by eexists|by left].
    - right. exists e. split; [|done].
      exact (parse_payload_pred_change_raises topic payload st e Hm Hp Hr). }
  left.
  destruct (startswith (strip payload) "CHANGE") eqn:Hc.
  { run_decoder. rewrite Hm, Hp, Hc. run_decoder.
    eexists _, _, _, _. split; [reflexivity|]. split; [by left|right; by eexists]. }
  destruct (endswith topic "/state") eqn:Hs.
  { run_decoder. rewrite Hm, Hp, Hc, Hs. run_decoder.
    eexists _, _, _, _. split; [reflexivity|]. split; [by left|right; by eexists]. }
  run_decoder. rewrite Hm, Hp, Hc, Hs. run_decoder.
  eexists _, _, _, _. split; [reflexivity|]. split; by left.
Qed.

Lemma parse_payload_touch topic payload :
  exists w : list (string * metric_value),
    Forall (fun p => p.1 ∈ metric_keys) w /\
    (endswith topic "metrics/transmissions" = false -> w = []) /\
    forall st, exists r st1,
      parse_payload topic payload st = (r, st1) /\
      deque_touched (slot_of_topic topic) (events st) (events st1) /\
      deque_touched (slot_of_topic topic) (pred_probs st) (pred_probs st1) /\
      deque_touched (slot_of_topic topic) (occupancy st) (occupancy st1) /\
      (r = Ok tt /\ raw_log st1 = appendleft (clock st, topic, strip payload) (raw_log st) \/
       (exists e, r = Raise e) /\ raw_log st1 = raw_log st) /\
      metrics st1 = foldl (fun m p => <[p.1 := p.2]> m) (metrics st) w /\
      clock st1 = S (clock st).
Proof.
  destruct (parse_payload_shape topic payload) as (w & Hw & Hm & Hshape).
  exists w. split; [done|]. split; [done|]. intros st.
  destruct (Hshape st) as [(kind & info & pv & sv & Hrun & Hpv & Hsv)|(e & Hrun & ->)].
  - eexists _, _. split; [exact Hrun|].
    cbn [events pred_probs occupancy raw_log metrics clock].
    split; [right; by eexists|]. repeat (split; [done|]). split; [by left|done].
  - eexists _, _. split; [exact Hrun|]. unfold entered.
    cbn [events pred_probs occupancy raw_log metrics clock foldl].
    repeat (split; [by left|]). split; [right; split; [by eexists|done]|done].
Qed.

(** One iteration of the drain loop. *)
Lemma drain_cons topic payload rest n st :
  drain ((topic, payload) :: rest) n st =
  drain rest (S n) (snd (drain [(topic, payload)] 0 st)).
Proof.
  cbn [drain]. unfold bind, try_except.
  destruct (parse_payload topic payload st) as [[[]|e] st1]; [done|].
  unfold Timestamp_now, raw_log_appendleft, modify, ret. done.
Qed.

Lemma drain_app q1 q2 n st :
  drain (q1 ++ q2) n st = drain q2 (n + length q1) (snd (drain q1 n st)).
Proof.
  revert n st. induction q1 as [|[topic payload] rest IH]; intros n st.
  - cbn [app drain length ret snd]. by rewrite Nat.add_0_r.
  - cbn [app].
    rewrite (drain_cons topic payload (rest ++ q2)), (drain_cons topic payload rest), IH.
    cbn [length].
    by replace (S n + length rest)%nat with (n + S (length rest))%nat by lia.
Qed.

Lemma drain_one_shape topic payload :
  exists w : list (string * metric_value),
    Forall (fun p => p.1 ∈ metric_keys) w /\
    (endswith topic "metrics/transmissions" = false -> w = []) /\
    forall st, exists st1 entry,
      drain [(topic, payload)] 0 st = (Ok 1%nat, st1) /\
      deque_touched (slot_of_topic topic) (events st) (events st1) /\
      deque_touched (slot_of_topic topic) (pred_probs st) (pred_probs st1) /\
      deque_touched (slot_of_topic topic) (occupancy st) (occupancy st1) /\
      raw_log st1 = appendleft entry (raw_log st) /\
      (entry = (clock st, topic, strip payload) \/
       exists e, entry = (S (clock st), "parse_error",
                          str_of_exn e +:+ " | " +:+ topic +:+ " | " +:+ payload)) /\
      metrics st1 = foldl (fun m p => <[p.1 := p.2]> m) (metrics st) w /\
      (clock st < clock st1 <= clock st + 2)%nat.
Proof.
  destruct (parse_payload_shape topic payload) as (w & Hw & Hm & Hshape).
  exists w. split; [done|]. split; [done|]. intros st.
  destruct (Hshape st) as [(kind & info & pv & sv & Hrun & Hpv & Hsv)|(e & Hrun & ->)].
  - eexists _, _. rewrite (drain_cons_ok _ _ _ _ _ _ Hrun). cbn [drain]. unfold ret.
    split; [reflexivity|]. cbn [events pred_probs occupancy raw_log metrics clock].
    split; [right; by eexists|]. repeat (split; [done|]). split; [by left|].
    split; [done|lia].
  - eexists _, _. rewrite (drain_one_raises _ _ _ _ _ Hrun).
    split; [reflexivity|]. unfold entered.
    cbn [events pred_probs occupancy raw_log metrics clock foldl].
    repeat (split; [by left|]). split; [done|]. split; [right; by eexists|].
    split; [done|lia].
Qed.

Lemma length_appendleft {A : Type} (x : A) (d : list A) :
  length (appendleft x d) = Nat.min maxlen (S (length d)).
Proof. unfold appendleft. by rewrite length_take. Qed.

Lemma touched_within {A : Type} slot (d d' : gmap string (list A)) :
  deque_touched slot d d' ->
  map_Forall (fun _ q => (length q <= maxlen)%nat) d ->
  map_Forall (fun _ q => (length q <= maxlen)%nat) d'.
Proof.
  intros Ht Hd.
  assert (Hs : map_Forall (fun _ q => (length q <= maxlen)%nat) (setdefault_deque slot d)).
  { unfold setdefault_deque. destruct (d !! slot); [done|].
    apply map_Forall_insert_2; [cbn; lia|done]. }
  destruct Ht as [->|[x ->]]; [done|].
  apply map_Forall_insert_2; [|done]. rewrite length_appendleft. lia.
Qed.

Lemma within_maxlen_step st st1 slot entry :
  within_maxlen st ->
  deque_touched slot (events st) (events st1) ->
  deque_touched slot (pred_probs st) (pred_probs st1) ->
  deque_touched slot (occupancy st) (occupancy st1) ->
  raw_log st1 = raw_log st \/ raw_log st1 = appendleft entry (raw_log st) ->
  within_maxlen st1.
Proof.
  intros (Hr & He & Hp & Ho) Te Tp To Hraw. unfold within_maxlen.
  split.
  { destruct Hraw as [->| ->]; [done|]. rewrite length_appendleft. lia. }
  repeat split; eapply touched_within; eassumption.
Qed.

Lemma setdefault_dom {A : Type} slot (d : gmap string (list A)) :
  dom (setdefault_deque slot d) = {[ slot ]} ∪ dom d.
Proof.
  unfold setdefault_deque. destruct (d !! slot) eqn:H.
  - apply elem_of_dom_2 in H. set_solver.
  - by rewrite dom_insert_L.
Qed.

Lemma touched_dom {A : Type} slot (d d' : gmap string (list A)) :
  deque_touched slot d d' -> dom d' = {[ slot ]} ∪ dom d.
Proof.
  intros [->|[x ->]]; [apply setdefault_dom|].
  rewrite dom_insert_L, setdefault_dom. set_solver.
Qed.

Lemma touched_lookup_ne {A : Type} slot other (d d' : gmap string (list A)) :
  deque_touched slot d d' -> other <> slot -> d' !! other = d !! other.
Proof.
  intros [->|[x ->]] Hne; [by apply setdefault_lookup_ne|by apply appended_lookup_ne].
Qed.

(** Of the writes of a payload each key keeps the last value written. *)
Lemma writes_elsewhere (w : list (string * metric_value)) (m : gmap string metric_value) k :
  k ∉ w.*1 -> foldl (fun m p => <[p.1 := p.2]> m) m w !! k = m !! k.
Proof.
  revert m. induction w as [|p w IH]; intros m Hk; [done|].
  cbn [foldl]. rewrite IH by set_solver. apply lookup_insert_ne. set_solver.
Qed.

Lemma writes_override (w : list (string * metric_value)) (m m' : gmap string metric_value) :
  (forall k, k ∉ w.*1 -> m !! k = m' !! k) ->
  foldl (fun m p => <[p.1 := p.2]> m) m w = foldl (fun m p => <[p.1 := p.2]> m) m' w.
Proof.
  revert m m'. induction w as [|p w IH]; intros m m' H.
  - cbn. apply map_eq. intros k. apply H. set_solver.
  - cbn [foldl]. apply IH. intros k Hk.
    destruct (decide (k = p.1)) as [->|Hne].
    + by rewrite !lookup_insert_eq.
    + rewrite !lookup_insert_ne by done. apply H. set_solver.
Qed.

Lemma writes_idempotent (w : list (string * metric_value)) (m : gmap string metric_value) :
  foldl (fun m p => <[p.1 := p.2]> m) (foldl (fun m p => <[p.1 := p.2]> m) m w) w =
  foldl (fun m p => <[p.1 := p.2]> m) m w.
Proof. apply writes_override. intros k Hk. by apply writes_elsewhere. Qed.

Lemma writes_dom (w : list (string * metric_value)) (m : gmap string metric_value) :
  Forall (fun p => p.1 ∈ metric_keys) w -> metric_keys ⊆ dom m ->
  dom (foldl (fun m p => <[p.1 := p.2]> m) m w) = dom m.
Proof.
  revert m. induction w as [|p w IH]; intros m Hw Hm; [done|].
  inversion Hw as [|? ? Hp Hw']; subst. cbn [foldl].
  rewrite IH; [|done|rewrite dom_insert_L; set_solver].
  rewrite dom_insert_L. set_solver.
Qed.

(** The raw log after a queue: the entry of its last message leads. *)
Lemma drain_last init topic payload n st :
  exists t,
    head (raw_log (snd (drain (init ++ [(topic, payload)]) n st))) =
      Some (t, topic, strip payload) \/
    exists e,
      head (raw_log (snd (drain (init ++ [(topic, payload)]) n st))) =
        Some (t, "parse_error", str_of_exn e +:+ " | " +:+ topic +:+ " | " +:+ payload).
Proof.
  rewrite drain_app, (drain_cons topic payload []).
  destruct (drain_one_shape topic payload) as (w & _ & _ & H).
  destruct (H (snd (drain init n st))) as (st1 & entry & -> & _ & _ & _ & Hraw & Hentry & _).
  cbn [drain ret snd]. rewrite Hraw.
  destruct Hentry as [->|[e ->]]; eexists; [by left|right; by eexists].
Qed.

End Session.

(** X5.  The drain loop never raises: whatever the queue holds, it
    returns the number of messages it took, one per message, also for
    those whose decoding raised.  Every message leaves exactly one entry
    in the raw log, which holds the last [maxlen] of them, and the
    entry of the message processed last is at its left end: the message
    itself, or a [parse_error] entry with the error, topic and payload.
    The clock is read once per message and once more per failure. *)
Theorem drain_processes_every_message queue n st :
  exists st',
    drain queue n st = (Ok (n + length queue)%nat, st') /\
    ((length (raw_log st) <= maxlen)%nat ->
     length (raw_log st') = Nat.min maxlen (length queue + length (raw_log st))) /\
    (clock st + length queue <= clock st' <= clock st + 2 * length queue)%nat /\
    (forall init topic payload,
       queue = init ++ [(topic, payload)] ->
       exists t,
         head (raw_log st') = Some (t, topic, strip payload) \/
         exists e,
           head (raw_log st') =
             Some (t, "parse_error", str_of_exn e +:+ " | " +:+ topic +:+ " | " +:+ payload)).
Proof.
  assert (H : exists st',
    drain queue n st = (Ok (n + length queue)%nat, st') /\
    ((length (raw_log st) <= maxlen)%nat ->
     length (raw_log st') = Nat.min maxlen (length queue + length (raw_log st))) /\
    (clock st + length queue <= clock st' <= clock st + 2 * length queue)%nat).
  { revert n st. induction queue as [|[topic payload] rest IH]; intros n st.
    - exists st. cbn [drain length]. unfold ret. split; [by rewrite Nat.add_0_r|].
      split; lia.
    - rewrite drain_cons.
      destruct (drain_one_shape topic payload) as (w & _ & _ & Hone).
      destruct (Hone st) as (st1 & entry & -> & _ & _ & _ & Hraw & _ & _ & Hclock).
      cbn [snd]. destruct (IH (S n) st1) as (st' & -> & Hlen & Hc).
      exists st'. split; [f_equal; f_equal; cbn [length]; lia|].
      rewrite Hraw, length_appendleft in Hlen. cbn [length]. split; [|lia].
      intros Hb. rewrite Hlen by lia. lia. }
  destruct H as (st' & Hrun & Hlen & Hclock).
  exists st'. repeat (split; [done|]).
  intros init topic payload ->.
  destruct (drain_last init topic payload n st) as [t Ht].
  rewrite Hrun in Ht. by exists t.
Qed.

(** X6.  No deque ever holds more than [maxlen] entries: a session
    within the bound stays within it under any message, decoded or
    raising, and under any queue drained. *)
Theorem deques_stay_within_maxlen st :
  within_maxlen st ->
  (forall topic payload, within_maxlen (snd (parse_payload topic payload st))) /\
  (forall queue n, within_maxlen (snd (drain queue n st))).
Proof.
  intros Hst. split.
  - intros topic payload.
    destruct (parse_payload_touch topic payload) as (w & _ & _ & H).
    destruct (H st) as (r & st1 & -> & Te & Tp & To & Hraw & _). cbn [snd].
    eapply within_maxlen_step; [done..|].
    destruct Hraw as [[_ Hraw]|[_ Hraw]]; [right; exact Hraw|by left].
  - intros queue. revert st Hst.
    induction queue as [|[topic payload] rest IH]; intros st Hst n; [done|].
    rewrite drain_cons. apply IH.
    destruct (drain_one_shape topic payload) as (w & _ & _ & H).
    destruct (H st) as (st1 & entry & -> & Te & Tp & To & Hraw & _). cbn [snd].
    eapply within_maxlen_step; [done..|]. right. exact Hraw.
Qed.

Lemma deques_stay_within_maxlen_witness :
  within_maxlen initial_state /\
  within_maxlen (snd (drain [("smartparking/slot1/state", "1")] 0 initial_state)).
Proof.
  assert (H : within_maxlen initial_state).
  { unfold within_maxlen, initial_state.
    cbn [raw_log events pred_probs occupancy length].
    split; [unfold maxlen; lia|]. by repeat split; apply map_Forall_empty. }
  split; [exact H|]. exact (proj2 (deques_stay_within_maxlen initial_state H) _ _).
Defined.

(** X7.  Draining a queue makes the slot of every message known to the
    three dicts, also of a message whose decoding raises and of a
    metrics message, whose topic names no slot and so falls to [slot1];
    no other key appears, so the dicts keep knowing the same slots, as
    they do at the start; and the deques of a slot that no message of
    the queue names are left as they were. *)
Theorem every_message_creates_its_slot queue n st :
  dom (events (snd (drain queue n st))) =
    list_to_set (map (fun m => slot_of_topic m.1) queue) ∪ dom (events st) /\
  dom (pred_probs (snd (drain queue n st))) =
    list_to_set (map (fun m => slot_of_topic m.1) queue) ∪ dom (pred_probs st) /\
  dom (occupancy (snd (drain queue n st))) =
    list_to_set (map (fun m => slot_of_topic m.1) queue) ∪ dom (occupancy st) /\
  (same_slots st -> same_slots (snd (drain queue n st))) /\
  same_slots initial_state /\
  slot_of_topic MQTT_TOPIC_METRICS = "slot1" /\
  (forall slot, slot ∉ map (fun m => slot_of_topic m.1) queue ->
     events (snd (drain queue n st)) !! slot = events st !! slot /\
     pred_probs (snd (drain queue n st)) !! slot = pred_probs st !! slot /\
     occupancy (snd (drain queue n st)) !! slot = occupancy st !! slot).
Proof.
  assert (H : dom (events (snd (drain queue n st))) =
    list_to_set (map (fun m => slot_of_topic m.1) queue) ∪ dom (events st) /\
  dom (pred_probs (snd (drain queue n st))) =
    list_to_set (map (fun m => slot_of_topic m.1) queue) ∪ dom (pred_probs st) /\
  dom (occupancy (snd (drain queue n st))) =
    list_to_set (map (fun m => slot_of_topic m.1) queue) ∪ dom (occupancy st)).
  { revert n st. induction queue as [|[topic payload] rest IH]; intros n st.
    - cbn [drain ret snd map list_to_set]. by rewrite !(left_id_L ∅ (∪)).
    - rewrite drain_cons.
      destruct (drain_one_shape topic payload) as (w & _ & _ & H).
      destruct (H st) as (st1 & entry & -> & Te & Tp & To & _). cbn [snd].
      destruct (IH (S n) st1) as (-> & -> & ->).
      rewrite (touched_dom _ _ _ Te), (touched_dom _ _ _ Tp), (touched_dom _ _ _ To).
      cbn [map list_to_set fst]. repeat split; set_solver. }
  destruct H as (He & Hp & Ho). repeat (split; [done|]). split.
  { intros [H1 H2]. unfold same_slots. rewrite He, Hp, Ho. by rewrite H1, H2. }
  split; [done|]. split; [reflexivity|].
  clear. revert n st. induction queue as [|[topic payload] rest IH]; intros n st slot Hs; [done|].
  rewrite drain_cons.
  destruct (drain_one_shape topic payload) as (w & _ & _ & H).
  destruct (H st) as (st1 & entry & -> & Te & Tp & To & _). cbn [snd].
  cbn [map fst] in Hs. apply not_elem_of_cons in Hs as [Hne Hs].
  destruct (IH (S n) st1 slot Hs) as (-> & -> & ->).
  by rewrite (touched_lookup_ne _ _ _ _ Te Hne), (touched_lookup_ne _ _ _ _ Tp Hne),
    (touched_lookup_ne _ _ _ _ To Hne).
Qed.

(** X8.  The metrics dict follows the metrics messages alone: a message
    off the metrics topic leaves it as it is; no message adds a key to
    a dict that has the three of the start, under one message or a whole
    queue; the dict a message leaves depends on the dict it finds and on
    the message only, and decoding the same message once more changes
    nothing in it. *)
Theorem metrics_follow_metrics_messages_only topic payload st :
  (endswith topic "metrics/transmissions" = false ->
     metrics (snd (parse_payload topic payload st)) = metrics st) /\
  (metric_keys ⊆ dom (metrics st) ->
     dom (metrics (snd (parse_payload topic payload st))) = dom (metrics st)) /\
  metrics (snd (parse_payload topic payload (snd (parse_payload topic payload st)))) =
    metrics (snd (parse_payload topic payload st)) /\
  (forall st2, metrics st2 = metrics st ->
     metrics (snd (parse_payload topic payload st2)) =
     metrics (snd (parse_payload topic payload st))) /\
  dom (metrics initial_state) = metric_keys /\
  (forall queue n, dom (metrics st) = metric_keys ->
     dom (metrics (snd (drain queue n st))) = metric_keys).
Proof.
  destruct (parse_payload_touch topic payload) as (w & Hw & Hoff & H).
  destruct (H st) as (r & st1 & Hrun & _ & _ & _ & _ & Hm & _).
  rewrite Hrun. cbn [snd].
  split; [intros Hno; rewrite Hm, (Hoff Hno); done|].
  split; [intros Hk; rewrite Hm; by apply writes_dom|].
  split.
  { destruct (H st1) as (r2 & st2 & -> & _ & _ & _ & _ & Hm2 & _). cbn [snd].
    rewrite Hm2, Hm. apply writes_idempotent. }
  split.
  { intros st2 Heq. destruct (H st2) as (r2 & st3 & -> & _ & _ & _ & _ & Hm2 & _).
    cbn [snd]. by rewrite Hm2, Hm, Heq. }
  split.
  { unfold initial_state, metric_keys. cbn [metrics]. rewrite !dom_insert_L. set_solver. }
  intros queue. clear. revert st.
  induction queue as [|[topic payload] rest IH]; intros st n Hk; [done|].
  rewrite drain_cons. apply IH.
  destruct (drain_one_shape topic payload) as (w & Hw & _ & H).
  destruct (H st) as (st1 & entry & -> & _ & _ & _ & _ & _ & Hm & _). cbn [snd].
  rewrite Hm, writes_dom; [done|done|]. by rewrite Hk.
Qed.

(** ** The summary of a run, read by the dashboard *)

Section Summary.

Lemma length_append s1 s2 :
  String.length (s1 +:+ s2) = (String.length s1 + String.length s2)%nat.
Proof.
  induction s1 as [|c s1 IH]; [done|]. cbn [String.append String.length]. by rewrite IH.
Qed.

Lemma findall_skip p s :
  findall_key_value (String.length p) (p +:+ s) = findall_key_value 0 s.
Proof.
  induction p as [|c p IH]; [done|].
  cbn [String.append String.length findall_key_value]. exact IH.
Qed.

Lemma findall_no_word c r :
  is_word c = false -> findall_key_value 0 (String c r) = findall_key_value 0 r.
Proof.
  intros Hc. cbn [findall_key_value]. unfold match_key_value. cbn [span]. by rewrite Hc.
Qed.

Lemma match_key_value_here k v rest :
  k <> "" -> all_chars is_word k = true ->
  v <> "" -> all_chars is_digit_or_dot v = true ->
  match rest with String c _ => is_digit_or_dot c = false | EmptyString => True end ->
  match_key_value (k +:+ "=" +:+ v +:+ rest) =
    Some (k, v, (String.length k + 1 + String.length v)%nat).
Proof.
  intros Hk Hkw Hv Hvd Hrest. unfold match_key_value.
  rewrite (span_all is_word k _ Hkw) by done.
  destruct k; [done|]. cbn [is_empty].
  rewrite (strip_prefix_app "=" (v +:+ rest)).
  rewrite (span_all is_digit_or_dot v rest Hvd Hrest).
  by destruct v.
Qed.

Lemma findall_here k v rest :
  k <> "" -> all_chars is_word k = true ->
  v <> "" -> all_chars is_digit_or_dot v = true ->
  match rest with String c _ => is_digit_or_dot c = false | EmptyString => True end ->
  findall_key_value 0 (k +:+ "=" +:+ v +:+ rest) = (k, v) :: findall_key_value 0 rest.
Proof.
  intros Hk Hkw Hv Hvd Hrest.
  pose proof (match_key_value_here k v rest Hk Hkw Hv Hvd Hrest) as Hm.
  destruct k as [|c k]; [done|].
  cbn [String.append findall_key_value] in *. rewrite Hm. f_equal.
  replace (String.length (String c k) + 1 + String.length v - 1)%nat
    with (String.length (k +:+ "=" +:+ v)).
  2:{ rewrite !length_append. cbn [String.length]. lia. }
  rewrite <- (findall_skip (k +:+ "=" +:+ v) rest). by rewrite !app_assoc_string.
Qed.

Lemma digits_are_digits_or_dots s :
  all_chars is_digit s = true -> all_chars is_digit_or_dot s = true.
Proof.
  apply all_chars_weaken. intros c Hc. unfold is_digit_or_dot. by rewrite Hc.
Qed.

(** The pairs [re.findall] reads in the summary of a run. *)
Lemma findall_summary T E ip fp :
  T <> "" -> all_chars is_digit T = true ->
  E <> "" -> all_chars is_digit E = true ->
  ip <> "" -> all_chars is_digit ip = true -> all_chars is_digit fp = true ->
  findall_key_value 0
    ("Traditional=" +:+ T +:+ ", EdgeAI=" +:+ E +:+ ", Reduction="
     +:+ (ip +:+ "." +:+ fp) +:+ "%") =
  [("Traditional", T); ("EdgeAI", E); ("Reduction", ip +:+ "." +:+ fp)].
Proof.
  intros HT HTd HE HEd Hip Hipd Hfpd.
  change ("Traditional=" +:+ T +:+ ", EdgeAI=" +:+ E +:+ ", Reduction="
          +:+ (ip +:+ "." +:+ fp) +:+ "%")
    with ("Traditional" +:+ "=" +:+ T +:+
          String "," (String " " ("EdgeAI" +:+ "=" +:+ E +:+
          String "," (String " " ("Reduction" +:+ "=" +:+ (ip +:+ "." +:+ fp) +:+ "%"))))).
  rewrite findall_here; [|done|done|done|by apply digits_are_digits_or_dots|done].
  rewrite !findall_no_word by done.
  rewrite findall_here; [|done|done|done|by apply digits_are_digits_or_dots|done].
  rewrite !findall_no_word by done.
  rewrite findall_here; [done|done|done|by destruct ip| |done].
  rewrite !all_chars_app. cbn [all_chars].
  by rewrite (digits_are_digits_or_dots ip), (digits_are_digits_or_dots fp).
Qed.

Lemma py_float_int n :
  0 <= n -> py_float (str_of_int n) = Ok (round_double (inject_Z n)).
Proof.
  intros Hn. destruct (str_of_int_nonneg n Hn) as (Hv & Hd & Hne).
  unfold py_float. rewrite <- (app_empty_r (str_of_int n)) at 1.
  rewrite (span_all is_digit _ "" Hd) by done. rewrite Hv.
  by destruct (str_of_int n).
Qed.

(** A count below [2^53], printed and read as the decoder reads it. *)
Lemma count_reads_back n :
  0 <= n < 2 ^ 53 ->
  match py_float (str_of_int n) with
  | Ok x => match int_of_float x with
            | Some m => MetricInt m
            | None => MetricText (str_of_int n)
            end
  | Raise _ => MetricText (str_of_int n)
  end = MetricInt n.
Proof.
  intros Hn. rewrite py_float_int by lia.
  rewrite (round_double_exact (inject_Z n) n) by done.
  cbn [int_of_float inject_Z Qnum Qden]. by rewrite Z.quot_1_r.
Qed.

(** A percentage printed with two decimals and read back. *)
Lemma two_decimals_read_back (q : Q) :
  (0 <= q <= 100)%Q ->
  exists ip fp y,
    format_f 2 (Finite q) = ip +:+ "." +:+ fp /\
    ip <> "" /\ all_chars is_digit ip = true /\ all_chars is_digit fp = true /\
    py_float (format_f 2 (Finite q)) = Ok (Finite y) /\
    (Qabs (y - q) <= (1 # 200) + Qpow2 (-47))%Q /\
    format_f 2 (Finite y) = format_f 2 (Finite q).
Proof.
  intros Hq.
  destruct (format_f_nonneg 2 q ltac:(lia) ltac:(lra))
    as (ip & fp & Hf & Hne & Hip & Hlen & Hfp & Hv).
  set (n := round_half_even (q * inject_Z (10 ^ Z.of_nat 2))) in *.
  pose proof (round_half_even_error (q * inject_Z (10 ^ Z.of_nat 2))) as Hn. fold n in Hn.
  change (inject_Z (10 ^ Z.of_nat 2)) with 100%Q in *.
  apply Qabs_Qle_condition in Hn.
  set (x := (inject_Z n * Qpow10 (- Z.of_nat 2))%Q).
  assert (Hx : (x == inject_Z n * (1 # 100))%Q) by reflexivity.
  assert (Hn0 : (0 <= inject_Z n)%Q).
  { apply Qnot_lt_le. intros Hneg.
    assert (inject_Z n <= -1)%Q; [|lra].
    unfold Qlt, Qle, inject_Z in *. simpl in *. lia. }
  destruct (round_double_near x 7) as (y & Hy & Hyx & Hy0); [|lia|].
  { change (Qpow2 7) with 128%Q. apply Qabs_Qlt_condition. lra. }
  change (Qpow2 (7 - 54)) with (Qpow2 (-47)) in Hyx.
  exists ip, fp, y. split; [done|]. repeat (split; [done|]).
  rewrite Hf, py_float_decimal, Hv, Hlen by done. fold x. rewrite Hy.
  split; [done|].
  assert (Hclose : (Qabs (y - q) <= (1 # 200) + Qpow2 (-47))%Q).
  { apply Qabs_Qle_condition in Hyx. apply Qabs_Qle_condition. lra. }
  split; [exact Hclose|].
  assert (Hy0' : (0 <= y)%Q) by (apply Hy0; lra).
  assert (Hny : round_half_even (y * 100) = n).
  { apply round_half_even_unique.
    apply Qabs_Qle_condition in Hyx.
    change (Qpow2 (-47)) with (1 # 140737488355328)%Q in Hyx.
    apply Qabs_Qlt_condition. lra. }
  rewrite <- Hf. unfold format_f. rewrite !Qnum_nonneg, !Qabs_nonneg_eq by lra.
  change (inject_Z (10 ^ Z.of_nat 2)) with 100%Q. fold n. by rewrite Hny.
Qed.

Lemma strip_summary edge trad x :
  strip (summary_text edge trad x) = summary_text edge trad x.
Proof.
  unfold strip, summary_text.
  change (lstrip ("Traditional=" +:+ ?a)) with ("Traditional=" +:+ a).
  rewrite <- !app_assoc_string. rewrite rstrip_app by done. done.
Qed.

Lemma store_summary T E R st :
  for_each store_metric [("Traditional", T); ("EdgeAI", E); ("Reduction", R)] st =
  (Ok tt,
   set_metrics (fun m =>
     <["Reduction" := match py_float R with
                      | Ok x => MetricFloat x
                      | Raise _ => MetricText R
                      end]>
     (<["EdgeAI" := match py_float E with
                    | Ok x => match int_of_float x with
                              | Some n => MetricInt n
                              | None => MetricText E
                              end
                    | Raise _ => MetricText E
                    end]>
      (<["Traditional" := match py_float T with
                          | Ok x => match int_of_float x with
                                    | Some n => MetricInt n
                                    | None => MetricText T
                                    end
                          | Raise _ => MetricText T
                          end]> m))) st).
Proof. by destruct st. Qed.

Lemma summary_decodes edge trad r st :
  0 <= edge < 2 ^ 53 -> 0 <= trad < 2 ^ 53 -> (0 <= r <= 100)%Q ->
  exists y,
    parse_payload MQTT_TOPIC_METRICS (summary_text edge trad (Finite r)) st =
      (Ok tt,
       {| events := <["slot1" := appendleft
                        (clock st, "METRICS", summary_text edge trad (Finite r))
                        (deque_of (events st) "slot1")]>
                      (setdefault_deque "slot1" (events st));
          pred_probs := setdefault_deque "slot1" (pred_probs st);
          occupancy := setdefault_deque "slot1" (occupancy st);
          raw_log := appendleft
                       (clock st, MQTT_TOPIC_METRICS, summary_text edge trad (Finite r))
                       (raw_log st);
          metrics := <["Reduction" := MetricFloat (Finite y)]>
                       (<["EdgeAI" := MetricInt edge]>
                          (<["Traditional" := MetricInt trad]> (metrics st)));
          clock := S (clock st) |}) /\
    (Qabs (y - r) <= (1 # 200) + Qpow2 (-47))%Q /\
    format_f 2 (Finite y) = format_f 2 (Finite r).
Proof.
  intros He Ht Hr.
  destruct (two_decimals_read_back r Hr)
    as (ip & fp & y & Hf & Hip & Hipd & Hfpd & Hy & Hc & Hfy).
  destruct (str_of_int_nonneg trad ltac:(lia)) as (_ & HTd & HT).
  destruct (str_of_int_nonneg edge ltac:(lia)) as (_ & HEd & HE).
  exists y. split; [|done].
  assert (Hslot : slot_of_topic MQTT_TOPIC_METRICS = "slot1") by (vm_compute; reflexivity).
  assert (Hm : endswith MQTT_TOPIC_METRICS "metrics/transmissions" = true)
    by (vm_compute; reflexivity).
  set (text := summary_text edge trad (Finite r)).
  assert (Hstrip : strip text = text) by apply strip_summary.
  assert (Hall : findall_key_value 0 text =
    [("Traditional", str_of_int trad); ("EdgeAI", str_of_int edge);
     ("Reduction", format_f 2 (Finite r))]).
  { unfold text, summary_text. rewrite Hf. by apply findall_summary. }
  run_decoder. rewrite Hm, Hslot, Hstrip, Hall. run_decoder.
  rewrite store_summary. run_decoder.
  rewrite Hy, !count_reads_back by done. done.
Qed.

End Summary.

(** X9.  The summary the main block publishes after a run of fewer than
    [2^53] samples is read back by the dashboard: decoding it on the
    metrics topic never raises and sets [Traditional] to the number of
    samples and [EdgeAI] to [edge_tx], both as ints, and [Reduction] to
    a float within 0.005 + 2^-47 of the reduction, which prints with
    the same two decimals.  The topic names no slot, so the METRICS
    event is filed under [slot1], whose occupancy deque is not
    touched. *)
Theorem summary_of_a_run_is_read_back df g evs st :
  run_simulation df = Ok (g, evs) -> Z.of_nat (length df) < 2 ^ 53 ->
  exists r y st',
    main df = Ok (published g ++
      [(MQTT_TOPIC_METRICS, summary_text (edge_tx g) (trad_tx g) (Finite r))]) /\
    parse_payload MQTT_TOPIC_METRICS
      (summary_text (edge_tx g) (trad_tx g) (Finite r)) st = (Ok tt, st') /\
    metrics st' =
      <["Reduction" := MetricFloat (Finite y)]>
        (<["EdgeAI" := MetricInt (edge_tx g)]>
           (<["Traditional" := MetricInt (Z.of_nat (length df))]> (metrics st))) /\
    (Qabs (y - r) <= (1 # 200) + Qpow2 (-47))%Q /\
    format_f 2 (Finite y) = format_f 2 (Finite r) /\
    event_recorded "slot1"
      (clock st, "METRICS", summary_text (edge_tx g) (trad_tx g) (Finite r)) st st' /\
    states_kept "slot1" st st'.
Proof.
  intros Hrun Hlen.
  destruct (traditional_length df g evs Hrun) as [Ht He].
  assert (Hpos : 0 < trad_tx g).
  { destruct df as [|first rest]; [done|]. rewrite Ht. cbn [length]. lia. }
  destruct (reduction_pct_range (edge_tx g) (trad_tx g) He Hpos) as (r & Hr & Hb).
  destruct (summary_decodes (edge_tx g) (trad_tx g) r st ltac:(lia) ltac:(lia) Hb)
    as (y & Hdec & Hc & Hf).
  exists r, y. eexists. split; [unfold main; by rewrite Hrun, Hr|].
  split; [exact Hdec|]. cbn [metrics]. rewrite Ht. repeat (split; [done|]).
  unfold event_recorded, states_kept. cbn [events occupancy].
  by rewrite lookup_insert_eq, setdefault_lookup.
Qed.

Lemma summary_of_a_run_is_read_back_witness :
  exists g evs r y st',
    run_simulation scenario_A = Ok (g, evs) /\
    (Z.of_nat (length scenario_A) < 2 ^ 53) /\
    parse_payload MQTT_TOPIC_METRICS
      (summary_text (edge_tx g) (trad_tx g) (Finite r)) initial_state = (Ok tt, st') /\
    metrics st' =
      <["Reduction" := MetricFloat (Finite y)]>
        (<["EdgeAI" := MetricInt (edge_tx g)]>
           (<["Traditional" := MetricInt (Z.of_nat (length scenario_A))]>
              (metrics initial_state))).
Proof.
  assert (H : Z.of_nat (length scenario_A) < 2 ^ 53) by (vm_compute; reflexivity).
  eexists _, _.
  destruct (summary_of_a_run_is_read_back scenario_A _ _ initial_state eq_refl H)
    as (r & y & st' & _ & Hdec & Hm & _).
  exists r, y, st'. split; [reflexivity|]. split; [exact H|]. split; [exact Hdec|exact Hm].
Defined.

(** ** From the sensor frame to the slot grid *)

Section EndToEnd.

(** The loop without the handler and the drain loop agree when no
    message raises. *)
Lemma drain_all_ok msgs n st st' :
  for_each (fun m => parse_payload m.1 m.2) msgs st = (Ok tt, st') ->
  drain msgs n st = (Ok (n + length msgs)%nat, st').
Proof.
  revert n st. induction msgs as [|[topic payload] rest IH]; intros n st.
  - cbn [for_each drain length]. unfold ret. intros [= ->]. by rewrite Nat.add_0_r.
  - cbn [for_each fst snd]. unfold bind at 1.
    destruct (parse_payload topic payload st) as [[[]|e] st1] eqn:Hp; [|done].
    intros H. rewrite (drain_cons_ok _ _ _ _ _ _ Hp), (IH _ _ H).
    do 2 f_equal. cbn [length]. lia.
Qed.

(** The messages of a trace, decoded in order. *)
Lemma decode_trace rows :
  Forall (fun row =>
    (occupied_now row = 0 \/ occupied_now row = 1) /\
    is_probability (pred_prob row) /\
    contains "PRED_CHANGE" (timestamp row) = false) rows ->
  forall g st, exists st',
    for_each (fun m => parse_payload m.1 m.2)
      (concat (map messages_of (snd (gate_loop g rows)))) st = (Ok tt, st') /\
    (count_samples is_change (snd (gate_loop g rows)) = 0%nat ->
       deque_of (occupancy st') "slot1" = deque_of (occupancy st) "slot1") /\
    (count_samples is_change (snd (gate_loop g rows)) <> 0%nat ->
       exists t, latest (deque_of (occupancy st') "slot1") =
                 (Some t, StateInt (last_state (fst (gate_loop g rows))))).
Proof.
  induction 1 as [|row rest (Hocc & Hprob & Hts) Hrest IH]; intros g st.
  { exists st. split; [done|]. split; [done|]. by intros []. }
  rewrite gate_loop_cons. cbn [fst snd map concat].
  set (g1 := fst (loop_body g row)).
  unfold count_samples. cbn [List.filter].
  destruct (loop_body_cases g row) as [[-> Hl]|[[-> Hl]|[-> Hl]]];
    cbn [is_change messages_of length]; fold g1 in Hl.
  - destruct (change_messages_decode (occupied_now row) (timestamp row) st Hocc Hts)
      as (st1 & st2 & Hp1 & _ & _ & _ & Hp2 & _ & Hrec).
    destruct (IH g1 st2) as (st' & Hrun & Hnone & Hsome).
    exists st'. split.
    { cbn [encode app for_each fst snd]. unfold bind at 1. rewrite Hp1.
      unfold bind at 1. by rewrite Hp2. }
    split; [done|]. intros _.
    destruct (decide (count_samples is_change (snd (gate_loop g1 rest)) = 0%nat)) as [H0|H0].
    + rewrite (Hnone H0), (no_change_last_state _ _ H0), Hl.
      unfold state_recorded in Hrec. unfold deque_of at 1. rewrite Hrec. cbn [default].
      by eexists.
    + exact (Hsome H0).
  - destruct (pred_prob row) as [q| | |] eqn:Hq; try done.
    destruct (predicted_message_decodes q (timestamp row) st Hprob)
      as (y & st1 & Hp1 & _ & _ & Hkept & _).
    destruct (IH g1 st1) as (st' & Hrun & Hnone & Hsome).
    exists st'. split.
    { cbn [encode app for_each fst snd]. unfold bind at 1. by rewrite Hp1. }
    unfold states_kept in Hkept.
    assert (Hd : deque_of (occupancy st1) "slot1" = deque_of (occupancy st) "slot1").
    { unfold deque_of at 1. by rewrite Hkept. }
    split; [intros H0; by rewrite (Hnone H0)|exact Hsome].
  - destruct (IH g1 st) as (st' & Hrun & Hnone & Hsome).
    exists st'. by split.
Qed.

Lemma prepared_rows samples :
  Forall (fun s => is_probability (s_pred_prob s) /\
                   contains "PRED_CHANGE" (s_timestamp s) = false) samples ->
  Forall (fun row =>
    (occupied_now row = 0 \/ occupied_now row = 1) /\
    is_probability (pred_prob row) /\
    contains "PRED_CHANGE" (timestamp row) = false) (prepare samples).
Proof.
  intros H. unfold prepare. apply Forall_map. eapply Forall_impl; [exact H|].
  intros s [Hp Ht]. unfold prepare_row. cbn [occupied_now pred_prob timestamp].
  split; [|done]. destruct (float_ltb _ _); [by right|by left].
Qed.

End EndToEnd.

(** X10.  On a frame of sensor samples whose probabilities are
    probabilities and whose timestamp texts are free of [PRED_CHANGE],
    the dashboard decodes every message of the run without a parse
    error, so the drain loop leaves the same session as the decoder
    alone.  If the run sent a Change, the pair the slot grid shows for
    [slot1] carries the occupancy of the last sample; if it sent none,
    the occupancy deque of [slot1] is as it was: a frame of constant
    occupancy never tells the dashboard its state. *)
Theorem dashboard_shows_the_last_occupancy samples st :
  samples <> [] ->
  Forall (fun s => is_probability (s_pred_prob s) /\
                   contains "PRED_CHANGE" (s_timestamp s) = false) samples ->
  exists g evs st',
    run_simulation (prepare samples) = Ok (g, evs) /\
    for_each (fun m => parse_payload m.1 m.2) (published g) st = (Ok tt, st') /\
    drain (published g) 0 st = (Ok (length (published g)), st') /\
    (count_samples is_change evs <> 0%nat ->
       exists t, latest (deque_of (occupancy st') "slot1") = (Some t, StateInt (last_state g))) /\
    (count_samples is_change evs = 0%nat ->
       deque_of (occupancy st') "slot1" = deque_of (occupancy st) "slot1") /\
    (forall row, last (prepare samples) = Some row -> last_state g = occupied_now row).
Proof.
  intros Hne Hall.
  destruct samples as [|s rest]; [done|].
  set (df := prepare (s :: rest)) in *.
  set (first := prepare_row s).
  assert (Hrun : run_simulation df = Ok (gate_loop (initial_gate first) df)) by done.
  destruct (gate_loop (initial_gate first) df) as [g evs] eqn:Hloop.
  destruct (decode_trace df (prepared_rows _ Hall) (initial_gate first) st)
    as (st' & Hdec & Hnone & Hsome).
  pose proof (gate_loop_published (initial_gate first) df) as Hpub.
  rewrite Hloop in Hdec, Hnone, Hsome, Hpub. cbn [fst snd initial_gate published app] in *.
  rewrite <- Hpub in Hdec.
  exists g, evs, st'. split; [done|]. split; [done|].
  split; [exact (drain_all_ok _ 0 _ _ Hdec)|]. split; [done|]. split; [done|].
  intros row Hlast. apply last_Some in Hlast as [init Hinit].
  pose proof (gate_loop_snoc (initial_gate first) init row) as Hs.
  rewrite <- Hinit, Hloop in Hs. cbn [fst] in Hs. rewrite Hs.
  apply loop_body_last_state.
Qed.

Lemma dashboard_shows_the_last_occupancy_witness :
  exists g evs st',
    run_simulation (prepare scenario_B_samples) = Ok (g, evs) /\
    drain (published g) 0 initial_state = (Ok (length (published g)), st') /\
    (count_samples is_change evs = 0%nat ->
       deque_of (occupancy st') "slot1" = deque_of (occupancy initial_state) "slot1").
Proof.
  assert (Hne : scenario_B_samples <> []) by done.
  assert (Hall : Forall (fun s => is_probability (s_pred_prob s) /\
                   contains "PRED_CHANGE" (s_timestamp s) = false) scenario_B_samples).
  { unfold scenario_B_samples.
    repeat (apply Forall_cons; split;
            [split; [unfold is_probability, Qle; cbn [s_pred_prob Qnum Qden]; lia
                    |vm_compute; reflexivity]|]).
    apply Forall_nil. done. }
  destruct (dashboard_shows_the_last_occupancy scenario_B_samples initial_state Hne Hall)
    as (g & evs & st' & Hrun & _ & Hdrain & _ & Hnone & _).
  exists g, evs, st'. split; [exact Hrun|]. split; [exact Hdrain|exact Hnone].
Defined.

(** X11.  The slot grid never indexes a column it has not made: with
    [slots] known slots it makes [min(4, slots)] columns and puts the
    slot of rank [i < slots] in column [i % 4], which is one of them;
    slots four ranks apart share a column, and up to four slots each
    have a column of their own. *)
Theorem column_index_in_range slots i :
  (i < slots)%nat ->
  (column_index i < column_count slots)%nat /\
  column_index (i + 4) = column_index i /\
  (slots <= 4 -> column_index i = i /\ column_count slots = slots)%nat.
Proof.
  intros Hi. unfold column_index, column_count.
  pose proof (Nat.mod_upper_bound i 4 ltac:(lia)) as Hm.
  pose proof (Nat.Div0.mod_le i 4) as Hle.
  split; [lia|]. split.
  - replace (i + 4)%nat with (i + 1 * 4)%nat by lia. by rewrite Nat.Div0.mod_add.
  - intros H4. rewrite Nat.mod_small by lia. lia.
Qed.

Lemma column_index_in_range_witness :
  (5 < 6)%nat /\ (column_index 5 < column_count 6)%nat.
Proof.
  assert (H : (5 < 6)%nat) by lia.
  split; [exact H|]. exact (proj1 (column_index_in_range 6 5 H)).
Defined.

(** X12.  The deques have the most recent entry first, and the charts
    plot the last 200 rows of the list: once a slot holds 200 entries
    and until its deque is full, a new entry changes nothing in the rows
    its chart plots, which stay the 200 oldest, while the events table
    shows the new entry first. *)
Theorem chart_keeps_the_oldest_rows {A : Type} (x : A) (d : list A) :
  (200 <= length d)%nat -> (length d < maxlen)%nat ->
  chart_rows (appendleft x d) = chart_rows d /\
  length (chart_rows d) = 200%nat /\
  (forall i, (i < 200)%nat ->
     chart_rows (appendleft x d) !! i = d !! (length d - 200 + i)%nat) /\
  recent_events (appendleft x d) = x :: take 5 d.
Proof.
  intros Hlo Hhi. unfold chart_rows, appendleft, recent_events.
  rewrite (take_ge (x :: d)) by (cbn [length]; unfold maxlen in *; lia).
  cbn [length]. replace (S (length d) - 200)%nat with (S (length d - 200)) by lia.
  cbn [drop]. split; [done|]. split; [rewrite length_drop; lia|]. split; [|done].
  intros i Hi. by rewrite lookup_drop.
Qed.

Lemma chart_keeps_the_oldest_rows_witness :
  (200 <= length (replicate 200 0%nat))%nat /\
  (length (replicate 200 0%nat) < maxlen)%nat /\
  chart_rows (appendleft 1%nat (replicate 200 0%nat)) = chart_rows (replicate 200 0%nat).
Proof.
  assert (H1 : (200 <= length (replicate 200 0%nat))%nat) by (rewrite length_replicate; lia).
  assert (H2 : (length (replicate 200 0%nat) < maxlen)%nat)
    by (rewrite length_replicate; unfold maxlen; lia).
  split; [exact H1|]. split; [exact H2|].
  exact (proj1 (chart_keeps_the_oldest_rows 1%nat (replicate 200 0%nat) H1 H2)).
Defined.

(** ** The decoder: its one failure and the kind of a message *)

Section Failures.

Lemma count_char_app c s1 s2 :
  count_char c (s1 +:+ s2) = (count_char c s1 + count_char c s2)%nat.
Proof.
  induction s1 as [|a s1 IH]; [done|]. cbn [String.append count_char]. rewrite IH. lia.
Qed.

Lemma digit_is_no_dot c : is_digit c = true -> Ascii.eqb c "." = false /\ is_dot c = false.
Proof.
  unfold is_digit, is_dot, code. intros [H1 H2]%andb_true_iff.
  apply N.leb_le in H1, H2.
  assert (Hne : N_of_ascii c <> 46%N) by lia.
  split; [|by apply N.eqb_neq].
  apply Ascii.eqb_neq. intros ->. by apply Hne.
Qed.

Lemma digit_or_dot_cases c :
  is_digit_or_dot c = true -> is_digit c = false -> c = "."%char.
Proof.
  unfold is_digit_or_dot. intros H Hd. rewrite Hd in H. cbn [orb] in H.
  unfold code in H. apply N.eqb_eq in H.
  rewrite <- (ascii_N_embedding c), H. reflexivity.
Qed.

Lemma digits_no_dots s :
  all_chars is_digit s = true -> count_char "." s = 0%nat /\ (s <> "" -> all_chars is_dot s = false).
Proof.
  induction s as [|c s IH]; [done|]. cbn [all_chars count_char].
  intros [Hc Hs]%andb_true_iff. destruct (digit_is_no_dot c Hc) as [-> ->].
  destruct (IH Hs) as [-> _]. done.
Qed.

(** [float] on a text of digits and dots: it raises when the text has
    two dots or more, or dots only. *)
Lemma py_float_rejects g :
  all_chars is_digit_or_dot g = true -> g <> "" ->
  ((exists e, py_float g = Raise e) <->
   (2 <= count_char "." g)%nat \/ all_chars is_dot g = true).
Proof.
  intros Hall Hne. unfold py_float.
  pose proof (span_spec is_digit g) as (Hg & Hip & Hr).
  destruct (span is_digit g) as [ip r]. cbn [fst snd] in *.
  destruct (digits_no_dots ip Hip) as [Hc0 Hnd].
  destruct r as [|c r'].
  { rewrite app_empty_r in Hg. subst ip. destruct g as [|a g]; [done|]. cbn [is_empty].
    split; [by intros [e ?]|]. rewrite Hc0, (Hnd ltac:(done)). intros [?|?]; [lia|done]. }
  rewrite <- Hg, all_chars_app in Hall. apply andb_true_iff in Hall as [_ Hall].
  cbn [all_chars] in Hall. apply andb_true_iff in Hall as [Hcd Hall].
  pose proof (digit_or_dot_cases c Hcd Hr) as ->.
  pose proof (span_spec is_digit r') as (Hr' & Hfp & Hrest).
  destruct (span is_digit r') as [fp rest]. cbn [fst snd] in *.
  destruct (digits_no_dots fp Hfp) as [Hf0 Hfd].
  change (code "." =? 46)%N with true. cbn [andb].
  rewrite <- Hg, <- Hr'. rewrite count_char_app. cbn [count_char].
  change (Ascii.eqb "." ".") with true. rewrite count_char_app, Hc0, Hf0.
  rewrite !all_chars_app. cbn [all_chars]. change (is_dot ".") with true.
  destruct rest as [|d rest'].
  - cbn [is_empty count_char all_chars andb]. rewrite app_empty_r.
    destruct ip as [|a ip].
    + destruct fp as [|b fp].
      * cbn. split; [by right|by eexists].
      * rewrite (Hfd ltac:(done)). cbn [is_empty andb negb all_chars].
        split; [by intros [e ?]|]. intros [?|?]; [lia|done].
    + cbn [is_empty andb negb]. rewrite (Hnd ltac:(done)). cbn [andb].
      split; [by intros [e ?]|]. intros [?|?]; [lia|done].
  - cbn [is_empty andb].
    rewrite <- Hr', all_chars_app in Hall. apply andb_true_iff in Hall as [_ Hall].
    cbn [all_chars] in Hall. apply andb_true_iff in Hall as [Hdd _].
    pose proof (digit_or_dot_cases d Hdd Hrest) as ->.
    cbn [count_char]. change (Ascii.eqb "." ".") with true.
    split; [intros _; left; lia|by eexists].
Qed.

Lemma match_prob_group s g :
  match_prob s = Some g -> all_chars is_digit_or_dot g = true /\ g <> "".
Proof.
  unfold match_prob. destruct (strip_prefix "prob=" s) as [r|]; [|done].
  pose proof (span_spec is_digit_or_dot r) as (_ & Hd & _).
  destruct (span is_digit_or_dot r) as [d rest]. cbn [fst] in Hd.
  destruct d; [done|]. by intros [= <-].
Qed.

Lemma re_search_match_prob s g :
  re_search match_prob s = Some g -> all_chars is_digit_or_dot g = true /\ g <> "".
Proof.
  induction s as [|c s IH]; cbn [re_search].
  - destruct (match_prob "") eqn:H; [|done]. intros [= <-]. by apply match_prob_group in H.
  - destruct (match_prob (String c s)) eqn:H; [|exact IH].
    intros [= <-]. by apply match_prob_group in H.
Qed.

Lemma event_recorded_inj slot x y st st' :
  event_recorded slot x st st' -> event_recorded slot y st st' -> x = y.
Proof.
  unfold event_recorded, appendleft. intros H1 H2. rewrite H1 in H2.
  cbn [take maxlen] in H2. by injection H2.
Qed.

End Failures.

(** X13.  The decoder has one way to fail: [parse_payload] raises
    exactly on a message off the metrics topic whose text contains
    [PRED_CHANGE] and whose [prob=] group [float] rejects; it raises the
    ValueError of [float] and leaves the session as it was on entry,
    the slot's deques made.  The group is a non-empty text of digits and
    dots, and [float] rejects it exactly when it has two dots or more,
    or dots only.  A message of any other kind is always decoded. *)
Theorem decoder_raises_only_on_unreadable_probability topic payload st :
  (forall e st',
     parse_payload topic payload st = (Raise e, st') <->
     endswith topic "metrics/transmissions" = false /\
     contains "PRED_CHANGE" (strip payload) = true /\
     st' = entered (slot_of_topic topic) st /\
     exists g, re_search match_prob (strip payload) = Some g /\ py_float g = Raise e) /\
  (forall g, re_search match_prob (strip payload) = Some g ->
     all_chars is_digit_or_dot g = true /\ g <> "" /\
     ((exists e, py_float g = Raise e) <->
      (2 <= count_char "." g)%nat \/ all_chars is_dot g = true)) /\
  (kind_of topic payload <> "PRED_CHANGE" ->
     exists st', parse_payload topic payload st = (Ok tt, st')).
Proof.
  split; [|split].
  - intros e st'. split.
    + intros H.
      destruct (endswith topic "metrics/transmissions") eqn:Hm.
      { destruct (parse_payload_metrics topic payload st Hm) as (st2 & H2 & _). congruence. }
      destruct (contains "PRED_CHANGE" (strip payload)) eqn:Hp.
      { destruct (read_prob (strip payload)) as [prob|e0] eqn:Hr.
        - destruct (parse_payload_pred_change topic payload st prob Hm Hp Hr) as (st2 & H2 & _).
          congruence.
        - rewrite (parse_payload_pred_change_raises topic payload st e0 Hm Hp Hr) in H.
          injection H as -> <-.
          apply read_prob_raises in Hr as (g & Hg & Hf & _). eauto 10. }
      destruct (startswith (strip payload) "CHANGE") eqn:Hc.
      { destruct (parse_payload_change topic payload st Hm Hp Hc) as (st2 & H2 & _). congruence. }
      destruct (endswith topic "/state") eqn:Hs.
      { destruct (parse_payload_state topic payload st Hm Hp Hc Hs) as (st2 & H2 & _).
        congruence. }
      destruct (parse_payload_msg topic payload st Hm Hp Hc Hs) as (st2 & H2 & _). congruence.
    + intros (Hm & Hp & -> & g & Hg & Hf).
      apply parse_payload_pred_change_raises; [done..|].
      unfold read_prob. by rewrite Hg, Hf.
  - intros g Hg. destruct (re_search_match_prob _ _ Hg) as [Hd Hne].
    split; [done|]. split; [done|]. by apply py_float_rejects.
  - unfold kind_of. intros Hk.
    destruct (endswith topic "metrics/transmissions") eqn:Hm.
    { destruct (parse_payload_metrics topic payload st Hm) as (st2 & H2 & _). eauto. }
    destruct (contains "PRED_CHANGE" (strip payload)) eqn:Hp; [done|].
    destruct (startswith (strip payload) "CHANGE") eqn:Hc.
    { destruct (parse_payload_change topic payload st Hm Hp Hc) as (st2 & H2 & _). eauto. }
    destruct (endswith topic "/state") eqn:Hs.
    { destruct (parse_payload_state topic payload st Hm Hp Hc Hs) as (st2 & H2 & _). eauto. }
    destruct (parse_payload_msg topic payload st Hm Hp Hc Hs) as (st2 & H2 & _). eauto.
Qed.

(** X14.  A decoded message is filed under exactly one kind, the one
    the tests give in their order: METRICS for a topic ending in
    [metrics/transmissions], else PRED_CHANGE for a text containing
    that word, else CHANGE for a text starting with it, else STATE for a
    topic ending in [/state], else MSG with the stripped payload as its
    info.  The new event carries the clock reading of the call; only a
    PRED_CHANGE touches the probabilities, only a CHANGE or a STATE the
    occupancy; the raw log gets the topic and the stripped payload. *)
Theorem decoded_kind_follows_the_tests topic payload st st' :
  parse_payload topic payload st = (Ok tt, st') ->
  (exists info,
     event_recorded (slot_of_topic topic) (clock st, kind_of topic payload, info) st st') /\
  (forall t kind info,
     event_recorded (slot_of_topic topic) (t, kind, info) st st' ->
     t = clock st /\ kind = kind_of topic payload) /\
  (kind_of topic payload <> "PRED_CHANGE" -> probs_kept (slot_of_topic topic) st st') /\
  (kind_of topic payload <> "CHANGE" -> kind_of topic payload <> "STATE" ->
     states_kept (slot_of_topic topic) st st') /\
  (kind_of topic payload = "MSG" ->
     event_recorded (slot_of_topic topic) (clock st, "MSG", strip payload) st st') /\
  raw_log st' = appendleft (clock st, topic, strip payload) (raw_log st).
Proof.
  intros H.
  assert (Hraw : raw_log st' = appendleft (clock st, topic, strip payload) (raw_log st)).
  { destruct (parse_payload_shape topic payload) as (w & _ & _ & Hshape).
    destruct (Hshape st) as [(kind & info & pv & sv & Hrun & _)|(e & Hrun & _)]; [|congruence].
    rewrite Hrun in H. by injection H as <-. }
  assert (Hmain : exists info,
    event_recorded (slot_of_topic topic) (clock st, kind_of topic payload, info) st st' /\
    (kind_of topic payload <> "PRED_CHANGE" -> probs_kept (slot_of_topic topic) st st') /\
    (kind_of topic payload <> "CHANGE" -> kind_of topic payload <> "STATE" ->
       states_kept (slot_of_topic topic) st st') /\
    (kind_of topic payload = "MSG" -> info = strip payload)).
  { unfold kind_of.
    destruct (endswith topic "metrics/transmissions") eqn:Hm.
    { destruct (parse_payload_metrics topic payload st Hm) as (st2 & H2 & He & Hp & Hs & _).
      assert (st2 = st') as -> by congruence. by eexists. }
    destruct (contains "PRED_CHANGE" (strip payload)) eqn:Hp.
    { destruct (read_prob (strip payload)) as [prob|e0] eqn:Hr.
      - destruct (parse_payload_pred_change topic payload st prob Hm Hp Hr)
          as (st2 & H2 & He & _ & Hs & _).
        assert (st2 = st') as -> by congruence. by eexists.
      - rewrite (parse_payload_pred_change_raises topic payload st e0 Hm Hp Hr) in H. done. }
    destruct (startswith (strip payload) "CHANGE") eqn:Hc.
    { destruct (parse_payload_change topic payload st Hm Hp Hc) as (st2 & H2 & He & _ & Hpk & _).
      assert (st2 = st') as -> by congruence. by eexists. }
    destruct (endswith topic "/state") eqn:Hs.
    { destruct (parse_payload_state topic payload st Hm Hp Hc Hs) as (st2 & H2 & He & _ & Hpk & _).
      assert (st2 = st') as -> by congruence. by eexists. }
    destruct (parse_payload_msg topic payload st Hm Hp Hc Hs) as (st2 & H2 & He & Hpk & Hsk & _).
    assert (st2 = st') as -> by congruence. by eexists. }
  destruct Hmain as (info & He & Hp & Hs & Hmsg).
  split; [by exists info|]. split.
  { intros t kind info' He'. by injection (event_recorded_inj _ _ _ _ _ He' He). }
  repeat (split; [done|]). split; [|done].
  intros Hk. rewrite <- (Hmsg Hk). by rewrite Hk in He.
Qed.

Lemma decoded_kind_follows_the_tests_witness :
  exists st',
    parse_payload "smartparking/slot2/event" " hello " initial_state = (Ok tt, st') /\
    event_recorded "slot2" (0%nat, "MSG", "hello") initial_state st'.
Proof.
  destruct (parse_payload_msg "smartparking/slot2/event" " hello " initial_state)
    as (st' & H & _); [vm_compute; reflexivity..|].
  exists st'. split; [exact H|].
  exact (proj1 (proj2 (proj2 (proj2 (proj2
    (decoded_kind_follows_the_tests "smartparking/slot2/event" " hello " initial_state st' H)))))
    eq_refl).
Defined.
